(** * Portfolio risk analytics: the analytics engine of [streamlit_app.py]

    The engine ([PortfolioAnalytics]) computes over pandas / numpy [float64]
    data.  The embedding keeps the structure of the Python code (one
    definition per method, one local definition per local variable) and
    gives the numbers two readings.

    - The idealised reading ([float64] below): a finite number is an exact
      real number, so there is no rounding and no overflow, and there is
      a single zero.  The special values that drive the control flow of
      the code (NaN for missing data, the two infinities) are kept, with
      the IEEE 754 rules for them.  The statements about shapes, control
      flow, exceptions, NaN and the algebra of the metrics are proved in
      this reading.

    - The binary64 reading (module [Binary64]): the same methods over the
      kernel's binary64 floats, where every operation rounds as numpy's
      does.  It is used where rounding decides what the code returns:
      the zero-volatility guard of the Sharpe ratio and the total of the
      risk contribution percentages.

    The pandas and numpy operations that the engine calls are defined
    from their documented behaviour: reductions of a Series skip missing
    values, [std] and [cov] are the sample statistics ([ddof=1]),
    [np.percentile] interpolates linearly, and arithmetic on operands of
    different shapes raises [ValueError]. *)

From Stdlib Require Import Floats QArith.
From Stdlib Require Import Reals Lra Lia Ascii String List Bool Arith.
From Stdlib Require Import Sorting.Permutation Sorting.Sorted.
Import ListNotations.

(** A decimal literal of a binary64 number stands for the nearest binary64
    number, as it does in Python. *)
Set Warnings "-inexact-float".

Open Scope R_scope.

(** ** Numbers *)

Inductive float64 : Type :=
| NaN
| NInf
| PInf
| Fin (x : R).

(** Comparisons of real numbers as booleans. *)
Definition Rltb (x y : R) : bool := if Rlt_dec x y then true else false.
Definition Rleb (x y : R) : bool := if Rle_dec x y then true else false.
Definition Reqb (x y : R) : bool := if Req_dec_T x y then true else false.

(** [np.isnan] and [pd.notna]. *)
Definition isnan (a : float64) : bool :=
  match a with NaN => true | _ => false end.

Definition notna (a : float64) : bool := negb (isnan a).

Definition fneg (a : float64) : float64 :=
  match a with
  | NaN => NaN
  | NInf => PInf
  | PInf => NInf
  | Fin x => Fin (- x)
  end.

Definition fadd (a b : float64) : float64 :=
  match a, b with
  | NaN, _ | _, NaN => NaN
  | PInf, NInf | NInf, PInf => NaN
  | PInf, _ | _, PInf => PInf
  | NInf, _ | _, NInf => NInf
  | Fin x, Fin y => Fin (x + y)
  end.

Definition fsub (a b : float64) : float64 := fadd a (fneg b).

(** The infinity with the sign of [x]; [0 * inf] is NaN. *)
Definition signed_inf (x : R) : float64 :=
  if Rltb 0 x then PInf else if Rltb x 0 then NInf else NaN.

Definition fmul (a b : float64) : float64 :=
  match a, b with
  | NaN, _ | _, NaN => NaN
  | PInf, PInf | NInf, NInf => PInf
  | PInf, NInf | NInf, PInf => NInf
  | PInf, Fin y => signed_inf y
  | NInf, Fin y => signed_inf (- y)
  | Fin x, PInf => signed_inf x
  | Fin x, NInf => signed_inf (- x)
  | Fin x, Fin y => Fin (x * y)
  end.

(** Division; a finite number divided by zero is an infinity (the zero of
    the model is the positive one) and [0 / 0] is NaN. *)
Definition fdiv (a b : float64) : float64 :=
  match a, b with
  | NaN, _ | _, NaN => NaN
  | PInf, Fin y => if Rltb y 0 then NInf else PInf
  | NInf, Fin y => if Rltb y 0 then PInf else NInf
  | Fin _, PInf | Fin _, NInf => Fin 0
  | Fin x, Fin y => if Reqb y 0 then signed_inf x else Fin (x / y)
  | _, _ => NaN
  end.

Definition fsqrt (a : float64) : float64 :=
  match a with
  | NaN | NInf => NaN
  | PInf => PInf
  | Fin x => if Rltb x 0 then NaN else Fin (sqrt x)
  end.

(** Comparisons: every comparison with NaN is false. *)
Definition fltb (a b : float64) : bool :=
  match a, b with
  | NaN, _ | _, NaN => false
  | _, NInf => false
  | NInf, _ => true
  | PInf, _ => false
  | _, PInf => true
  | Fin x, Fin y => Rltb x y
  end.

Definition fleb (a b : float64) : bool :=
  match a, b with
  | NaN, _ | _, NaN => false
  | NInf, _ => true
  | _, PInf => true
  | _, NInf => false
  | PInf, _ => false
  | Fin x, Fin y => Rleb x y
  end.

Definition of_nat (n : nat) : float64 := Fin (INR n).

(** ** numpy arrays and pandas Series

    A one-dimensional array or a Series is the list of its values.  The
    row labels (dates) are left out: every operation of the engine works
    on Series that share one index, where pandas aligns by position. *)

Definition Series := list float64.

(** [ndarray.sum], [np.dot]: plain sums and products, NaN propagates. *)
Fixpoint np_sum (a : list float64) : float64 :=
  match a with
  | [] => Fin 0
  | x :: t => fadd x (np_sum t)
  end.

Fixpoint np_prod (a : list float64) : float64 :=
  match a with
  | [] => Fin 1
  | x :: t => fmul x (np_prod t)
  end.

(** Element-wise binary operation on two arrays of one length. *)
Fixpoint map2 {A B C : Type} (f : A -> B -> C) (a : list A) (b : list B) : list C :=
  match a, b with
  | x :: a', y :: b' => f x y :: map2 f a' b'
  | _, _ => []
  end.

(** pandas reductions ([skipna=True], the default): missing values are
    left out before reducing. *)
Definition valid (s : Series) : Series := filter notna s.

Definition series_sum (s : Series) : float64 := np_sum (valid s).

Definition series_prod (s : Series) : float64 := np_prod (valid s).

Definition series_mean (s : Series) : float64 :=
  fdiv (np_sum (valid s)) (of_nat (length (valid s))).

(** [Series.std()], sample standard deviation ([ddof=1]); NaN when at most
    one observation is valid. *)
Definition series_var (s : Series) : float64 :=
  let v := valid s in
  let count := length v in
  if (count <=? 1)%nat then NaN
  else
    let avg := fdiv (np_sum v) (of_nat count) in
    let sqr := map (fun x => fmul (fsub avg x) (fsub avg x)) v in
    fdiv (np_sum sqr) (of_nat (count - 1)).

Definition series_std (s : Series) : float64 := fsqrt (series_var s).

Definition fmin (a b : float64) : float64 := if fltb b a then b else a.
Definition fmax (a b : float64) : float64 := if fltb a b then b else a.

(** [Series.min()]: NaN when no value is valid. *)
Definition series_min (s : Series) : float64 :=
  match valid s with
  | [] => NaN
  | x :: t => fold_left fmin t x
  end.

(** [Series.cumprod()]: a missing value stays missing and does not enter
    the running product. *)
Fixpoint cumprod_from (acc : float64) (s : Series) : Series :=
  match s with
  | [] => []
  | x :: t =>
      if isnan x then NaN :: cumprod_from acc t
      else fmul acc x :: cumprod_from (fmul acc x) t
  end.

Definition cumprod (s : Series) : Series := cumprod_from (Fin 1) s.

(** [Series.expanding().max()] ([min_periods=1]): the largest valid value
    seen so far, NaN while there is none. *)
Fixpoint expanding_max_from (cur : option float64) (s : Series) : Series :=
  match s with
  | [] => []
  | x :: t =>
      let cur' :=
        if isnan x then cur
        else match cur with
             | None => Some x
             | Some m => Some (fmax m x)
             end in
      match cur' with None => NaN | Some m => m end :: expanding_max_from cur' t
  end.

Definition expanding_max (s : Series) : Series := expanding_max_from None s.

(** Sorting, for the percentile. *)
Fixpoint insert (x : float64) (l : list float64) : list float64 :=
  match l with
  | [] => [x]
  | y :: t => if fleb x y then x :: l else y :: insert x t
  end.

Fixpoint sort (l : list float64) : list float64 :=
  match l with
  | [] => []
  | x :: t => insert x (sort t)
  end.

(** [np.percentile(a, q)] with the default method (linear): with [n]
    sorted values the virtual index is [q/100 * (n-1)], and the result
    interpolates between the two neighbours.  NaN when [a] holds a NaN. *)
Definition np_percentile (a : list float64) (q : nat) : float64 :=
  if existsb isnan a then NaN
  else
    let s := sort a in
    let n := length a in
    let pos := (q * (n - 1))%nat in
    let lo := (pos / 100)%nat in
    let hi := Nat.min (lo + 1) (n - 1) in
    let g := Fin (INR (pos mod 100) / 100) in
    let x_lo := nth lo s NaN in
    let x_hi := nth hi s NaN in
    fadd x_lo (fmul (fsub x_hi x_lo) g).

(** ** pandas DataFrames *)

Record DataFrame : Type := mkDataFrame {
  columns : list string;
  values : list (list float64)   (* one list per row *)
}.

Definition nrows (df : DataFrame) : nat := length (values df).
Definition ncols (df : DataFrame) : nat := length (columns df).

(** Every row has one cell per column. *)
Definition rectangular (df : DataFrame) : Prop :=
  Forall (fun row => length row = ncols df) (values df).

Definition cell (df : DataFrame) (t a : nat) : float64 :=
  nth a (nth t (values df) []) NaN.

Definition column (df : DataFrame) (a : nat) : Series :=
  map (fun row => nth a row NaN) (values df).

(** [df.pct_change()] computes [df / df.shift(1) - 1]: each row against
    the row before it; the first row has no predecessor and is all NaN. *)
Definition pct (p c : float64) : float64 := fsub (fdiv c p) (Fin 1).

Fixpoint pct_rows (prev : list float64) (rows : list (list float64))
  : list (list float64) :=
  match rows with
  | [] => []
  | r :: t => map2 pct prev r :: pct_rows r t
  end.

Definition pct_change (df : DataFrame) : DataFrame :=
  mkDataFrame (columns df) (pct_rows (repeat NaN (ncols df)) (values df)).

(** [df.dropna()]: rows with any missing value are removed. *)
Definition dropna (df : DataFrame) : DataFrame :=
  mkDataFrame (columns df) (filter (forallb notna) (values df)).

(** [df.cov()]: sample covariance of each pair of columns over the rows
    where both are valid; NaN with fewer than two such rows. *)
Definition pairwise_valid (x y : Series) : list (float64 * float64) :=
  filter (fun p => notna (fst p) && notna (snd p)) (combine x y).

Definition cov_pair (x y : Series) : float64 :=
  let obs := pairwise_valid x y in
  let n := length obs in
  if (n <=? 1)%nat then NaN
  else
    let mx := fdiv (np_sum (map fst obs)) (of_nat n) in
    let my := fdiv (np_sum (map snd obs)) (of_nat n) in
    fdiv (np_sum (map (fun p => fmul (fsub (fst p) mx) (fsub (snd p) my)) obs))
         (of_nat (n - 1)).

Definition df_cov (df : DataFrame) : DataFrame :=
  mkDataFrame (columns df)
    (map (fun i => map (fun j => cov_pair (column df i) (column df j))
                       (seq 0 (ncols df)))
         (seq 0 (ncols df))).

(** [df * c] for a scalar [c]. *)
Definition df_scale (df : DataFrame) (c : float64) : DataFrame :=
  mkDataFrame (columns df) (map (map (fun x => fmul x c)) (values df)).

(** ** Exceptions *)

Inductive exn : Type := ValueError | KeyError.

Inductive result (A : Type) : Type :=
| Ok (a : A)
| Raise (e : exn).

Arguments Ok {A} a.
Arguments Raise {A} e.

Definition bind {A B : Type} (r : result A) (k : A -> result B) : result B :=
  match r with
  | Ok a => k a
  | Raise e => Raise e
  end.

Notation "x <- r ;; k" := (bind r (fun x => k))
  (at level 61, r at next level, right associativity).

(** [df * w] for a one-dimensional array [w]: [w] is matched against the
    columns, and pandas raises [ValueError] ("Unable to coerce to Series,
    length must be K") when it has another length. *)
Definition df_mul_array (df : DataFrame) (w : list float64)
  : result DataFrame :=
  if (ncols df =? length w)%nat
  then Ok (mkDataFrame (columns df) (map (fun row => map2 fmul row w) (values df)))
  else Raise ValueError.

(** [df.sum(axis=1)]: one sum per row, missing values skipped. *)
Definition df_sum_axis1 (df : DataFrame) : Series :=
  map series_sum (values df).

(** [np.dot] of two vectors, and of a matrix with a vector; numpy raises
    [ValueError] when the shapes are not aligned. *)
Definition dot (a b : list float64) : float64 := np_sum (map2 fmul a b).

Definition np_dot_vv (a b : list float64) : result float64 :=
  if (length a =? length b)%nat then Ok (dot a b) else Raise ValueError.

Definition np_dot_mv (m : DataFrame) (v : list float64)
  : result (list float64) :=
  if (ncols m =? length v)%nat
  then Ok (map (fun row => dot row v) (values m))
  else Raise ValueError.

(** ** Python dictionaries with string keys *)

Inductive value : Type :=
| Scalar (x : float64)
| Curve (s : Series).

Definition dict := list (string * value).

Fixpoint dict_get (k : string) (d : dict) : option value :=
  match d with
  | [] => None
  | (k', v) :: t => if String.eqb k k' then Some v else dict_get k t
  end.

Definition keys (d : dict) : list string := map fst d.

(** Truth value of a dictionary: [not d] holds for the empty one only. *)
Definition dict_is_empty (d : dict) : bool :=
  match d with [] => true | _ => false end.

(** ** The engine: class [PortfolioAnalytics] *)

Record PortfolioAnalytics : Type := mkPortfolioAnalytics {
  tickers : list string;
  weights : list float64;
  start_date : Z;
  end_date : Z;
  data : option DataFrame;
  returns : option DataFrame
}.

(** [__init__]: no data and no returns yet. *)
Definition init (tickers : list string) (weights : list float64)
    (start_date end_date : Z) : PortfolioAnalytics :=
  mkPortfolioAnalytics tickers weights start_date end_date None None.

Definition set_data (self : PortfolioAnalytics) (d : option DataFrame)
  : PortfolioAnalytics :=
  mkPortfolioAnalytics (tickers self) (weights self) (start_date self)
    (end_date self) d (returns self).

Definition set_returns (self : PortfolioAnalytics) (r : option DataFrame)
  : PortfolioAnalytics :=
  mkPortfolioAnalytics (tickers self) (weights self) (start_date self)
    (end_date self) (data self) r.

(** [calculate_returns]: [self.data.pct_change().dropna()]. *)
Definition calculate_returns (self : PortfolioAnalytics) : option DataFrame :=
  match data self with
  | Some d => Some (dropna (pct_change d))
  | None => None
  end.

(** [portfolio_returns]: [(self.returns * self.weights).sum(axis=1)]. *)
Definition portfolio_returns (self : PortfolioAnalytics)
  : result (option Series) :=
  match returns self with
  | Some r =>
      weighted <- df_mul_array r (weights self) ;;
      Ok (Some (df_sum_axis1 weighted))
  | None => Ok None
  end.

(** The local variables of [calculate_metrics], as functions of
    [portfolio_rets]. *)
Definition total_return (portfolio_rets : Series) : float64 :=
  fsub (series_prod (map (fadd (Fin 1)) portfolio_rets)) (Fin 1).

Definition annualized_return (portfolio_rets : Series) : float64 :=
  fmul (series_mean portfolio_rets) (Fin 252).

Definition annualized_vol (portfolio_rets : Series) : float64 :=
  fmul (series_std portfolio_rets) (Fin (sqrt 252)).

Definition sharpe_ratio (portfolio_rets : Series) : float64 :=
  if fltb (Fin 0) (annualized_vol portfolio_rets)
  then fdiv (annualized_return portfolio_rets) (annualized_vol portfolio_rets)
  else Fin 0.

Definition var_95 (portfolio_rets : Series) : float64 :=
  np_percentile portfolio_rets 5.

(** [portfolio_rets[portfolio_rets <= var_95]] *)
Definition rets_below_var (portfolio_rets : Series) : Series :=
  filter (fun x => fleb x (var_95 portfolio_rets)) portfolio_rets.

Definition cvar_95 (portfolio_rets : Series) : float64 :=
  if (0 <? length (rets_below_var portfolio_rets))%nat
  then series_mean (rets_below_var portfolio_rets)
  else var_95 portfolio_rets.

Definition cumulative (portfolio_rets : Series) : Series :=
  cumprod (map (fadd (Fin 1)) portfolio_rets).

Definition running_max (portfolio_rets : Series) : Series :=
  expanding_max (cumulative portfolio_rets).

Definition drawdown (portfolio_rets : Series) : Series :=
  map2 fdiv
    (map2 fsub (cumulative portfolio_rets) (running_max portfolio_rets))
    (running_max portfolio_rets).

Definition max_drawdown (portfolio_rets : Series) : float64 :=
  series_min (drawdown portfolio_rets).

Open Scope string_scope.
Open Scope list_scope.

(** [calculate_metrics]: the empty dictionary when there is no return
    series or it has no rows, the ten-entry bundle otherwise. *)
Definition calculate_metrics (self : PortfolioAnalytics) : result dict :=
  portfolio_rets <- portfolio_returns self ;;
  match portfolio_rets with
  | None => Ok []
  | Some portfolio_rets =>
      if (length portfolio_rets =? 0)%nat then Ok []
      else
        Ok [ ("Total Return", Scalar (total_return portfolio_rets));
             ("Annualized Return", Scalar (annualized_return portfolio_rets));
             ("Annualized Volatility", Scalar (annualized_vol portfolio_rets));
             ("Sharpe Ratio", Scalar (sharpe_ratio portfolio_rets));
             ("VaR (95%)", Scalar (var_95 portfolio_rets));
             ("CVaR (95%)", Scalar (cvar_95 portfolio_rets));
             ("Maximum Drawdown", Scalar (max_drawdown portfolio_rets));
             ("Portfolio Returns", Curve portfolio_rets);
             ("Cumulative Returns", Curve (cumulative portfolio_rets));
             ("Drawdown Series", Curve (drawdown portfolio_rets)) ]
  end.

(** The table returned by [risk_attribution], one list per column. *)
Record RiskTable : Type := mkRiskTable {
  Asset : list string;
  Weight : list float64;
  Risk_Contribution : list float64;
  Risk_Contribution_pct : list float64
}.

(** [pd.DataFrame({...})] raises [ValueError] when the columns do not all
    have one length. *)
Definition new_risk_table (asset : list string) (weight contrib pct : list float64)
  : result RiskTable :=
  if ((length asset =? length weight) && (length weight =? length contrib)
      && (length contrib =? length pct))%nat
  then Ok (mkRiskTable asset weight contrib pct)
  else Raise ValueError.

(** The local variables of [risk_attribution], as functions of
    [self.returns] and [self.weights]. *)
Definition cov_matrix (r : DataFrame) : DataFrame :=
  df_scale (df_cov r) (Fin 252).

Definition marginal_contrib (r : DataFrame) (w : list float64)
  : result (list float64) :=
  np_dot_mv (cov_matrix r) w.

Definition portfolio_variance (r : DataFrame) (w : list float64)
  : result float64 :=
  cw <- np_dot_mv (cov_matrix r) w ;;
  np_dot_vv w cw.

Definition risk_contrib (w m : list float64) (variance : float64)
  : list float64 :=
  map (fun x => fdiv x variance) (map2 fmul w m).

Definition risk_contrib_pct (rc : list float64) : list float64 :=
  map (fun x => fmul (fdiv x (np_sum rc)) (Fin 100)) rc.

(** [risk_attribution]: [None] without returns or when the portfolio
    variance is [<= 0], the attribution table otherwise. *)
Definition risk_attribution (self : PortfolioAnalytics)
  : result (option RiskTable) :=
  match returns self with
  | None => Ok None
  | Some r =>
      variance <- portfolio_variance r (weights self) ;;
      if fleb variance (Fin 0) then Ok None
      else
        m <- marginal_contrib r (weights self) ;;
        let rc := risk_contrib (weights self) m variance in
        tbl <- new_risk_table (tickers self) (weights self) rc
                 (risk_contrib_pct rc) ;;
        Ok (Some tbl)
  end.

(** ** The analysis run of [main]

    What [main] does once the "Analyze Portfolio" button is pressed, as a
    script that appends elements to the page and may stop with an
    exception.  Number formatting, chart styling and the emoji that start
    the headings are left out: an element carries the numbers it shows.  The price provider
    ([fetch_data], which calls yfinance) is outside the engine: its
    answer is the argument [fetched]. *)

Inductive element : Type :=
| st_error (msg : string)
| st_success (msg : string)
| st_subheader (title : string)
| pie_chart (vals : list float64) (names : list string)
| weights_table (names : list string) (vals : list float64)
| st_metric (label : string) (v : float64)
| st_metric_days (label : string) (n : nat)
| line_chart (title : string) (ys : Series)
| histogram (title : string) (xs : Series)
| bar_chart (title : string) (tbl : RiskTable)
| attribution_table (tbl : RiskTable).

Definition script (A : Type) : Type :=
  list element -> result A * list element.

Definition ret {A : Type} (a : A) : script A := fun page => (Ok a, page).

Definition emit (e : element) : script unit :=
  fun page => (Ok tt, page ++ [e]).

Definition lift {A : Type} (r : result A) : script A := fun page => (r, page).

Definition sbind {A B : Type} (c : script A) (k : A -> script B) : script B :=
  fun page =>
    match c page with
    | (Ok a, page') => k a page'
    | (Raise e, page') => (Raise e, page')
    end.

Notation "x <~ c ;; k" := (sbind c (fun x => k))
  (at level 61, c at next level, right associativity).
Notation "c ;;; k" := (sbind c (fun _ => k))
  (at level 61, right associativity).

(** [metrics[key]] where a number is shown. *)
Definition get_scalar (metrics : dict) (key : string) : result float64 :=
  match dict_get key metrics with
  | Some (Scalar x) => Ok x
  | _ => Raise KeyError
  end.

(** [metrics[key]] where a series is plotted. *)
Definition get_curve (metrics : dict) (key : string) : result Series :=
  match dict_get key metrics with
  | Some (Curve s) => Ok s
  | _ => Raise KeyError
  end.

Definition show_metric (metrics : dict) (label key : string) : script unit :=
  x <~ lift (get_scalar metrics key) ;;
  emit (st_metric label x).

Definition show_composition (tickers : list string) (weights : list float64)
  : script unit :=
  emit (st_success "Analysis completed successfully!") ;;;
  emit (st_subheader "Portfolio Composition") ;;;
  emit (pie_chart weights tickers) ;;;
  emit (weights_table tickers weights).

Definition show_key_metrics (metrics : dict) (days_analyzed : nat)
  : script unit :=
  emit (st_subheader "Key Performance Metrics") ;;;
  show_metric metrics "Total Return" "Total Return" ;;;
  show_metric metrics "Sharpe Ratio" "Sharpe Ratio" ;;;
  show_metric metrics "Annualized Return" "Annualized Return" ;;;
  show_metric metrics "Max Drawdown" "Maximum Drawdown" ;;;
  show_metric metrics "Volatility" "Annualized Volatility" ;;;
  show_metric metrics "VaR (95%)" "VaR (95%)" ;;;
  show_metric metrics "CVaR (95%)" "CVaR (95%)" ;;;
  emit (st_metric_days "Days Analyzed" days_analyzed).

Definition show_charts (metrics : dict) : script unit :=
  emit (st_subheader "Performance Analysis") ;;;
  cum <~ lift (get_curve metrics "Cumulative Returns") ;;
  emit (line_chart "Portfolio Cumulative Returns" cum) ;;;
  dd <~ lift (get_curve metrics "Drawdown Series") ;;
  emit (line_chart "Portfolio Drawdown" (map (fun x => fmul x (Fin 100)) dd)) ;;;
  rets <~ lift (get_curve metrics "Portfolio Returns") ;;
  emit (histogram "Daily Returns Distribution (%)"
          (map (fun x => fmul x (Fin 100)) rets)).

Definition show_attribution (portfolio : PortfolioAnalytics) : script unit :=
  emit (st_subheader "Risk Attribution Analysis") ;;;
  risk_attr <~ lift (risk_attribution portfolio) ;;
  match risk_attr with
  | Some tbl =>
      emit (bar_chart "Risk Contribution by Asset" tbl) ;;;
      emit (attribution_table tbl)
  | None => ret tt
  end.

Definition run_analysis (tickers : list string) (weights : list float64)
    (start_date end_date : Z) (fetched : option DataFrame) : script unit :=
  let portfolio := init tickers weights start_date end_date in
  let portfolio := set_data portfolio fetched in
  match data portfolio with
  | None =>
      emit (st_error
        "Unable to fetch data. Please check your ticker symbols and try again.")
  | Some _ =>
      let portfolio := set_returns portfolio (calculate_returns portfolio) in
      match returns portfolio with
      | None => emit (st_error "Unable to calculate returns.")
      | Some r =>
          metrics <~ lift (calculate_metrics portfolio) ;;
          if dict_is_empty metrics
          then emit (st_error "Unable to calculate portfolio metrics.")
          else
            show_composition tickers weights ;;;
            show_key_metrics metrics (nrows r) ;;;
            show_charts metrics ;;;
            show_attribution portfolio
      end
  end.

(** ** The sidebar of [main]: tickers and weights

    Text is ASCII text: the characters of the model are the code points
    0 to 127, where [str.strip], [str.upper] and [str.split] act as
    defined here. *)

Definition is_ascii (c : ascii) : bool := (nat_of_ascii c <? 128)%nat.

Fixpoint ascii_text (s : string) : bool :=
  match s with
  | EmptyString => true
  | String c t => is_ascii c && ascii_text t
  end.

(** The characters that [str.strip()] removes: tab, line feed, vertical
    tab, form feed, carriage return, the four separators 28 to 31 and the
    space. *)
Definition isspace (c : ascii) : bool :=
  let n := nat_of_ascii c in
  ((9 <=? n) && (n <=? 13) || (28 <=? n) && (n <=? 32))%nat.

Definition upper_char (c : ascii) : ascii :=
  let n := nat_of_ascii c in
  if ((97 <=? n) && (n <=? 122))%nat then ascii_of_nat (n - 32) else c.

(** [s.upper()] *)
Fixpoint str_upper (s : string) : string :=
  match s with
  | EmptyString => EmptyString
  | String c t => String (upper_char c) (str_upper t)
  end.

Fixpoint lstrip (s : string) : string :=
  match s with
  | EmptyString => EmptyString
  | String c t => if isspace c then lstrip t else s
  end.

Fixpoint rstrip (s : string) : string :=
  match s with
  | EmptyString => EmptyString
  | String c t =>
      match rstrip t with
      | EmptyString => if isspace c then EmptyString else String c EmptyString
      | t' => String c t'
      end
  end.

(** [s.strip()] *)
Definition strip (s : string) : string := rstrip (lstrip s).

(** [s.split(sep)]: the pieces between the separators, one more than
    there are separators. *)
Fixpoint str_split (sep : ascii) (s : string) : list string :=
  match s with
  | EmptyString => [EmptyString]
  | String c t =>
      if Ascii.eqb c sep then EmptyString :: str_split sep t
      else match str_split sep t with
           | h :: r => String c h :: r
           | [] => [String c EmptyString]
           end
  end.

(** Truth value of a string: false for the empty one only. *)
Definition str_bool (s : string) : bool :=
  match s with EmptyString => false | _ => true end.

(** [[ticker.strip().upper() for ticker in tickers_input.split(',')
      if ticker.strip()]] *)
Definition parse_tickers (tickers_input : string) : list string :=
  map (fun ticker => str_upper (strip ticker))
      (filter (fun ticker => str_bool (strip ticker))
              (str_split "," tickers_input)).

(** The built-in [sum]: a left fold from 0. *)
Definition py_sum (l : list float64) : float64 := fold_left fadd l (Fin 0).

(** [default_weight = 1.0 / len(tickers)], the value of a weight widget
    that the user has not touched. *)
Definition default_weight (tickers : list string) : float64 :=
  fdiv (Fin 1) (of_nat (length tickers)).

(** The normalization of the weights in [main]: [None] stands for the
    branch that reports "Total weights must be greater than 0". *)
Definition normalize_weights (weights : list float64) : option (list float64) :=
  let total_weight := py_sum weights in
  if fltb (Fin 0) total_weight
  then Some (map (fun w => fdiv w total_weight) weights)
  else None.

(** ** [fetch_data]

    The price provider (yfinance) is outside the engine.  [attempt] is
    what the statements of the [try] block before [return data.dropna()]
    produce: the table [data], or the exception that one of them raises,
    as the text of its message. *)
Inductive attempt : Type :=
| Table (data : DataFrame)
| Exception (message : string).

Definition fetch_data (download : PortfolioAnalytics -> attempt)
    (self : PortfolioAnalytics) : script (option DataFrame) :=
  match download self with
  | Table data => ret (Some (dropna data))
  | Exception e =>
      emit (st_error ("Error fetching data: " ++ e)%string) ;;;
      ret None
  end.

(** [@st.cache_data] on [fetch_data(_self)]: Streamlit builds the cache
    key from the arguments whose names do not start with an underscore,
    and [_self] is the only argument, so the function has one cache entry.
    The entry holds the returned value and the elements the function
    showed, which are shown again on a hit.  A call that raises stores
    nothing. *)
Definition cache : Type := option (option DataFrame * list element).

Definition fetch_data_cached (download : PortfolioAnalytics -> attempt)
    (c : cache) (self : PortfolioAnalytics)
  : cache * script (option DataFrame) :=
  match c with
  | Some (v, shown) => (c, fun page => (Ok v, page ++ shown))
  | None =>
      match fetch_data download self [] with
      | (Ok v, shown) => (Some (v, shown), fun page => (Ok v, page ++ shown))
      | (Raise e, shown) => (None, fun page => (Raise e, page ++ shown))
      end
  end.

(** ** [main]

    The script of the page.  [number_input label value] is the number
    that the weight widget with that label returns: what the user entered,
    or [value] when the widget is untouched; [button] tells whether
    "Analyze Portfolio" was pressed; [fetch] stands for
    [portfolio.fetch_data()].  The static parts of the page (header,
    footer, the sidebar texts) are left out.  Streamlit refuses two
    widgets with one label, so the loop over the weight widgets is passed
    with distinct tickers only. *)
Definition main (fetch : PortfolioAnalytics -> script (option DataFrame))
    (tickers_input : string) (start_date end_date : Z)
    (number_input : string -> float64 -> float64) (button : bool)
  : script unit :=
  let tickers := parse_tickers tickers_input in
  match tickers with
  | [] => emit (st_error "Please enter at least one ticker symbol")
  | _ =>
      let weights :=
        map (fun ticker =>
               number_input (ticker ++ " Weight")%string (default_weight tickers))
            tickers in
      match normalize_weights weights with
      | Some weights =>
          if button then
            let portfolio := init tickers weights start_date end_date in
            fetched <~ fetch portfolio ;;
            run_analysis tickers weights start_date end_date fetched
          else ret tt
      | None => emit (st_error "Total weights must be greater than 0")
      end
  end.

(** ** The engine in binary64

    The methods of the engine once more, over the binary64 floats of the
    kernel: [+], [-], [*], [/] and [sqrt] round to nearest (ties to even)
    as the operations of numpy do, comparisons with NaN are false, and a
    literal such as [0.1] is the binary64 number nearest to it, as in
    Python.  The definitions follow the same source lines as the
    idealised ones above.

    Two points of numpy are fixed here.  [ndarray.sum] adds fewer than
    eight values in index order, starting from 0; longer arrays, which
    numpy adds in blocks, are outside the use made of this module.
    [np.dot] is delegated to BLAS, which leaves the order of the additions
    (and the use of fused multiply-add) open: it is taken as multiply, then
    add in index order. *)
Module Binary64.

Local Open Scope float_scope.

Definition notna (x : float) : bool := negb (PrimFloat.is_nan x).

(** A count as a float; exact below [2^53]. *)
Fixpoint of_nat (n : nat) : float :=
  match n with
  | O => 0
  | S n' => of_nat n' + 1
  end.

(** [ndarray.sum]. *)
Definition np_sum (a : list float) : float := fold_left PrimFloat.add a 0.

Definition Series := list float.

Definition valid (s : Series) : Series := filter notna s.

(** [Series.mean()]: the sum of the valid values divided by their
    number. *)
Definition series_mean (s : Series) : float :=
  np_sum (valid s) / of_nat (length (valid s)).

(** [Series.std()] ([ddof=1]) as pandas computes it: the mean first, then
    the sum of the squares of [avg - x], divided by [count - 1]; NaN when
    at most one value is valid. *)
Definition series_var (s : Series) : float :=
  let v := valid s in
  let count := length v in
  if (count <=? 1)%nat then nan
  else
    let avg := np_sum v / of_nat count in
    let sqr := map (fun x => (avg - x) * (avg - x)) v in
    np_sum sqr / of_nat (count - 1).

Definition series_std (s : Series) : float := PrimFloat.sqrt (series_var s).

Record DataFrame : Type := mkDataFrame {
  columns : list string;
  values : list (list float)   (* one list per row *)
}.

Definition nrows (df : DataFrame) : nat := length (values df).
Definition ncols (df : DataFrame) : nat := length (columns df).

Definition column (df : DataFrame) (a : nat) : Series :=
  map (fun row => nth a row nan) (values df).

(** [df.pct_change()] computes [df / df.shift(1) - 1]. *)
Definition pct (p c : float) : float := c / p - 1.

Fixpoint pct_rows (prev : list float) (rows : list (list float))
  : list (list float) :=
  match rows with
  | [] => []
  | r :: t => map2 pct prev r :: pct_rows r t
  end.

Definition pct_change (df : DataFrame) : DataFrame :=
  mkDataFrame (columns df) (pct_rows (repeat nan (ncols df)) (values df)).

Definition dropna (df : DataFrame) : DataFrame :=
  mkDataFrame (columns df) (filter (forallb notna) (values df)).

(** [df * w] and [df.sum(axis=1)]. *)
Definition df_mul_array (df : DataFrame) (w : list float) : result DataFrame :=
  if (ncols df =? length w)%nat
  then Ok (mkDataFrame (columns df)
             (map (fun row => map2 PrimFloat.mul row w) (values df)))
  else Raise ValueError.

Definition df_sum_axis1 (df : DataFrame) : Series :=
  map (fun row => np_sum (valid row)) (values df).

(** [np.dot]. *)
Definition dot (a b : list float) : float := np_sum (map2 PrimFloat.mul a b).

Definition np_dot_vv (a b : list float) : result float :=
  if (length a =? length b)%nat then Ok (dot a b) else Raise ValueError.

Definition np_dot_mv (m : DataFrame) (v : list float) : result (list float) :=
  if (ncols m =? length v)%nat
  then Ok (map (fun row => dot row v) (values m))
  else Raise ValueError.

(** [df.cov()] on a table without missing values (the return table has
    passed [dropna]) is [np.cov(mat.T, ddof=1)]: each column is centred on
    its mean, the products of the centred columns are added up, and the
    result is multiplied by [1 / fact], where [fact] is the number of
    rows minus 1, or 0 when that is not positive. *)
Definition np_cov (x : list Series) (n : nat) : list (list float) :=
  let fact := if (n <=? 1)%nat then 0 else of_nat (n - 1) in
  let centred :=
    map (fun v => let avg := np_sum v / of_nat n in
                  map (fun a => a - avg) v) x in
  map (fun xi => map (fun xj => dot xi xj * (1 / fact)) centred) centred.

Definition df_cov (df : DataFrame) : DataFrame :=
  mkDataFrame (columns df)
    (np_cov (map (column df) (seq 0 (ncols df))) (nrows df)).

Definition df_scale (df : DataFrame) (c : float) : DataFrame :=
  mkDataFrame (columns df) (map (map (fun x => x * c)) (values df)).

Record PortfolioAnalytics : Type := mkPortfolioAnalytics {
  tickers : list string;
  weights : list float;
  start_date : Z;
  end_date : Z;
  data : option DataFrame;
  returns : option DataFrame
}.

Definition set_returns (self : PortfolioAnalytics) (r : option DataFrame)
  : PortfolioAnalytics :=
  mkPortfolioAnalytics (tickers self) (weights self) (start_date self)
    (end_date self) (data self) r.

(** [calculate_returns]: [self.data.pct_change().dropna()]. *)
Definition calculate_returns (self : PortfolioAnalytics) : option DataFrame :=
  match data self with
  | Some d => Some (dropna (pct_change d))
  | None => None
  end.

(** [portfolio_returns]: [(self.returns * self.weights).sum(axis=1)]. *)
Definition portfolio_returns (self : PortfolioAnalytics)
  : result (option Series) :=
  match returns self with
  | Some r =>
      weighted <- df_mul_array r (weights self) ;;
      Ok (Some (df_sum_axis1 weighted))
  | None => Ok None
  end.

(** The local variables of [calculate_metrics] that lead to the Sharpe
    ratio, as functions of [portfolio_rets]. *)
Definition annualized_return (portfolio_rets : Series) : float :=
  series_mean portfolio_rets * 252.

Definition annualized_vol (portfolio_rets : Series) : float :=
  series_std portfolio_rets * PrimFloat.sqrt 252.

Definition sharpe_ratio (portfolio_rets : Series) : float :=
  if 0 <? annualized_vol portfolio_rets
  then annualized_return portfolio_rets / annualized_vol portfolio_rets
  else 0.

Record RiskTable : Type := mkRiskTable {
  Asset : list string;
  Weight : list float;
  Risk_Contribution : list float;
  Risk_Contribution_pct : list float
}.

Definition new_risk_table (asset : list string) (weight contrib pct : list float)
  : result RiskTable :=
  if ((length asset =? length weight) && (length weight =? length contrib)
      && (length contrib =? length pct))%nat
  then Ok (mkRiskTable asset weight contrib pct)
  else Raise ValueError.

(** The local variables of [risk_attribution]. *)
Definition cov_matrix (r : DataFrame) : DataFrame := df_scale (df_cov r) 252.

Definition marginal_contrib (r : DataFrame) (w : list float)
  : result (list float) :=
  np_dot_mv (cov_matrix r) w.

Definition portfolio_variance (r : DataFrame) (w : list float) : result float :=
  cw <- np_dot_mv (cov_matrix r) w ;;
  np_dot_vv w cw.

Definition risk_contrib (w m : list float) (variance : float) : list float :=
  map (fun x => x / variance) (map2 PrimFloat.mul w m).

Definition risk_contrib_pct (rc : list float) : list float :=
  map (fun x => x / np_sum rc * 100) rc.

Definition risk_attribution (self : PortfolioAnalytics)
  : result (option RiskTable) :=
  match returns self with
  | None => Ok None
  | Some r =>
      variance <- portfolio_variance r (weights self) ;;
      if variance <=? 0 then Ok None
      else
        m <- marginal_contrib r (weights self) ;;
        let rc := risk_contrib (weights self) m variance in
        tbl <- new_risk_table (tickers self) (weights self) rc
                 (risk_contrib_pct rc) ;;
        Ok (Some tbl)
  end.

End Binary64.

(** * Definitions for the statements *)

(** ** Well-formed data

    The data model of the specification: prices are positive, weights
    are normalized, numbers are finite. *)

(** [np.isfinite], and the real value of a finite number. *)
Definition isfinite (a : float64) : bool :=
  match a with Fin _ => true | _ => false end.

Definition to_R (a : float64) : R :=
  match a with Fin x => x | _ => 0 end.

Definition all_finite (a : list float64) : bool := forallb isfinite a.

Definition df_finite (df : DataFrame) : bool :=
  forallb all_finite (values df).

(** A float that is finite and whose value satisfies [P]. *)
Definition lifted (P : R -> Prop) (c : float64) : Prop :=
  match c with Fin x => P x | _ => False end.

(** A price is a positive finite number. *)
Definition positive (c : float64) : Prop :=
  match c with Fin p => 0 < p | _ => False end.

Definition positive_prices (df : DataFrame) : Prop :=
  Forall (Forall positive) (values df).

Definition above_minus_one : float64 -> Prop := lifted (fun x => -1 < x).

Definition nonnegative : float64 -> Prop := lifted (fun x => 0 <= x).

(** A weight vector after normalization: no negative weight, sum 1. *)
Definition normalized (w : list float64) : Prop :=
  Forall nonnegative w /\ np_sum w = Fin 1.

(** A curve never falls from one date to a later one. *)
Definition nondecreasing (s : Series) : Prop :=
  forall i j, (i <= j < length s)%nat ->
    fleb (nth i s NaN) (nth j s NaN) = true.

(** ** The operations on real numbers

    On finite data each operation of the engine is an operation on real
    numbers; these are the real-number sides of the lemmas that say so. *)

Fixpoint Rsum (l : list R) : R :=
  match l with
  | [] => 0
  | x :: t => x + Rsum t
  end.

Fixpoint Rprod (l : list R) : R :=
  match l with
  | [] => 1
  | x :: t => x * Rprod t
  end.

Definition Rmean (l : list R) : R := Rsum l / INR (length l).

(** Sum of the squared deviations from the mean. *)
Definition Rss (l : list R) : R :=
  Rsum (map (fun x => (Rmean l - x) * (Rmean l - x)) l).

Definition Rvar (l : list R) : R := Rss l / INR (length l - 1).

Definition Rmax2 (a b : R) : R := if Rltb a b then b else a.
Definition Rmin2 (a b : R) : R := if Rltb b a then b else a.

Fixpoint Rcumprod (acc : R) (l : list R) : list R :=
  match l with
  | [] => []
  | x :: t => acc * x :: Rcumprod (acc * x) t
  end.

Fixpoint Rrunmax (cur : R) (l : list R) : list R :=
  match l with
  | [] => []
  | x :: t => Rmax2 cur x :: Rrunmax (Rmax2 cur x) t
  end.

(** The drawdown of a curve against its running maximum, on real numbers. *)
Definition Rdrawdown (c m : list R) : list R :=
  map2 Rdiv (map2 Rminus c m) m.

Fixpoint Rinsert (x : R) (l : list R) : list R :=
  match l with
  | [] => [x]
  | y :: t => if Rleb x y then x :: l else y :: Rinsert x t
  end.

Fixpoint Rsort (l : list R) : list R :=
  match l with
  | [] => []
  | x :: t => Rinsert x (Rsort t)
  end.

Definition Rpercentile (l : list R) (q : nat) : R :=
  let s := Rsort l in
  let n := length l in
  let k := (q * (n - 1) / 100)%nat in
  let g := INR ((q * (n - 1)) mod 100) / 100 in
  nth k s 0 + (nth (Nat.min (k + 1) (n - 1)) s 0 - nth k s 0) * g.

(** ** The formulas of the specification *)

(** The weighted sum as the specification writes it:
    the sum over the assets [a] of [weight a * return t a]. *)
Definition weighted_sum (weight row : list float64) : float64 :=
  np_sum (map2 fmul weight row).

(** The linearly interpolated [q]-th percentile as the specification
    describes it: with the [n] values in ascending order [s], the position
    [q/100 * (n-1)] falls between two neighbours of [s], and the
    percentile lies between them in proportion to the fractional part. *)
Definition is_percentile (xs : list R) (q : nat) (v : R) : Prop :=
  exists s,
    Permutation s xs /\ StronglySorted Rle s /\
    let n := length xs in
    let k := (q * (n - 1) / 100)%nat in
    let g := INR ((q * (n - 1)) mod 100) / 100 in
    v = nth k s 0 + (nth (Nat.min (k + 1) (n - 1)) s 0 - nth k s 0) * g.

(** The exact value of a binary64 number, as a rational; 0 for NaN and
    the infinities, which have none. *)
Definition exact (x : float) : Q :=
  match Prim2SF x with
  | S754_finite negative m e =>
      let v := if negative then Z.neg m else Z.pos m in
      if (0 <=? e)%Z then inject_Z (v * 2 ^ e)
      else Qmake v (2 ^ Z.to_pos (- e))
  | _ => 0%Q
  end.

(** The sum of the values of a column, without rounding. *)
Definition exact_sum (col : list float) : Q :=
  fold_right Qplus 0%Q (map exact col).

(** "The column sums to 100 (+- 1e-6)". *)
Definition sums_to_100 (col : list float) : Prop :=
  (100 - (1 # 1000000) <= exact_sum col /\ exact_sum col <= 100 + (1 # 1000000))%Q.

Definition metric_keys : list string :=
  [ "Total Return"; "Annualized Return"; "Annualized Volatility";
    "Sharpe Ratio"; "VaR (95%)"; "CVaR (95%)"; "Maximum Drawdown";
    "Portfolio Returns"; "Cumulative Returns"; "Drawdown Series" ].

(** The engine as [main] prepares it: data from the provider, returns
    from [calculate_returns]. *)
Definition prepared (tickers : list string) (weights : list float64)
    (start_date end_date : Z) (d : DataFrame) : PortfolioAnalytics :=
  let portfolio := set_data (init tickers weights start_date end_date) (Some d) in
  set_returns portfolio (calculate_returns portfolio).

(** What the page shows of a metrics bundle computed from [rets]:
    composition, the eight key figures, the three charts. *)
Definition metrics_page (tickers : list string) (weights : list float64)
    (rets : Series) (days_analyzed : nat) : list element :=
  [ st_success "Analysis completed successfully!";
    st_subheader "Portfolio Composition";
    pie_chart weights tickers;
    weights_table tickers weights;
    st_subheader "Key Performance Metrics";
    st_metric "Total Return" (total_return rets);
    st_metric "Sharpe Ratio" (sharpe_ratio rets);
    st_metric "Annualized Return" (annualized_return rets);
    st_metric "Max Drawdown" (max_drawdown rets);
    st_metric "Volatility" (annualized_vol rets);
    st_metric "VaR (95%)" (var_95 rets);
    st_metric "CVaR (95%)" (cvar_95 rets);
    st_metric_days "Days Analyzed" days_analyzed;
    st_subheader "Performance Analysis";
    line_chart "Portfolio Cumulative Returns" (cumulative rets);
    line_chart "Portfolio Drawdown"
      (map (fun x => fmul x (Fin 100)) (drawdown rets));
    histogram "Daily Returns Distribution (%)"
      (map (fun x => fmul x (Fin 100)) rets) ].

(** ** Pages without error messages *)

Definition is_error (e : element) : bool :=
  match e with st_error _ => true | _ => false end.

(** A script that only appends to the page, and appends no error
    message. *)
Definition quiet {A : Type} (c : script A) : Prop :=
  forall page, exists more,
    snd (c page) = page ++ more /\ existsb is_error more = false.

(** ** Tickers *)

Fixpoint str_forallb (P : ascii -> bool) (s : string) : bool :=
  match s with
  | EmptyString => true
  | String c t => P c && str_forallb P t
  end.

Definition not_comma (c : ascii) : bool := negb (Ascii.eqb c ",").

(** A ticker as [main] passes it on: not empty, nothing to strip, no
    lower-case letter, no comma. *)
Definition clean_ticker (t : string) : Prop :=
  t <> EmptyString /\ strip t = t /\ str_upper t = t /\
  str_forallb not_comma t = true.

Definition space_or_comma (c : ascii) : bool := isspace c || Ascii.eqb c ",".

(** [",".join(tickers)] *)
Fixpoint join_comma (l : list string) : string :=
  match l with
  | [] => EmptyString
  | [t] => t
  | t :: r => (t ++ String "," (join_comma r))%string
  end.

(** A string starts with a character that [strip] keeps, or is empty. *)
Definition starts_clean (s : string) : Prop :=
  match s with
  | EmptyString => True
  | String c _ => isspace c = false
  end.

(** ** Example inputs *)

Definition no_rows : PortfolioAnalytics :=
  mkPortfolioAnalytics ["AAPL"] [Fin 1] 0 365 None
    (Some (mkDataFrame ["AAPL"] [])).

Definition two_columns_one_weight : PortfolioAnalytics :=
  mkPortfolioAnalytics ["AAPL"; "MSFT"] [Fin 1] 0 365 None
    (Some (mkDataFrame ["AAPL"; "MSFT"] [[Fin 1; Fin 2]])).

Definition one_row : PortfolioAnalytics :=
  mkPortfolioAnalytics ["AAPL"] [Fin 1] 0 365 None
    (Some (mkDataFrame ["AAPL"] [[Fin (1/100)]])).

(** The example of the specification: assets A and B over three days with
    weights 0.6 and 0.4. *)
Definition two_assets : PortfolioAnalytics :=
  mkPortfolioAnalytics ["A"; "B"] [Fin 0.6; Fin 0.4] 0 365 None
    (Some (mkDataFrame ["A"; "B"]
             [ [Fin 0.02; Fin 0.01];
               [Fin (-0.01); Fin 0.00];
               [Fin 0.03; Fin (-0.02)] ])).

(** The return table of [two_assets]. *)
Definition two_assets_returns : DataFrame :=
  mkDataFrame ["A"; "B"]
    [ [Fin 0.02; Fin 0.01];
      [Fin (-0.01); Fin 0.00];
      [Fin 0.03; Fin (-0.02)] ].

(** The example of the specification: one asset, prices 100, 110, 99. *)
Definition one_asset_prices : DataFrame :=
  mkDataFrame ["A"] [[Fin 100]; [Fin 110]; [Fin 99]].

Definition one_asset : PortfolioAnalytics :=
  mkPortfolioAnalytics ["A"] [Fin 1] 0 365 (Some one_asset_prices) None.

(** The example of the specification, continued: prices 100, 110, 99
    with weight 1. *)
Definition one_asset_run : PortfolioAnalytics :=
  set_returns one_asset (calculate_returns one_asset).

(** One asset with returns 0.10 and -0.10: annualized variance 5.04. *)
Definition swing_returns : DataFrame :=
  mkDataFrame ["A"] [[Fin 0.10]; [Fin (-0.10)]].

(** One asset whose price never moves: all returns are 0 and the
    portfolio variance is 0. *)
Definition flat_prices : DataFrame :=
  mkDataFrame ["A"] [[Fin 100]; [Fin 100]; [Fin 100]].

Definition flat_returns : DataFrame :=
  mkDataFrame ["A"] [[Fin 0]; [Fin 0]].

(** Binary64: asset A gains 25% a day, asset B does not move, weights
    0.4 and 0.6.  The portfolio return is 0.1 on each of the three
    days. *)
Definition steady_prices : Binary64.DataFrame :=
  Binary64.mkDataFrame ["A"; "B"]
    [ [64; 50]; [80; 50]; [100; 50]; [125; 50] ]%float.

Definition steady : Binary64.PortfolioAnalytics :=
  let portfolio :=
    Binary64.mkPortfolioAnalytics ["A"; "B"] [0.4; 0.6]%float 0 365
      (Some steady_prices) None in
  Binary64.set_returns portfolio (Binary64.calculate_returns portfolio).

Definition constant_returns : Binary64.Series := [0.1; 0.1; 0.1]%float.

(** Binary64: three assets that move together, C against A and B, with
    weights that almost hedge the portfolio: 0.5, 0.25 + 2^-35 and
    0.25 - 2^-35, which add up to 1.  The returns are 1/64, 1/32 and
    -1/16 on the first day and their opposites on the second. *)
Definition hedged_prices : Binary64.DataFrame :=
  Binary64.mkDataFrame ["A"; "B"; "C"]
    [ [1024; 1024; 1024]; [1040; 1056; 960]; [1023.75; 1023; 1020] ]%float.

Definition hedged_weights : list float :=
  [0.5; 0.25 + 0x1p-35; 0.25 - 0x1p-35]%float.

Definition hedged : Binary64.PortfolioAnalytics :=
  let portfolio :=
    Binary64.mkPortfolioAnalytics ["A"; "B"; "C"] hedged_weights 0 365
      (Some hedged_prices) None in
  Binary64.set_returns portfolio (Binary64.calculate_returns portfolio).

Definition hedged_returns : Binary64.DataFrame :=
  Binary64.mkDataFrame ["A"; "B"; "C"]
    [ [0.015625; 0.03125; -0.0625]; [-0.015625; -0.03125; 0.0625] ]%float.

(** * Properties *)

(** ** Comparisons of real numbers *)

Lemma Rltb_true (x y : R) : Rltb x y = true <-> x < y.
Proof. unfold Rltb. destruct (Rlt_dec x y); split; intros; try easy. Qed.

Lemma Rleb_true (x y : R) : Rleb x y = true <-> x <= y.
Proof. unfold Rleb. destruct (Rle_dec x y); split; intros; try easy. Qed.

Lemma Rltb_false (x y : R) : Rltb x y = false <-> ~ x < y.
Proof. unfold Rltb. destruct (Rlt_dec x y); split; intros; try easy. Qed.

Lemma Rleb_false (x y : R) : Rleb x y = false <-> ~ x <= y.
Proof. unfold Rleb. destruct (Rle_dec x y); split; intros; try easy. Qed.

Lemma Reqb_true (x y : R) : Reqb x y = true <-> x = y.
Proof. unfold Reqb. destruct (Req_dec_T x y); split; intros; try easy. Qed.

Lemma Reqb_false (x y : R) : Reqb x y = false <-> x <> y.
Proof. unfold Reqb. destruct (Req_dec_T x y); split; intros; try easy. Qed.

(** Decides the comparisons of real numbers that stand in the goal. *)
Ltac decide_R :=
  repeat match goal with
  | |- context [Rltb ?a ?b] =>
      first [ rewrite (proj2 (Rltb_true a b)) by lra
            | rewrite (proj2 (Rltb_false a b)) by lra ]
  | |- context [Rleb ?a ?b] =>
      first [ rewrite (proj2 (Rleb_true a b)) by lra
            | rewrite (proj2 (Rleb_false a b)) by lra ]
  | |- context [Reqb ?a ?b] =>
      first [ rewrite (proj2 (Reqb_true a b)) by lra
            | rewrite (proj2 (Reqb_false a b)) by lra ]
  end.

(** Unfold the metrics, and the risk attribution, on a concrete series. *)
Ltac unfold_metrics :=
  cbv [total_return cumulative running_max drawdown max_drawdown
       series_prod series_min valid filter notna isnan negb map map2 np_prod
       cumprod cumprod_from expanding_max expanding_max_from fold_left
       fmax fmin fltb fleb fadd fsub fneg fmul fdiv].

Ltac unfold_attribution :=
  cbv [portfolio_variance marginal_contrib np_dot_mv np_dot_vv cov_matrix
       df_scale df_cov ncols nrows columns values column cov_pair
       pairwise_valid combine filter notna isnan negb andb fst snd
       length Nat.eqb Nat.leb Nat.sub seq map map2 nth bind dot np_sum of_nat
       INR fadd fsub fneg fmul fdiv].

(** ** Empty series, mismatched weights, single observation *)

Lemma calculate_metrics_some (self : PortfolioAnalytics) (rets : Series) :
  portfolio_returns self = Ok (Some rets) ->
  rets <> [] ->
  calculate_metrics self =
    Ok [ ("Total Return", Scalar (total_return rets));
         ("Annualized Return", Scalar (annualized_return rets));
         ("Annualized Volatility", Scalar (annualized_vol rets));
         ("Sharpe Ratio", Scalar (sharpe_ratio rets));
         ("VaR (95%)", Scalar (var_95 rets));
         ("CVaR (95%)", Scalar (cvar_95 rets));
         ("Maximum Drawdown", Scalar (max_drawdown rets));
         ("Portfolio Returns", Curve rets);
         ("Cumulative Returns", Curve (cumulative rets));
         ("Drawdown Series", Curve (drawdown rets)) ].
Proof.
  intros Hp Hne. unfold calculate_metrics. rewrite Hp. cbn [bind].
  destruct rets as [|x t]; [contradiction|reflexivity].
Qed.

(** C8: when the portfolio return series has no rows, [calculate_metrics]
    returns the empty dictionary: no key of the bundle is present, neither
    a scalar nor a curve. *)
Theorem calculate_metrics_empty (self : PortfolioAnalytics) (rets : Series) :
  portfolio_returns self = Ok (Some rets) ->
  length rets = 0%nat ->
  calculate_metrics self = Ok [] /\
  forall d, calculate_metrics self = Ok d ->
    dict_is_empty d = true /\ forall k, dict_get k d = None.
Proof.
  intros Hp Hlen.
  assert (E : calculate_metrics self = Ok []).
  { unfold calculate_metrics. rewrite Hp. cbn [bind].
    destruct rets; [reflexivity|discriminate]. }
  split; [exact E|].
  intros d Hd. rewrite E in Hd. injection Hd as <-. split; reflexivity.
Qed.

Lemma calculate_metrics_empty_witness :
  calculate_metrics no_rows = Ok [] /\
  forall d, calculate_metrics no_rows = Ok d ->
    dict_is_empty d = true /\ forall k, dict_get k d = None.
Proof.
  apply (calculate_metrics_empty no_rows []); reflexivity.
Defined.

(** Without a return table the answer is the empty dictionary as well. *)
Lemma calculate_metrics_no_returns (self : PortfolioAnalytics) :
  returns self = None -> calculate_metrics self = Ok [].
Proof.
  intros H. unfold calculate_metrics, portfolio_returns. rewrite H. reflexivity.
Qed.

Lemma df_mul_array_mismatch (r : DataFrame) (w : list float64) :
  ncols r <> length w -> df_mul_array r w = Raise ValueError.
Proof.
  intros H. unfold df_mul_array. apply Nat.eqb_neq in H. now rewrite H.
Qed.

(** C9: when the weight vector does not have one weight per column of the
    return table, [portfolio_returns] raises [ValueError]; no series is
    produced, and [calculate_metrics] passes the exception on. *)
Theorem portfolio_returns_length_mismatch
    (self : PortfolioAnalytics) (r : DataFrame) :
  returns self = Some r ->
  ncols r <> length (weights self) ->
  portfolio_returns self = Raise ValueError /\
  calculate_metrics self = Raise ValueError /\
  forall s, portfolio_returns self <> Ok s.
Proof.
  intros Hr Hlen.
  assert (E : portfolio_returns self = Raise ValueError).
  { unfold portfolio_returns. rewrite Hr.
    now rewrite (df_mul_array_mismatch r (weights self) Hlen). }
  repeat split.
  - exact E.
  - unfold calculate_metrics. rewrite E. reflexivity.
  - intros s Hs. rewrite E in Hs. discriminate.
Qed.

Lemma portfolio_returns_length_mismatch_witness :
  portfolio_returns two_columns_one_weight = Raise ValueError /\
  calculate_metrics two_columns_one_weight = Raise ValueError /\
  forall s, portfolio_returns two_columns_one_weight <> Ok s.
Proof.
  apply (portfolio_returns_length_mismatch two_columns_one_weight
           (mkDataFrame ["AAPL"; "MSFT"] [[Fin 1; Fin 2]])).
  - reflexivity.
  - cbv. discriminate.
Defined.

Lemma series_std_single (x : float64) : series_std [x] = NaN.
Proof.
  unfold series_std, series_var, valid. simpl.
  destruct (notna x); reflexivity.
Qed.

(** C10: with exactly one observation [calculate_metrics] still returns
    the bundle with all ten entries; the sample standard deviation is NaN,
    so the annualized volatility is NaN, and since [NaN > 0] is false the
    Sharpe ratio is 0. *)
Theorem calculate_metrics_single_observation
    (self : PortfolioAnalytics) (x : float64) :
  portfolio_returns self = Ok (Some [x]) ->
  exists d,
    calculate_metrics self = Ok d /\
    keys d = metric_keys /\
    series_std [x] = NaN /\
    dict_get "Annualized Volatility" d = Some (Scalar NaN) /\
    fltb (Fin 0) NaN = false /\
    dict_get "Sharpe Ratio" d = Some (Scalar (Fin 0)).
Proof.
  intros Hp. eexists. split.
  - apply calculate_metrics_some; [exact Hp|discriminate].
  - assert (V : annualized_vol [x] = NaN).
    { unfold annualized_vol. rewrite series_std_single. reflexivity. }
    repeat split; [apply series_std_single| |].
    + cbn [dict_get String.eqb Ascii.eqb Bool.eqb]. rewrite V. reflexivity.
    + cbn [dict_get String.eqb Ascii.eqb Bool.eqb].
      unfold sharpe_ratio. rewrite V. reflexivity.
Qed.

Lemma one_row_portfolio_returns :
  portfolio_returns one_row = Ok (Some [Fin (1/100 * 1 + 0)]).
Proof. reflexivity. Qed.

Lemma calculate_metrics_single_observation_witness :
  exists d,
    calculate_metrics one_row = Ok d /\
    keys d = metric_keys /\
    series_std [Fin (1/100 * 1 + 0)] = NaN /\
    dict_get "Annualized Volatility" d = Some (Scalar NaN) /\
    fltb (Fin 0) NaN = false /\
    dict_get "Sharpe Ratio" d = Some (Scalar (Fin 0)).
Proof.
  apply (calculate_metrics_single_observation one_row (Fin (1/100 * 1 + 0))).
  exact one_row_portfolio_returns.
Defined.

(** ** Finite data

    Tables that come from positive prices hold finite numbers only.  On
    such data every operation of the engine is the operation on real
    numbers; the lemmas of this section say so, one per operation. *)

Lemma isfinite_Fin (a : float64) : isfinite a = true -> a = Fin (to_R a).
Proof. destruct a; simpl; intros H; try discriminate; reflexivity. Qed.

Lemma all_finite_map (l : list float64) :
  all_finite l = true -> l = map Fin (map to_R l).
Proof.
  induction l as [|a l IH]; simpl; intros H; [reflexivity|].
  apply andb_prop in H as [Ha Hl].
  rewrite <- (IH Hl), <- (isfinite_Fin a Ha). reflexivity.
Qed.

Lemma valid_Fin (l : list R) : valid (map Fin l) = map Fin l.
Proof.
  unfold valid. induction l as [|x l IH]; simpl; [reflexivity|].
  now rewrite IH.
Qed.

Lemma np_sum_Fin (l : list R) : np_sum (map Fin l) = Fin (Rsum l).
Proof. induction l as [|x l IH]; simpl; [reflexivity|]. now rewrite IH. Qed.

Lemma np_prod_Fin (l : list R) : np_prod (map Fin l) = Fin (Rprod l).
Proof. induction l as [|x l IH]; simpl; [reflexivity|]. now rewrite IH. Qed.

Lemma series_sum_Fin (l : list R) : series_sum (map Fin l) = Fin (Rsum l).
Proof. unfold series_sum. now rewrite valid_Fin, np_sum_Fin. Qed.

Lemma map2_Fin (f : float64 -> float64 -> float64) (g : R -> R -> R)
    (a b : list R) :
  (forall x y, In x a -> In y b -> f (Fin x) (Fin y) = Fin (g x y)) ->
  map2 f (map Fin a) (map Fin b) = map Fin (map2 g a b).
Proof.
  revert b. induction a as [|x a IH]; intros [|y b] H; simpl; try reflexivity.
  rewrite H by (left; reflexivity).
  rewrite IH; [reflexivity|].
  intros ? ? ? ?. apply H; right; assumption.
Qed.

Lemma map2_length {A B C : Type} (f : A -> B -> C) (a : list A) (b : list B) :
  length (map2 f a b) = Nat.min (length a) (length b).
Proof.
  revert b. induction a as [|x a IH]; intros [|y b]; simpl; auto.
Qed.

Lemma map2_nth {A B C : Type} (f : A -> B -> C) (a : list A) (b : list B)
    (i : nat) (da : A) (db : B) (dc : C) :
  (i < length a)%nat -> (i < length b)%nat ->
  nth i (map2 f a b) dc = f (nth i a da) (nth i b db).
Proof.
  revert b i. induction a as [|x a IH]; intros [|y b] [|i]; simpl; intros;
    try lia; auto.
  apply IH; lia.
Qed.

Lemma Rsum_map2_comm (a b : list R) :
  Rsum (map2 Rmult a b) = Rsum (map2 Rmult b a).
Proof.
  revert b. induction a as [|x a IH]; intros [|y b]; simpl; try reflexivity.
  rewrite IH. lra.
Qed.

Lemma dot_Fin (a b : list R) :
  dot (map Fin a) (map Fin b) = Fin (Rsum (map2 Rmult a b)).
Proof.
  unfold dot. rewrite (map2_Fin fmul Rmult) by reflexivity.
  apply np_sum_Fin.
Qed.

(** ** Portfolio aggregation *)

(** C1: on a return table of N rows and K columns of finite numbers and a
    vector of K finite weights, [portfolio_returns] gives a series of N
    values, and value t is the weighted sum of row t: both are the same
    finite number, so they agree within any tolerance. *)
Theorem portfolio_returns_weighted_sum
    (self : PortfolioAnalytics) (r : DataFrame) :
  returns self = Some r ->
  rectangular r ->
  ncols r = length (weights self) ->
  df_finite r = true ->
  all_finite (weights self) = true ->
  exists s,
    portfolio_returns self = Ok (Some s) /\
    length s = nrows r /\
    forall t, (t < nrows r)%nat ->
      exists v,
        nth t s NaN = Fin v /\
        weighted_sum (weights self) (nth t (values r) []) = Fin v /\
        Rabs (to_R (nth t s NaN) -
              to_R (weighted_sum (weights self) (nth t (values r) [])))
          <= 1 / 10 ^ 9.
Proof.
  intros Hr Hrect Hk Hfin Hw.
  unfold portfolio_returns, df_mul_array. rewrite Hr.
  apply Nat.eqb_eq in Hk. rewrite Hk. cbn [bind].
  eexists. split; [reflexivity|].
  unfold df_sum_axis1, nrows. cbn [values].
  split; [now rewrite !length_map|].
  intros t Ht.
  rewrite (nth_indep _ NaN (series_sum (map2 fmul [] (weights self))))
    by (now rewrite !length_map).
  rewrite (map_nth series_sum).
  rewrite (nth_indep _ (map2 fmul [] (weights self))
             ((fun row => map2 fmul row (weights self)) []))
    by (now rewrite length_map).
  rewrite (map_nth (fun row => map2 fmul row (weights self))).
  assert (Hrow : all_finite (nth t (values r) []) = true).
  { unfold df_finite in Hfin. rewrite forallb_forall in Hfin.
    apply Hfin, nth_In, Ht. }
  rewrite (all_finite_map _ Hrow), (all_finite_map _ Hw).
  rewrite (map2_Fin fmul Rmult) by reflexivity.
  rewrite series_sum_Fin.
  unfold weighted_sum. rewrite (map2_Fin fmul Rmult) by reflexivity.
  rewrite np_sum_Fin, Rsum_map2_comm.
  eexists. split; [reflexivity|]. split; [reflexivity|].
  simpl to_R. unfold Rminus. rewrite Rplus_opp_r, Rabs_R0.
  apply Rlt_le, Rdiv_lt_0_compat; [lra|apply pow_lt; lra].
Qed.

Example portfolio_returns_two_assets :
  portfolio_returns two_assets = Ok (Some [Fin 0.016; Fin (-0.006); Fin 0.010]).
Proof.
  cbv [portfolio_returns two_assets returns weights df_mul_array ncols columns
       length Nat.eqb bind values map map2 fmul df_sum_axis1 series_sum valid
       filter notna isnan negb np_sum fadd].
  repeat f_equal; lra.
Qed.

Lemma portfolio_returns_weighted_sum_witness :
  exists s,
    portfolio_returns two_assets = Ok (Some s) /\
    length s = 3%nat /\
    forall t, (t < 3)%nat ->
      exists v,
        nth t s NaN = Fin v /\
        weighted_sum [Fin 0.6; Fin 0.4]
          (nth t [ [Fin 0.02; Fin 0.01];
                   [Fin (-0.01); Fin 0.00];
                   [Fin 0.03; Fin (-0.02)] ] []) = Fin v /\
        Rabs (to_R (nth t s NaN) -
              to_R (weighted_sum [Fin 0.6; Fin 0.4]
                      (nth t [ [Fin 0.02; Fin 0.01];
                               [Fin (-0.01); Fin 0.00];
                               [Fin 0.03; Fin (-0.02)] ] [])))
          <= 1 / 10 ^ 9.
Proof.
  apply (portfolio_returns_weighted_sum two_assets
           (mkDataFrame ["A"; "B"]
              [ [Fin 0.02; Fin 0.01];
                [Fin (-0.01); Fin 0.00];
                [Fin 0.03; Fin (-0.02)] ])).
  - reflexivity.
  - repeat constructor.
  - reflexivity.
  - reflexivity.
  - reflexivity.
Defined.

(** ** Returns from prices *)

Lemma pct_positive (p c : float64) :
  positive p -> positive c ->
  exists p0 p1, p = Fin p0 /\ c = Fin p1 /\ pct p c = Fin ((p1 - p0) / p0).
Proof.
  destruct p as [| | |p0]; simpl; try contradiction.
  destruct c as [| | |p1]; simpl; try contradiction.
  intros Hp Hc. exists p0, p1. repeat split.
  unfold pct, fdiv, Reqb. destruct (Req_dec_T p0 0) as [E|_]; [lra|].
  simpl. f_equal. field. lra.
Qed.

(** The first row of [pct_change] is dropped as soon as there is a column. *)
Lemma pct_first_row_dropped (k : nat) (r : list float64) :
  length r = k -> (1 <= k)%nat ->
  forallb notna (map2 pct (repeat NaN k) r) = false.
Proof.
  intros Hlen Hk. destruct k as [|k]; [lia|].
  destruct r as [|c r]; [discriminate|].
  simpl. destruct c; reflexivity.
Qed.

Lemma pct_row_kept (prev r : list float64) :
  Forall positive prev -> Forall positive r ->
  forallb notna (map2 pct prev r) = true.
Proof.
  intros Hp. revert r. induction Hp as [|p prev Hp _ IH]; intros r Hr.
  - reflexivity.
  - destruct Hr as [|c r Hc Hr]; [reflexivity|].
    simpl. destruct (pct_positive p c Hp Hc) as (p0 & p1 & _ & _ & ->).
    simpl. apply IH, Hr.
Qed.

Lemma pct_rows_kept (prev : list float64) (rows : list (list float64)) :
  Forall positive prev -> Forall (Forall positive) rows ->
  filter (forallb notna) (pct_rows prev rows) = pct_rows prev rows.
Proof.
  intros Hp Hrows. revert prev Hp.
  induction Hrows as [|r rows Hr _ IH]; intros prev Hp; [reflexivity|].
  simpl. fold pct. rewrite (pct_row_kept prev r Hp Hr).
  now rewrite (IH r Hr).
Qed.

Lemma pct_rows_length (prev : list float64) (rows : list (list float64)) :
  length (pct_rows prev rows) = length rows.
Proof.
  revert prev. induction rows as [|r rows IH]; intros prev; simpl; auto.
Qed.

Lemma pct_rows_nth (prev : list float64) (rows : list (list float64)) (t : nat) :
  (t < length rows)%nat ->
  nth t (pct_rows prev rows) [] =
  map2 pct (nth t (prev :: rows) []) (nth t rows []).
Proof.
  revert prev t. induction rows as [|r rows IH]; intros prev t Ht;
    simpl in Ht; [lia|].
  destruct t as [|t]; [reflexivity|].
  change (nth t (pct_rows r rows) [] =
          map2 pct (nth t (r :: rows) []) (nth t rows [])).
  apply IH. lia.
Qed.

(** C2: a price table with N >= 2 rows of positive prices (and at least
    one column) gives a return table with exactly N-1 rows, whose cell
    [t, a] is [(price t a - price (t-1) a) / price (t-1) a]; a price table
    with fewer than two rows gives a table without rows, and no error. *)
Theorem calculate_returns_rows (self : PortfolioAnalytics) (d : DataFrame) :
  data self = Some d ->
  rectangular d ->
  (1 <= ncols d)%nat ->
  exists out,
    calculate_returns self = Some out /\
    columns out = columns d /\
    ((nrows d < 2)%nat -> values out = []) /\
    ((2 <= nrows d)%nat -> positive_prices d ->
       nrows out = (nrows d - 1)%nat /\
       forall t a, (1 <= t < nrows d)%nat -> (a < ncols d)%nat ->
         exists p0 p1,
           cell d (t - 1) a = Fin p0 /\
           cell d t a = Fin p1 /\
           cell out (t - 1) a = Fin ((p1 - p0) / p0)).
Proof.
  intros Hd Hrect Hk.
  unfold calculate_returns. rewrite Hd. eexists. split; [reflexivity|].
  split; [reflexivity|].
  unfold rectangular, positive_prices, nrows, cell in *.
  cbn [values dropna pct_change columns].
  destruct (values d) as [|r0 rows] eqn:Ev.
  - split; [reflexivity|]. simpl. intros; lia.
  - inversion Hrect as [|? ? Hr0 Hrows]; subst.
    cbn [pct_rows filter]. fold pct.
    rewrite (pct_first_row_dropped (ncols d) r0 Hr0 Hk).
    split.
    + simpl. intros Hn. destruct rows; [reflexivity|simpl in Hn; lia].
    + intros _ Hpos. inversion Hpos as [|? ? Hp0 Hprows]; subst.
      rewrite (pct_rows_kept r0 rows Hp0 Hprows).
      split; [rewrite pct_rows_length; simpl; lia|].
      intros t a [Ht1 Ht2] Ha. simpl in Ht2.
      destruct t as [|t]; [lia|].
      replace (S t - 1)%nat with t by lia.
      rewrite (pct_rows_nth r0 rows t) by lia.
      change (nth (S t) (r0 :: rows) []) with (nth t rows []).
      assert (Hin : forall i, (i < length (r0 :: rows))%nat ->
                 Forall positive (nth i (r0 :: rows) []) /\
                 length (nth i (r0 :: rows) []) = ncols d).
      { intros i Hi. split.
        - rewrite Forall_forall in Hpos. apply Hpos, nth_In, Hi.
        - rewrite Forall_forall in Hrect. apply Hrect, nth_In, Hi. }
      destruct (Hin t) as [Hpt Hlt]; [simpl; lia|].
      destruct (Hin (S t)) as [Hpt' Hlt']; [simpl; lia|].
      cbn [nth] in Hpt', Hlt'.
      rewrite (map2_nth pct _ _ a NaN NaN NaN) by lia.
      rewrite Forall_forall in Hpt, Hpt'.
      destruct (pct_positive (nth a (nth t (r0 :: rows) []) NaN)
                  (nth a (nth t rows []) NaN)) as (p0 & p1 & E0 & E1 & E).
      { apply Hpt, nth_In. lia. }
      { apply Hpt', nth_In. lia. }
      exists p0, p1. auto.
Qed.

Example calculate_returns_one_asset :
  calculate_returns one_asset =
  Some (mkDataFrame ["A"] [[Fin 0.10]; [Fin (-0.10)]]).
Proof.
  cbv [calculate_returns one_asset data one_asset_prices dropna pct_change
       columns values ncols length repeat pct_rows pct map2 fdiv fsub fadd fneg
       filter forallb notna isnan negb andb].
  decide_R. cbv [filter forallb notna isnan negb andb].
  repeat f_equal; lra.
Qed.

(** The prices have to be positive: after a price of 0 the change is
    0 / 0 or infinite, and [dropna] removes the rows with a NaN. *)
Example calculate_returns_zero_price :
  calculate_returns
    (mkPortfolioAnalytics ["A"] [Fin 1] 0 365
       (Some (mkDataFrame ["A"] [[Fin 0]; [Fin 0]; [Fin 5]])) None) =
  Some (mkDataFrame ["A"] [[PInf]]).
Proof.
  cbv [calculate_returns data dropna pct_change
       columns values ncols length repeat pct_rows pct map2 fdiv fsub fadd fneg
       signed_inf filter forallb notna isnan negb andb].
  decide_R. reflexivity.
Qed.

Lemma calculate_returns_rows_witness :
  exists out,
    calculate_returns one_asset = Some out /\
    columns out = ["A"] /\
    ((3 < 2)%nat -> values out = []) /\
    ((2 <= 3)%nat -> positive_prices one_asset_prices ->
       nrows out = 2%nat /\
       forall t a, (1 <= t < 3)%nat -> (a < 1)%nat ->
         exists p0 p1,
           cell one_asset_prices (t - 1) a = Fin p0 /\
           cell one_asset_prices t a = Fin p1 /\
           cell out (t - 1) a = Fin ((p1 - p0) / p0)).
Proof.
  apply (calculate_returns_rows one_asset one_asset_prices).
  - reflexivity.
  - repeat constructor.
  - apply le_n.
Defined.

(** ** Mean, variance and the Sharpe ratio *)

Lemma fdiv_Fin (x y : R) : y <> 0 -> fdiv (Fin x) (Fin y) = Fin (x / y).
Proof. intros H. simpl. now rewrite (proj2 (Reqb_false y 0)). Qed.

Lemma INR_pos (n : nat) : (1 <= n)%nat -> 0 < INR n.
Proof. intros H. apply lt_0_INR. lia. Qed.

Lemma series_mean_Fin (l : list R) :
  l <> [] -> series_mean (map Fin l) = Fin (Rmean l).
Proof.
  intros Hne. unfold series_mean, of_nat, Rmean.
  rewrite valid_Fin, np_sum_Fin, length_map.
  apply fdiv_Fin. apply Rgt_not_eq, INR_pos.
  destruct l; [contradiction|simpl; lia].
Qed.

Lemma series_var_Fin (l : list R) :
  (2 <= length l)%nat -> series_var (map Fin l) = Fin (Rvar l).
Proof.
  intros Hn. unfold series_var, of_nat, Rvar, Rss, Rmean.
  rewrite valid_Fin, length_map.
  destruct (Nat.leb_spec (length l) 1) as [H|_]; [lia|].
  rewrite np_sum_Fin, fdiv_Fin by (apply Rgt_not_eq, INR_pos; lia).
  rewrite map_map. cbn [fsub fneg fadd fmul].
  rewrite <- (map_map (fun x => (Rsum l / INR (length l) + - x) *
                                 (Rsum l / INR (length l) + - x)) Fin).
  rewrite np_sum_Fin.
  apply fdiv_Fin. apply Rgt_not_eq, INR_pos. lia.
Qed.

Lemma Rsum_nonneg (l : list R) : (forall x, In x l -> 0 <= x) -> 0 <= Rsum l.
Proof.
  induction l as [|x l IH]; simpl; intros H; [lra|].
  assert (0 <= x) by (apply H; auto).
  assert (0 <= Rsum l) by (apply IH; intros; apply H; auto). lra.
Qed.

Lemma square_nonneg (a : R) : 0 <= a * a.
Proof. apply Rle_0_sqr. Qed.

Lemma Rss_nonneg (l : list R) : 0 <= Rss l.
Proof.
  apply Rsum_nonneg. intros x Hx. apply in_map_iff in Hx as (y & <- & _).
  apply square_nonneg.
Qed.

Lemma Rvar_nonneg (l : list R) : (2 <= length l)%nat -> 0 <= Rvar l.
Proof.
  intros Hn. unfold Rvar. apply Rmult_le_pos; [apply Rss_nonneg|].
  apply Rlt_le, Rinv_0_lt_compat, INR_pos. lia.
Qed.

Lemma series_std_Fin (l : list R) :
  (2 <= length l)%nat -> series_std (map Fin l) = Fin (sqrt (Rvar l)).
Proof.
  intros Hn. unfold series_std. rewrite (series_var_Fin l Hn). simpl.
  rewrite (proj2 (Rltb_false (Rvar l) 0)); [reflexivity|].
  pose proof (Rvar_nonneg l Hn). lra.
Qed.

Lemma Rsum_constant (l : list R) (c : R) :
  (forall y, In y l -> y = c) -> Rsum l = INR (length l) * c.
Proof.
  induction l as [|a l IH]; intros H.
  - simpl. lra.
  - assert (Ea : a = c) by (apply H; left; reflexivity).
    assert (El : Rsum l = INR (length l) * c)
      by (apply IH; intros; apply H; right; assumption).
    change (a + Rsum l = INR (S (length l)) * c).
    rewrite S_INR, El, Ea. lra.
Qed.

Lemma annualized_return_Fin (l : list R) :
  l <> [] -> annualized_return (map Fin l) = Fin (Rmean l * 252).
Proof.
  intros Hne. unfold annualized_return. now rewrite series_mean_Fin.
Qed.

Lemma annualized_vol_Fin (l : list R) :
  (2 <= length l)%nat ->
  annualized_vol (map Fin l) = Fin (sqrt (Rvar l) * sqrt 252).
Proof.
  intros Hn. unfold annualized_vol. now rewrite series_std_Fin.
Qed.

Lemma annualized_vol_short (s : Series) :
  (length s <= 1)%nat -> annualized_vol s = NaN.
Proof.
  intros Hn. unfold annualized_vol.
  destruct s as [|x [|y s]]; simpl in Hn; try lia.
  - reflexivity.
  - now rewrite series_std_single.
Qed.

Lemma sharpe_ratio_zero_vol (s : Series) :
  annualized_vol s = Fin 0 -> sharpe_ratio s = Fin 0.
Proof.
  intros E. unfold sharpe_ratio. rewrite E. simpl.
  now rewrite (proj2 (Rltb_false 0 0)) by lra.
Qed.

Lemma sharpe_ratio_nan_vol (s : Series) :
  annualized_vol s = NaN -> sharpe_ratio s = Fin 0.
Proof. intros E. unfold sharpe_ratio. now rewrite E. Qed.

(** *** The guard in binary64 *)

(** The portfolio [steady] (asset A gains 25% a day, asset B does not
    move, weights 0.4 and 0.6) has the same return on each of its three
    days. *)
Lemma steady_portfolio_returns :
  Binary64.portfolio_returns steady = Ok (Some constant_returns).
Proof. vm_compute. reflexivity. Qed.

(** C3: the zero-volatility guard of [calculate_metrics] misses a constant
    return series.  On three identical returns of 0.1 the mean that
    [Series.std] subtracts is 0.30000000000000004 / 3 and differs from
    0.1, the standard deviation is not 0, the annualized volatility is a
    positive number near 2.7e-16 and passes [annualized_vol > 0], and the
    Sharpe ratio is the annualized return divided by it, above 9e16, where
    the specification says exactly 0. *)
Theorem sharpe_ratio_constant_returns :
  Binary64.portfolio_returns steady = Ok (Some constant_returns) /\
  Binary64.series_mean constant_returns = 0.10000000000000002%float /\
  Binary64.annualized_return constant_returns = 25.200000000000006%float /\
  Binary64.annualized_vol constant_returns = 2.6981503274991466e-16%float /\
  PrimFloat.ltb 0 (Binary64.annualized_vol constant_returns) = true /\
  Binary64.sharpe_ratio constant_returns = 93397316462190256%float /\
  PrimFloat.ltb 9e16 (Binary64.sharpe_ratio constant_returns) = true.
Proof.
  split; [exact steady_portfolio_returns|].
  repeat split; vm_compute; reflexivity.
Qed.

(** ** Cumulative curve, running maximum and drawdown *)

Lemma Rmax2_l (a b : R) : a <= Rmax2 a b.
Proof. unfold Rmax2, Rltb. destruct (Rlt_dec a b); lra. Qed.

Lemma Rmax2_r (a b : R) : b <= Rmax2 a b.
Proof. unfold Rmax2, Rltb. destruct (Rlt_dec a b); lra. Qed.

Lemma Rmax2_idem (a : R) : Rmax2 a a = a.
Proof. unfold Rmax2, Rltb. destruct (Rlt_dec a a); lra. Qed.

Lemma fmax_Fin (a b : R) : fmax (Fin a) (Fin b) = Fin (Rmax2 a b).
Proof. unfold fmax, Rmax2. simpl. destruct (Rltb a b); reflexivity. Qed.

Lemma fmin_Fin (a b : R) : fmin (Fin a) (Fin b) = Fin (Rmin2 a b).
Proof. unfold fmin, Rmin2. simpl. destruct (Rltb b a); reflexivity. Qed.

Lemma cumprod_from_Fin (acc : R) (l : list R) :
  cumprod_from (Fin acc) (map Fin l) = map Fin (Rcumprod acc l).
Proof.
  revert acc. induction l as [|x l IH]; intros acc; simpl; [reflexivity|].
  now rewrite IH.
Qed.

Lemma expanding_max_from_Fin (cur : R) (l : list R) :
  expanding_max_from (Some (Fin cur)) (map Fin l) = map Fin (Rrunmax cur l).
Proof.
  revert cur. induction l as [|x l IH]; intros cur; simpl; [reflexivity|].
  now rewrite fmax_Fin, IH.
Qed.

Lemma expanding_max_Fin (x : R) (l : list R) :
  expanding_max (map Fin (x :: l)) = map Fin (Rrunmax x (x :: l)).
Proof.
  unfold expanding_max. simpl. rewrite Rmax2_idem.
  now rewrite expanding_max_from_Fin.
Qed.

Lemma Rcumprod_length (acc : R) (l : list R) :
  length (Rcumprod acc l) = length l.
Proof. revert acc. induction l; intros; simpl; auto. Qed.

Lemma Rrunmax_length (cur : R) (l : list R) :
  length (Rrunmax cur l) = length l.
Proof. revert cur. induction l; intros; simpl; auto. Qed.

Lemma Rcumprod_positive (acc : R) (l : list R) :
  0 < acc -> (forall x, In x l -> 0 < x) ->
  forall c, In c (Rcumprod acc l) -> 0 < c.
Proof.
  revert acc. induction l as [|x l IH]; intros acc Ha Hl c Hc; simpl in Hc.
  - contradiction.
  - assert (0 < acc * x)
      by (apply Rmult_lt_0_compat; [exact Ha|apply Hl; left; reflexivity]).
    destruct Hc as [<-|Hc]; [assumption|].
    apply (IH (acc * x)); auto. intros; apply Hl; right; assumption.
Qed.

Lemma Rrunmax_ge_cur (cur : R) (l : list R) (i : nat) :
  (i < length l)%nat -> cur <= nth i (Rrunmax cur l) 0.
Proof.
  revert cur i. induction l as [|x l IH]; intros cur i Hi; simpl in Hi; [lia|].
  pose proof (Rmax2_l cur x).
  destruct i as [|i]; simpl; [assumption|].
  apply Rle_trans with (Rmax2 cur x); [assumption|apply IH; lia].
Qed.

Lemma Rrunmax_ge (cur : R) (l : list R) (i : nat) :
  (i < length l)%nat -> nth i l 0 <= nth i (Rrunmax cur l) 0.
Proof.
  revert cur i. induction l as [|x l IH]; intros cur i Hi; simpl in Hi; [lia|].
  destruct i as [|i]; simpl; [apply Rmax2_r|apply IH; lia].
Qed.

Lemma Rrunmax_mono (cur : R) (l : list R) (i j : nat) :
  (i <= j < length l)%nat ->
  nth i (Rrunmax cur l) 0 <= nth j (Rrunmax cur l) 0.
Proof.
  revert cur i j. induction l as [|x l IH]; intros cur i j Hij;
    simpl in Hij; [lia|].
  destruct i as [|i], j as [|j]; simpl; try lia.
  - lra.
  - apply Rrunmax_ge_cur. lia.
  - apply IH. lia.
Qed.

Lemma fold_left_fmin_Fin (x : R) (l : list R) :
  fold_left fmin (map Fin l) (Fin x) = Fin (fold_left Rmin2 l x).
Proof.
  revert x. induction l as [|y l IH]; intros x; simpl; [reflexivity|].
  now rewrite fmin_Fin, IH.
Qed.

Lemma fold_left_Rmin2_le (x : R) (l : list R) :
  fold_left Rmin2 l x <= x /\ forall y, In y l -> fold_left Rmin2 l x <= y.
Proof.
  revert x. induction l as [|a l IH]; intros x; simpl.
  - split; [lra|intros ? []].
  - destruct (IH (Rmin2 x a)) as [H1 H2].
    assert (Rmin2 x a <= x /\ Rmin2 x a <= a)
      by (unfold Rmin2, Rltb; destruct (Rlt_dec a x); lra).
    split; [lra|]. intros y [<-|Hy]; [lra|auto].
Qed.

Lemma fold_left_Rmin2_in (x : R) (l : list R) :
  In (fold_left Rmin2 l x) (x :: l).
Proof.
  revert x. induction l as [|a l IH]; intros x; simpl; [auto|].
  destruct (IH (Rmin2 x a)) as [E|H]; [|auto].
  rewrite <- E. unfold Rmin2. destruct (Rltb a x); auto.
Qed.

Lemma nth_map_Fin (l : list R) (i : nat) :
  (i < length l)%nat -> nth i (map Fin l) NaN = Fin (nth i l 0).
Proof.
  intros Hi. rewrite (nth_indep _ NaN (Fin 0)) by (now rewrite length_map).
  apply map_nth.
Qed.

Lemma Rdrawdown_length (c m : list R) :
  length m = length c -> length (Rdrawdown c m) = length c.
Proof. intros H. unfold Rdrawdown. rewrite !map2_length. lia. Qed.

Lemma Rdrawdown_nth (c m : list R) (i : nat) :
  length m = length c -> (i < length c)%nat ->
  nth i (Rdrawdown c m) 0 = (nth i c 0 - nth i m 0) / nth i m 0.
Proof.
  intros H Hi. unfold Rdrawdown.
  rewrite (map2_nth Rdiv _ _ i 0 0 0) by (rewrite ?map2_length; lia).
  now rewrite (map2_nth Rminus _ _ i 0 0 0) by lia.
Qed.

(** The three curves of [calculate_metrics] on finite returns above -1:
    the cumulative curve [C] is positive, the running maximum [M]
    dominates it and never decreases. *)
Lemma curves_Fin (l : list R) :
  l <> [] -> (forall x, In x l -> -1 < x) ->
  exists C M,
    cumulative (map Fin l) = map Fin C /\
    running_max (map Fin l) = map Fin M /\
    drawdown (map Fin l) = map Fin (Rdrawdown C M) /\
    length C = length l /\ length M = length l /\
    (forall i, (i < length l)%nat -> 0 < nth i C 0 <= nth i M 0) /\
    (forall i j, (i <= j < length l)%nat -> nth i M 0 <= nth j M 0).
Proof.
  intros Hne Hl.
  assert (EC : cumulative (map Fin l) = map Fin (Rcumprod 1 (map (Rplus 1) l))).
  { unfold cumulative, cumprod. rewrite map_map.
    rewrite <- (map_map (Rplus 1) Fin). apply cumprod_from_Fin. }
  assert (LC : length (Rcumprod 1 (map (Rplus 1) l)) = length l)
    by (now rewrite Rcumprod_length, length_map).
  assert (PC : forall c, In c (Rcumprod 1 (map (Rplus 1) l)) -> 0 < c).
  { apply Rcumprod_positive; [lra|].
    intros x Hx. apply in_map_iff in Hx as (y & <- & Hy).
    specialize (Hl y Hy). lra. }
  destruct (Rcumprod 1 (map (Rplus 1) l)) as [|c0 C'] eqn:E.
  { destruct l; [contradiction|discriminate]. }
  set (C := c0 :: C') in *.
  exists C, (Rrunmax c0 C).
  assert (LM : length (Rrunmax c0 C) = length l)
    by (now rewrite Rrunmax_length).
  assert (HCM : forall i, (i < length l)%nat ->
            0 < nth i C 0 <= nth i (Rrunmax c0 C) 0).
  { intros i Hi. split.
    - apply PC, nth_In. lia.
    - apply Rrunmax_ge. lia. }
  assert (EM : running_max (map Fin l) = map Fin (Rrunmax c0 C)).
  { unfold running_max. rewrite EC. apply expanding_max_Fin. }
  repeat split; try assumption; try (apply HCM; assumption).
  - unfold drawdown. rewrite EM, EC. unfold Rdrawdown.
    rewrite (map2_Fin fsub Rminus) by reflexivity.
    apply map2_Fin. intros x y _ Hy. apply fdiv_Fin.
    apply (In_nth _ _ 0) in Hy as (i & Hi & <-).
    rewrite LM in Hi. specialize (HCM i Hi). lra.
  - intros i j Hij. apply Rrunmax_mono. lia.
Qed.

Lemma Rcumprod_last (acc : R) (l : list R) :
  l <> [] -> last (Rcumprod acc l) 0 = acc * Rprod l.
Proof.
  revert acc. induction l as [|x l IH]; intros acc Hne; [contradiction|].
  destruct l as [|y l].
  - simpl. lra.
  - change (last (Rcumprod (acc * x) (y :: l)) 0 = acc * (x * Rprod (y :: l))).
    rewrite IH by discriminate. lra.
Qed.

(** The total return is the last value of the cumulative curve minus 1. *)
Lemma total_return_cumulative (l : list R) :
  l <> [] ->
  total_return (map Fin l) = fsub (last (cumulative (map Fin l)) NaN) (Fin 1).
Proof.
  intros Hne. unfold total_return, series_prod, cumulative, cumprod.
  rewrite map_map, <- (map_map (Rplus 1) Fin).
  rewrite valid_Fin, np_prod_Fin, cumprod_from_Fin.
  assert (E : forall X, X <> [] -> last (map Fin X) NaN = Fin (last X 0)).
  { induction X as [|a [|b X] IH]; intros HX; [contradiction|reflexivity|].
    change (last (map Fin (b :: X)) NaN = Fin (last (b :: X) 0)).
    apply IH. discriminate. }
  rewrite E by (destruct l; [contradiction|discriminate]).
  rewrite Rcumprod_last by (destruct l; [contradiction|discriminate]).
  simpl. f_equal. lra.
Qed.

(** Drawdown on finite returns above -1: nowhere positive, its minimum is
    a value of the curve, and a minimum of 0 forces the cumulative curve
    to be non-decreasing. *)
Lemma drawdown_facts (l : list R) :
  l <> [] -> (forall x, In x l -> -1 < x) ->
  length (drawdown (map Fin l)) = length l /\
  Forall (fun x => fleb x (Fin 0) = true) (drawdown (map Fin l)) /\
  In (max_drawdown (map Fin l)) (drawdown (map Fin l)) /\
  Forall (fun x => fleb (max_drawdown (map Fin l)) x = true)
    (drawdown (map Fin l)) /\
  fleb (max_drawdown (map Fin l)) (Fin 0) = true /\
  (max_drawdown (map Fin l) = Fin 0 -> nondecreasing (cumulative (map Fin l))).
Proof.
  intros Hne Hl.
  destruct (curves_Fin l Hne Hl) as (C & M & EC & EM & ED & LC & LM & HCM & HM).
  assert (LD : length (Rdrawdown C M) = length l)
    by (rewrite Rdrawdown_length; lia).
  assert (HD : forall i, (i < length l)%nat ->
            nth i (Rdrawdown C M) 0 = (nth i C 0 - nth i M 0) / nth i M 0)
    by (intros; apply Rdrawdown_nth; lia).
  assert (ND : forall d, In d (Rdrawdown C M) -> d <= 0).
  { intros d Hd. apply (In_nth _ _ 0) in Hd as (i & Hi & <-).
    rewrite LD in Hi. rewrite (HD i Hi). specialize (HCM i Hi).
    assert (0 < / nth i M 0) by (apply Rinv_0_lt_compat; lra).
    unfold Rdiv. nra. }
  unfold max_drawdown, series_min. rewrite ED, valid_Fin.
  destruct (Rdrawdown C M) as [|d0 D'] eqn:E.
  { destruct l; [contradiction|discriminate]. }
  cbn [map]. rewrite fold_left_fmin_Fin.
  pose proof (fold_left_Rmin2_in d0 D') as Hin.
  pose proof (fold_left_Rmin2_le d0 D') as [Hle0 Hle].
  set (mdd := fold_left Rmin2 D' d0) in *.
  split; [simpl; rewrite length_map; simpl in LD; lia|].
  split.
  { apply Forall_forall. intros x Hx.
    change (Fin d0 :: map Fin D') with (map Fin (d0 :: D')) in Hx.
    apply in_map_iff in Hx as (d & <- & Hd).
    simpl. apply Rleb_true, ND, Hd. }
  split; [change (In (Fin mdd) (map Fin (d0 :: D'))); now apply in_map|].
  split.
  { apply Forall_forall. intros x Hx.
    change (Fin d0 :: map Fin D') with (map Fin (d0 :: D')) in Hx.
    apply in_map_iff in Hx as (d & <- & Hd).
    simpl. apply Rleb_true. destruct Hd as [<-|Hd]; [exact Hle0|now apply Hle]. }
  split; [simpl; apply Rleb_true, ND, Hin|].
  intros Hz. injection Hz as Hz.
  assert (Z : forall i, (i < length l)%nat -> nth i C 0 = nth i M 0).
  { intros i Hi.
    assert (Hd : nth i (d0 :: D') 0 = 0).
    { assert (In (nth i (d0 :: D') 0) (d0 :: D')) as Hi'
        by (apply nth_In; lia).
      pose proof (ND _ Hi') as H1.
      assert (mdd <= nth i (d0 :: D') 0) as H2.
      { destruct Hi' as [<-|Hi']; [exact Hle0|apply Hle, Hi']. }
      lra. }
    rewrite (HD i Hi) in Hd. specialize (HCM i Hi).
    apply Rmult_integral in Hd as [Hd|Hd]; [lra|].
    exfalso. apply (Rinv_neq_0_compat (nth i M 0)); [lra|exact Hd]. }
  rewrite EC. intros i j Hij. rewrite length_map in Hij.
  rewrite !nth_map_Fin by lia. simpl. apply Rleb_true.
  rewrite (Z i), (Z j) by lia. apply HM. lia.
Qed.

(** ** From prices and weights to the portfolio return series *)

Lemma Forall_lifted (P : R -> Prop) (l : list float64) :
  Forall (lifted P) l ->
  l = map Fin (map to_R l) /\ forall x, In x (map to_R l) -> P x.
Proof.
  induction 1 as [|c l Hc _ [IH1 IH2]]; simpl.
  - split; [reflexivity|intros ? []].
  - destruct c; simpl in Hc; try contradiction.
    split; [now rewrite <- IH1|].
    intros y [<-|Hy]; auto.
Qed.

Lemma pct_above (p c : float64) :
  positive p -> positive c -> above_minus_one (pct p c).
Proof.
  intros Hp Hc. destruct (pct_positive p c Hp Hc) as (p0 & p1 & -> & -> & ->).
  simpl in *. apply Rmult_lt_reg_r with p0; [exact Hp|].
  replace ((p1 - p0) / p0 * p0) with (p1 - p0) by (field; lra). lra.
Qed.

Lemma pct_row_above (prev r : list float64) :
  Forall positive prev -> Forall positive r ->
  Forall above_minus_one (map2 pct prev r).
Proof.
  intros Hp. revert r. induction Hp as [|p prev Hp _ IH]; intros r Hr.
  - constructor.
  - destruct Hr as [|c r Hc Hr]; simpl; constructor.
    + now apply pct_above.
    + now apply IH.
Qed.

Lemma pct_rows_above (prev : list float64) (rows : list (list float64)) :
  Forall positive prev -> Forall (Forall positive) rows ->
  Forall (Forall above_minus_one) (pct_rows prev rows).
Proof.
  intros Hp Hrows. revert prev Hp.
  induction Hrows as [|r rows Hr _ IH]; intros prev Hp; simpl; constructor.
  - now apply pct_row_above.
  - now apply IH.
Qed.

Lemma pct_rows_rectangular (k : nat) (prev : list float64)
    (rows : list (list float64)) :
  length prev = k -> Forall (fun row => length row = k) rows ->
  Forall (fun row => length row = k) (pct_rows prev rows).
Proof.
  intros Hp Hrows. revert prev Hp.
  induction Hrows as [|r rows Hr _ IH]; intros prev Hp; simpl; constructor.
  - rewrite map2_length. lia.
  - now apply IH.
Qed.

(** The return table of a table of positive prices. *)
Lemma returns_of_prices (self : PortfolioAnalytics) (d : DataFrame) :
  data self = Some d ->
  rectangular d -> (1 <= ncols d)%nat -> positive_prices d ->
  exists out,
    calculate_returns self = Some out /\
    ncols out = ncols d /\
    nrows out = (nrows d - 1)%nat /\
    rectangular out /\
    Forall (Forall above_minus_one) (values out).
Proof.
  intros Hd Hrect Hk Hpos.
  unfold calculate_returns. rewrite Hd. eexists. split; [reflexivity|].
  split; [reflexivity|].
  unfold rectangular, positive_prices, nrows in *.
  cbn [values dropna pct_change columns ncols].
  fold (ncols d).
  destruct (values d) as [|r0 rows].
  - simpl. repeat split; constructor.
  - inversion Hrect as [|? ? Hr0 Hrows]; subst.
    inversion Hpos as [|? ? Hp0 Hprows]; subst.
    cbn [pct_rows filter]. fold pct.
    rewrite (pct_first_row_dropped (ncols d) r0 Hr0 Hk).
    rewrite (pct_rows_kept r0 rows Hp0 Hprows).
    split; [rewrite pct_rows_length; simpl; lia|].
    split; [now apply pct_rows_rectangular|now apply pct_rows_above].
Qed.

Lemma weighted_ge (r w : list R) :
  (forall x, In x r -> -1 < x) -> (forall y, In y w -> 0 <= y) ->
  - Rsum w <= Rsum (map2 Rmult r w).
Proof.
  revert w. induction r as [|x r IH]; intros w Hr Hw.
  - pose proof (Rsum_nonneg w Hw). simpl. lra.
  - destruct w as [|y w]; simpl; [lra|].
    assert (-1 < x) by (apply Hr; left; reflexivity).
    assert (0 <= y) by (apply Hw; left; reflexivity).
    assert (- Rsum w <= Rsum (map2 Rmult r w))
      by (apply IH; intros; [apply Hr|apply Hw]; right; assumption).
    nra.
Qed.

Lemma weighted_gt (r w : list R) :
  length r = length w ->
  (forall x, In x r -> -1 < x) -> (forall y, In y w -> 0 <= y) ->
  0 < Rsum w ->
  - Rsum w < Rsum (map2 Rmult r w).
Proof.
  revert w. induction r as [|x r IH]; intros [|y w] Hlen Hr Hw Hs;
    simpl in *; try discriminate; try lra.
  assert (-1 < x) by (apply Hr; left; reflexivity).
  assert (0 <= y) by (apply Hw; left; reflexivity).
  assert (Hw' : forall z, In z w -> 0 <= z) by (intros; apply Hw; now right).
  assert (Hr' : forall z, In z r -> -1 < z) by (intros; apply Hr; now right).
  pose proof (Rsum_nonneg w Hw').
  destruct (Rlt_dec 0 (Rsum w)) as [Hpos|Hz].
  - assert (- Rsum w < Rsum (map2 Rmult r w)) by (apply IH; auto).
    nra.
  - pose proof (weighted_ge r w Hr' Hw'). nra.
Qed.

Lemma weighted_row_above (row w : list float64) :
  Forall above_minus_one row -> normalized w -> length row = length w ->
  exists v, series_sum (map2 fmul row w) = Fin v /\ -1 < v.
Proof.
  intros Hrow [Hw Hs] Hlen.
  destruct (Forall_lifted _ _ Hrow) as [Er Pr].
  destruct (Forall_lifted _ _ Hw) as [Ew Pw].
  rewrite Ew, np_sum_Fin in Hs. injection Hs as Hs.
  rewrite Er, Ew. rewrite (map2_Fin fmul Rmult) by reflexivity.
  rewrite series_sum_Fin. eexists. split; [reflexivity|].
  assert (H : - Rsum (map to_R w) < Rsum (map2 Rmult (map to_R row) (map to_R w))).
  { apply weighted_gt; auto; [now rewrite !length_map|lra]. }
  lra.
Qed.

(** The portfolio return series of such a return table under normalized
    weights: finite values, all above -1. *)
Lemma portfolio_returns_above (self : PortfolioAnalytics) (r : DataFrame) :
  returns self = Some r ->
  rectangular r ->
  Forall (Forall above_minus_one) (values r) ->
  normalized (weights self) ->
  ncols r = length (weights self) ->
  exists l,
    portfolio_returns self = Ok (Some (map Fin l)) /\
    length l = nrows r /\
    forall x, In x l -> -1 < x.
Proof.
  intros Hr Hrect Habove Hw Hk.
  unfold portfolio_returns, df_mul_array. rewrite Hr.
  rewrite (proj2 (Nat.eqb_eq _ _) Hk). cbn [bind].
  unfold df_sum_axis1, nrows, rectangular in *. cbn [values].
  rewrite map_map.
  induction (values r) as [|row rows IH].
  - exists []. repeat split. intros ? [].
  - inversion Hrect; subst. inversion Habove; subst.
    destruct IH as (l & El & Ll & Pl); auto.
    destruct (weighted_row_above row (weights self)) as (v & Ev & Hv);
      auto; [lia|].
    exists (v :: l). simpl. rewrite Ev. injection El as El. rewrite El.
    repeat split; [lia|]. intros x [<-|Hx]; auto.
Qed.

(** C4: for the portfolio return series of a table of positive prices
    (at least two rows, so the series is not empty) under normalized
    weights, every value of the drawdown curve is [<= 0]; the maximum
    drawdown is the smallest of them, hence [<= 0]; and when it is 0 the
    cumulative return curve is non-decreasing. *)
Theorem max_drawdown_nonpositive
    (self : PortfolioAnalytics) (prices : DataFrame) :
  data self = Some prices ->
  rectangular prices ->
  (1 <= ncols prices)%nat ->
  positive_prices prices ->
  (2 <= nrows prices)%nat ->
  returns self = calculate_returns self ->
  normalized (weights self) ->
  length (weights self) = ncols prices ->
  exists d cum dd mdd,
    calculate_metrics self = Ok d /\
    dict_get "Cumulative Returns" d = Some (Curve cum) /\
    dict_get "Drawdown Series" d = Some (Curve dd) /\
    dict_get "Maximum Drawdown" d = Some (Scalar mdd) /\
    length dd = (nrows prices - 1)%nat /\
    Forall (fun x => fleb x (Fin 0) = true) dd /\
    In mdd dd /\
    Forall (fun x => fleb mdd x = true) dd /\
    fleb mdd (Fin 0) = true /\
    (mdd = Fin 0 -> nondecreasing cum).
Proof.
  intros Hd Hrect Hk Hpos Hn Hret Hw Hlen.
  destruct (returns_of_prices self prices Hd Hrect Hk Hpos)
    as (r & Er & Kr & Nr & Rr & Ar).
  rewrite Er in Hret.
  destruct (portfolio_returns_above self r Hret Rr Ar Hw) as (l & El & Ll & Pl);
    [lia|].
  assert (Hne : l <> []) by (intros ->; simpl in Ll; lia).
  assert (Hne' : map Fin l <> []) by (destruct l; [contradiction|discriminate]).
  destruct (drawdown_facts l Hne Pl) as (LD & ND & ID & LE & MD & ZD).
  eexists _, _, _, _.
  split; [apply (calculate_metrics_some self (map Fin l) El Hne')|].
  do 3 (split; [reflexivity|]).
  split; [lia|]. split; [exact ND|]. split; [exact ID|].
  split; [exact LE|]. split; [exact MD|exact ZD].
Qed.

Example portfolio_returns_one_asset :
  portfolio_returns one_asset_run = Ok (Some [Fin 0.10; Fin (-0.10)]).
Proof.
  unfold portfolio_returns, one_asset_run, set_returns. cbn [returns].
  rewrite calculate_returns_one_asset.
  cbv [one_asset weights df_mul_array ncols columns length Nat.eqb bind
       values map map2 fmul df_sum_axis1 series_sum valid filter notna isnan
       negb np_sum fadd].
  repeat f_equal; lra.
Qed.

Example total_return_one_asset :
  total_return [Fin 0.10; Fin (-0.10)] = Fin (-0.01).
Proof. unfold_metrics. f_equal. lra. Qed.

Example cumulative_one_asset :
  cumulative [Fin 0.10; Fin (-0.10)] = [Fin 1.10; Fin 0.99].
Proof. unfold_metrics. repeat f_equal; lra. Qed.

Example drawdown_one_asset :
  drawdown [Fin 0.10; Fin (-0.10)] = [Fin 0; Fin (-0.10)].
Proof.
  unfold_metrics. decide_R. unfold_metrics. decide_R.
  repeat f_equal; lra.
Qed.

Example max_drawdown_one_asset :
  max_drawdown [Fin 0.10; Fin (-0.10)] = Fin (-0.10).
Proof.
  unfold max_drawdown. rewrite drawdown_one_asset.
  unfold_metrics. decide_R. reflexivity.
Qed.

(** The prices have to be positive: a return below -1 (a price that
    changes sign) turns the cumulative curve negative, and the drawdown
    against a negative running maximum is positive. *)
Example drawdown_return_below_minus_one :
  drawdown [Fin (-2); Fin 1] = [Fin 0; Fin 1].
Proof.
  unfold_metrics. decide_R. unfold_metrics. decide_R.
  repeat f_equal; lra.
Qed.

Lemma max_drawdown_nonpositive_witness :
  exists d cum dd mdd,
    calculate_metrics one_asset_run = Ok d /\
    dict_get "Cumulative Returns" d = Some (Curve cum) /\
    dict_get "Drawdown Series" d = Some (Curve dd) /\
    dict_get "Maximum Drawdown" d = Some (Scalar mdd) /\
    length dd = 2%nat /\
    Forall (fun x => fleb x (Fin 0) = true) dd /\
    In mdd dd /\
    Forall (fun x => fleb mdd x = true) dd /\
    fleb mdd (Fin 0) = true /\
    (mdd = Fin 0 -> nondecreasing cum).
Proof.
  apply (max_drawdown_nonpositive one_asset_run one_asset_prices).
  - reflexivity.
  - repeat constructor.
  - apply le_n.
  - repeat constructor; simpl; lra.
  - repeat constructor.
  - reflexivity.
  - split; [repeat constructor; simpl; lra|simpl; f_equal; lra].
  - reflexivity.
Defined.

(** ** Covariance and portfolio variance *)

Lemma pairwise_valid_length (x y : Series) :
  (length (pairwise_valid x y) <= length x)%nat.
Proof.
  unfold pairwise_valid.
  etransitivity; [apply filter_length_le|].
  rewrite length_combine. lia.
Qed.

(** With at most one row every covariance is NaN. *)
Lemma cov_pair_short (x y : Series) :
  (length x <= 1)%nat -> cov_pair x y = NaN.
Proof.
  intros Hn. unfold cov_pair.
  pose proof (pairwise_valid_length x y).
  destruct (Nat.leb_spec (length (pairwise_valid x y)) 1); [reflexivity|lia].
Qed.

Lemma pairwise_valid_Fin (x y : list R) :
  pairwise_valid (map Fin x) (map Fin y) =
  map (fun p => (Fin (fst p), Fin (snd p))) (combine x y).
Proof.
  unfold pairwise_valid. revert y.
  induction x as [|a x IH]; intros [|b y]; simpl; try reflexivity.
  now rewrite IH.
Qed.

(** With two rows or more the covariance of two finite columns of one
    length is finite. *)
Lemma cov_pair_finite (x y : list R) :
  length x = length y -> (2 <= length x)%nat ->
  isfinite (cov_pair (map Fin x) (map Fin y)) = true.
Proof.
  intros Hlen Hn. unfold cov_pair, of_nat.
  rewrite pairwise_valid_Fin, length_map, length_combine.
  replace (Nat.min (length x) (length y)) with (length x) by lia.
  destruct (Nat.leb_spec (length x) 1); [lia|].
  rewrite !map_map. cbn [fst snd].
  rewrite <- (map_map fst Fin), <- (map_map snd Fin), !np_sum_Fin.
  rewrite !fdiv_Fin by (apply Rgt_not_eq, INR_pos; lia).
  cbn [fsub fneg fadd fmul].
  match goal with
  | |- context [map (fun p => Fin (@?f p)) ?c] =>
      rewrite <- (map_map f Fin c)
  end.
  rewrite np_sum_Fin, fdiv_Fin by (apply Rgt_not_eq, INR_pos; lia).
  reflexivity.
Qed.

Lemma column_length (df : DataFrame) (a : nat) :
  length (column df a) = nrows df.
Proof. unfold column, nrows. apply length_map. Qed.

Lemma column_finite (df : DataFrame) (a : nat) :
  rectangular df -> df_finite df = true -> (a < ncols df)%nat ->
  all_finite (column df a) = true.
Proof.
  unfold rectangular, df_finite, column. intros Hrect Hfin Ha.
  induction (values df) as [|row rows IH]; [reflexivity|].
  inversion Hrect as [|? ? Hrow Hrows]; subst.
  simpl in Hfin. apply andb_prop in Hfin as [Hf Hfs].
  simpl. rewrite IH by assumption. rewrite andb_true_r.
  unfold all_finite in Hf. rewrite forallb_forall in Hf.
  apply Hf, nth_In. lia.
Qed.

Lemma cov_entry_finite (df : DataFrame) (i j : nat) :
  rectangular df -> df_finite df = true -> (2 <= nrows df)%nat ->
  (i < ncols df)%nat -> (j < ncols df)%nat ->
  isfinite (cov_pair (column df i) (column df j)) = true.
Proof.
  intros Hrect Hfin Hn Hi Hj.
  rewrite (all_finite_map _ (column_finite df i Hrect Hfin Hi)).
  rewrite (all_finite_map _ (column_finite df j Hrect Hfin Hj)).
  apply cov_pair_finite; rewrite !length_map, !column_length; lia.
Qed.

(** The rows of the annualized covariance matrix. *)
Lemma cov_matrix_values (r : DataFrame) :
  values (cov_matrix r) =
  map (fun i => map (fun j => fmul (cov_pair (column r i) (column r j)) (Fin 252))
                    (seq 0 (ncols r)))
      (seq 0 (ncols r)).
Proof.
  unfold cov_matrix, df_scale, df_cov. cbn [values].
  rewrite map_map. apply map_ext. intros i. now rewrite map_map.
Qed.

Lemma cov_matrix_ncols (r : DataFrame) : ncols (cov_matrix r) = ncols r.
Proof. reflexivity. Qed.

Lemma dot_finite (a b : list float64) :
  all_finite a = true -> all_finite b = true -> isfinite (dot a b) = true.
Proof.
  intros Ha Hb. rewrite (all_finite_map a Ha), (all_finite_map b Hb).
  now rewrite dot_Fin.
Qed.

Lemma dot_nan_l (a b : list float64) :
  a <> [] -> b <> [] -> Forall (fun x => x = NaN) a -> dot a b = NaN.
Proof.
  intros Ha Hb Hn. destruct a as [|x a]; [contradiction|].
  destruct b as [|y b]; [contradiction|].
  inversion Hn; subst. reflexivity.
Qed.

Lemma dot_nan_r (a b : list float64) :
  a <> [] -> b <> [] -> Forall (fun x => x = NaN) b -> dot a b = NaN.
Proof.
  intros Ha Hb Hn. destruct a as [|x a]; [contradiction|].
  destruct b as [|y b]; [contradiction|].
  inversion Hn; subst. unfold dot. simpl. destruct x; reflexivity.
Qed.

Lemma seq_lt (k i : nat) : In i (seq 0 k) -> (i < k)%nat.
Proof. intros H. apply in_seq in H. lia. Qed.

Lemma all_finite_forall (l : list float64) :
  (forall x, In x l -> isfinite x = true) -> all_finite l = true.
Proof. intros H. unfold all_finite. now apply forallb_forall. Qed.

(** With two rows or more of finite returns the marginal contributions
    are finite, one per weight. *)
Lemma marginal_contrib_finite (r : DataFrame) (w : list float64) :
  rectangular r -> df_finite r = true -> all_finite w = true ->
  ncols r = length w -> (2 <= nrows r)%nat ->
  exists m,
    marginal_contrib r w = Ok (map Fin m) /\ length m = length w.
Proof.
  intros Hrect Hfin Hw Hk Hn.
  unfold marginal_contrib, np_dot_mv. rewrite cov_matrix_ncols.
  rewrite (proj2 (Nat.eqb_eq _ _) Hk), cov_matrix_values.
  rewrite map_map.
  set (cw := map _ (seq 0 (ncols r))).
  assert (Hcw : all_finite cw = true).
  { apply all_finite_forall. intros x Hx. subst cw.
    apply in_map_iff in Hx as (i & <- & Hi). apply seq_lt in Hi.
    apply dot_finite; [|exact Hw].
    apply all_finite_forall. intros y Hy.
    apply in_map_iff in Hy as (j & <- & Hj). apply seq_lt in Hj.
    pose proof (cov_entry_finite r i j Hrect Hfin Hn Hi Hj) as Hc.
    destruct (cov_pair (column r i) (column r j)); try discriminate.
    reflexivity. }
  exists (map to_R cw). split.
  - f_equal. now apply all_finite_map.
  - subst cw. rewrite !length_map, length_seq. exact Hk.
Qed.

(** With at most one row the portfolio variance is not a positive number
    (it is NaN, or 0 when there is no column). *)
Lemma portfolio_variance_short (r : DataFrame) (w : list float64) (v : float64) :
  (nrows r <= 1)%nat -> portfolio_variance r w = Ok v ->
  fltb (Fin 0) v = false.
Proof.
  intros Hn. unfold portfolio_variance, np_dot_mv.
  rewrite cov_matrix_ncols.
  destruct (Nat.eqb_spec (ncols r) (length w)) as [Hk|_]; [|discriminate].
  cbn [bind]. unfold np_dot_vv. rewrite length_map, cov_matrix_values.
  rewrite length_map, length_seq, Hk, Nat.eqb_refl.
  intros E. injection E as <-.
  destruct w as [|w0 w].
  - simpl. now rewrite (proj2 (Rltb_false 0 0)) by lra.
  - rewrite dot_nan_r; [reflexivity|discriminate| |].
    + simpl. discriminate.
    + apply Forall_forall. intros x Hx.
      apply in_map_iff in Hx as (row & <- & Hrow).
      apply in_map_iff in Hrow as (i & <- & Hi).
      apply dot_nan_l; [simpl; discriminate|discriminate|].
      apply Forall_forall. intros y Hy.
      apply in_map_iff in Hy as (j & <- & Hj).
      rewrite cov_pair_short; [reflexivity|].
      now rewrite column_length.
Qed.

Lemma Rsum_scale (l : list R) (c : R) :
  Rsum (map (fun x => x * c) l) = Rsum l * c.
Proof. induction l as [|x l IH]; simpl; [lra|]. rewrite IH. lra. Qed.

Lemma risk_contrib_Fin (w m : list R) (v : R) :
  v <> 0 ->
  risk_contrib (map Fin w) (map Fin m) (Fin v) =
  map Fin (map (fun x => x * / v) (map2 Rmult w m)).
Proof.
  intros Hv. unfold risk_contrib.
  rewrite (map2_Fin fmul Rmult) by reflexivity.
  rewrite !map_map. apply map_ext. intros x. now rewrite fdiv_Fin.
Qed.

Lemma risk_contrib_pct_Fin (rc : list R) :
  Rsum rc <> 0 ->
  risk_contrib_pct (map Fin rc) =
  map Fin (map (fun x => x * (/ Rsum rc * 100)) rc).
Proof.
  intros Hs. unfold risk_contrib_pct. rewrite np_sum_Fin, !map_map.
  apply map_ext. intros x. rewrite fdiv_Fin by assumption.
  simpl. f_equal. unfold Rdiv. lra.
Qed.

Lemma nth_map_lt {A B : Type} (f : A -> B) (l : list A) (i : nat) (d : B) (d' : A) :
  (i < length l)%nat -> nth i (map f l) d = f (nth i l d').
Proof.
  intros Hi. rewrite (nth_indep _ d (f d')) by (now rewrite length_map).
  apply map_nth.
Qed.

(** Whatever the realized sum of the contributions is, as long as it is
    not 0, the percentages add up to 100. *)
Lemma risk_contrib_pct_sum (rc : list R) :
  Rsum rc <> 0 -> np_sum (risk_contrib_pct (map Fin rc)) = Fin 100.
Proof.
  intros Hs. rewrite risk_contrib_pct_Fin by assumption.
  rewrite np_sum_Fin, Rsum_scale. f_equal. field. exact Hs.
Qed.

(** C6 (as amended): when the portfolio variance is positive (finite
    returns, finite weights, one ticker per weight) [risk_attribution]
    returns a table with one row per ticker, in input order: row [i]
    holds ticker [i], weight [i], the contribution
    [weight i * (cov_matrix . weights) i / variance] and the percentage
    [contribution i / (sum of the contributions) * 100].  Percentages
    computed this way add up to 100 whatever the realized sum of the
    contributions is (not only when it is 1), and so does the column of
    the table.  The numbers are exact here: the statement is about the
    formulas, not about their rounding. *)
Theorem risk_contribution_pct_total
    (self : PortfolioAnalytics) (r : DataFrame) (variance : float64) :
  returns self = Some r ->
  rectangular r ->
  df_finite r = true ->
  all_finite (weights self) = true ->
  length (tickers self) = length (weights self) ->
  portfolio_variance r (weights self) = Ok variance ->
  fltb (Fin 0) variance = true ->
  (forall rc : list R,
     Rsum rc <> 0 -> np_sum (risk_contrib_pct (map Fin rc)) = Fin 100) /\
  exists tbl m,
    risk_attribution self = Ok (Some tbl) /\
    marginal_contrib r (weights self) = Ok m /\
    Asset tbl = tickers self /\
    Weight tbl = weights self /\
    length (Risk_Contribution tbl) = length (tickers self) /\
    length (Risk_Contribution_pct tbl) = length (tickers self) /\
    (forall i, (i < length (tickers self))%nat ->
       nth i m NaN = dot (nth i (values (cov_matrix r)) []) (weights self) /\
       nth i (Risk_Contribution tbl) NaN =
         fdiv (fmul (nth i (weights self) NaN) (nth i m NaN)) variance /\
       nth i (Risk_Contribution_pct tbl) NaN =
         fmul (fdiv (nth i (Risk_Contribution tbl) NaN)
                    (np_sum (Risk_Contribution tbl)))
              (Fin 100)) /\
    np_sum (Risk_Contribution_pct tbl) = Fin 100.
Proof.
  intros Hr Hrect Hfin Hw Htick Hvar Hpos.
  split; [exact risk_contrib_pct_sum|].
  destruct (Nat.le_gt_cases (nrows r) 1) as [Hn|Hn].
  { rewrite (portfolio_variance_short r _ _ Hn Hvar) in Hpos. discriminate. }
  assert (Hk : ncols r = length (weights self)).
  { unfold portfolio_variance, np_dot_mv in Hvar.
    rewrite cov_matrix_ncols in Hvar.
    destruct (Nat.eqb_spec (ncols r) (length (weights self)));
      [assumption|discriminate]. }
  destruct (marginal_contrib_finite r (weights self) Hrect Hfin Hw Hk)
    as (m & Em & Lm); [lia|].
  assert (Edot : map Fin m =
                 map (fun row => dot row (weights self)) (values (cov_matrix r))).
  { unfold marginal_contrib, np_dot_mv in Em. rewrite cov_matrix_ncols in Em.
    rewrite (proj2 (Nat.eqb_eq _ _) Hk) in Em. now injection Em. }
  assert (Lcov : length (values (cov_matrix r)) = length (weights self)).
  { rewrite <- Lm, <- (length_map Fin m), Edot. now rewrite length_map. }
  unfold risk_attribution. rewrite Hr, Hvar. cbn [bind].
  unfold portfolio_variance in Hvar.
  fold (marginal_contrib r (weights self)) in Hvar.
  rewrite Em in *. cbn [bind] in Hvar. unfold np_dot_vv in Hvar.
  rewrite length_map, Lm, Nat.eqb_refl in Hvar.
  assert (Ew : exists w, weights self = map Fin w)
    by (eexists; apply all_finite_map, Hw).
  destruct Ew as (w & Ew).
  assert (Lw : length w = length (weights self))
    by (now rewrite Ew, length_map).
  rewrite Ew, dot_Fin in Hvar. injection Hvar as <-.
  set (P := map2 Rmult w m) in *.
  set (v := Rsum P) in *.
  simpl in Hpos. apply Rltb_true in Hpos.
  cbn [fleb]. rewrite (proj2 (Rleb_false v 0)) by lra.
  cbn [bind].
  set (rc := map (fun x => x * / v) P).
  assert (Erc : risk_contrib (weights self) (map Fin m) (Fin v) = map Fin rc).
  { rewrite Ew. apply risk_contrib_Fin. lra. }
  assert (Src : Rsum rc = 1).
  { subst rc. rewrite Rsum_scale. fold v. field. lra. }
  assert (Lrc : length rc = length (weights self)).
  { subst rc P. rewrite length_map, map2_length. lia. }
  assert (Lc : length (risk_contrib (weights self) (map Fin m) (Fin v))
               = length (weights self))
    by (now rewrite Erc, length_map).
  unfold new_risk_table.
  unfold risk_contrib_pct at 1. rewrite length_map, Htick, Lc, !Nat.eqb_refl.
  cbn [andb bind].
  eexists _, _. split; [reflexivity|]. split; [reflexivity|].
  cbn [Asset Weight Risk_Contribution Risk_Contribution_pct].
  split; [reflexivity|]. split; [reflexivity|].
  split; [congruence|].
  split; [unfold risk_contrib_pct; rewrite length_map; congruence|].
  split.
  - intros i Hi. split; [|split].
    + rewrite Edot.
      apply (nth_map_lt (fun row => dot row (weights self))). lia.
    + unfold risk_contrib.
      rewrite (nth_map_lt (fun x => fdiv x (Fin v)) _ i NaN NaN)
        by (rewrite map2_length, length_map; lia).
      f_equal. apply map2_nth; [lia|rewrite length_map; lia].
    + unfold risk_contrib_pct.
      apply (nth_map_lt
               (fun x => fmul (fdiv x (np_sum (risk_contrib (weights self)
                                                 (map Fin m) (Fin v))))
                              (Fin 100))).
      lia.
  - rewrite Erc. apply risk_contrib_pct_sum. lra.
Qed.

Example portfolio_variance_swing :
  portfolio_variance swing_returns [Fin 1] = Ok (Fin 5.04).
Proof.
  unfold swing_returns. unfold_attribution.
  decide_R. unfold_attribution. decide_R. unfold_attribution.
  repeat f_equal. lra.
Qed.

(** The example of the specification: annualized portfolio variance
    2037/62500. *)
Example portfolio_variance_two_assets :
  portfolio_variance two_assets_returns [Fin 0.6; Fin 0.4]
    = Ok (Fin (2037 / 62500)).
Proof.
  unfold two_assets_returns. unfold_attribution.
  decide_R. unfold_attribution. decide_R. unfold_attribution.
  do 2 f_equal. lra.
Qed.

Lemma risk_contribution_pct_total_witness :
  (forall rc : list R,
     Rsum rc <> 0 -> np_sum (risk_contrib_pct (map Fin rc)) = Fin 100) /\
  exists tbl m,
    risk_attribution two_assets = Ok (Some tbl) /\
    marginal_contrib two_assets_returns [Fin 0.6; Fin 0.4] = Ok m /\
    Asset tbl = ["A"; "B"] /\
    Weight tbl = [Fin 0.6; Fin 0.4] /\
    length (Risk_Contribution tbl) = 2%nat /\
    length (Risk_Contribution_pct tbl) = 2%nat /\
    (forall i, (i < 2)%nat ->
       nth i m NaN =
         dot (nth i (values (cov_matrix two_assets_returns)) [])
             [Fin 0.6; Fin 0.4] /\
       nth i (Risk_Contribution tbl) NaN =
         fdiv (fmul (nth i [Fin 0.6; Fin 0.4] NaN) (nth i m NaN))
              (Fin (2037 / 62500)) /\
       nth i (Risk_Contribution_pct tbl) NaN =
         fmul (fdiv (nth i (Risk_Contribution tbl) NaN)
                    (np_sum (Risk_Contribution tbl)))
              (Fin 100)) /\
    np_sum (Risk_Contribution_pct tbl) = Fin 100.
Proof.
  apply (risk_contribution_pct_total two_assets two_assets_returns
           (Fin (2037 / 62500))).
  - reflexivity.
  - repeat constructor.
  - reflexivity.
  - reflexivity.
  - reflexivity.
  - exact portfolio_variance_two_assets.
  - simpl. apply Rltb_true. lra.
Defined.

(** *** The total of the percentages in binary64 *)

(** The returns of [hedged], computed without rounding error: 1/64, 1/32
    and -1/16, then their opposites. *)
Lemma hedged_calculate_returns :
  Binary64.returns hedged = Some hedged_returns.
Proof. vm_compute. reflexivity. Qed.

(** The weights of [hedged] are positive and add up to 1 (in binary64,
    and exactly), and its prices are positive. *)
Lemma hedged_well_formed :
  Binary64.np_sum hedged_weights = 1%float /\
  exact_sum hedged_weights == 1 /\
  forallb (PrimFloat.ltb 0) hedged_weights = true /\
  forallb (forallb (PrimFloat.ltb 0)) (Binary64.values hedged_prices) = true.
Proof. repeat split; vm_compute; reflexivity. Qed.

(** In binary64 the percentage column of a successful attribution can
    miss 100 by more than 1e-6.  For [hedged] the portfolio variance is
    positive (about 3.8e-21, computed without rounding error, as are the
    covariances and the marginal contributions), the contributions are near
    2.9e9, 2.9e9 and -5.7e9, the percentages near 2.9e11, 2.9e11 and
    -5.7e11, and the rounding of each percentage is of the order of
    1e-5: the column adds up to 100.0001220703125, both as [sum()]
    computes it and as the exact sum of the three stored numbers. *)
Lemma risk_contribution_pct_drift :
  exists variance tbl,
    Binary64.portfolio_variance hedged_returns hedged_weights = Ok variance /\
    PrimFloat.ltb 0 variance = true /\
    Binary64.risk_attribution hedged = Ok (Some tbl) /\
    Binary64.Asset tbl = ["A"; "B"; "C"] /\
    Binary64.np_sum (Binary64.Risk_Contribution_pct tbl)
      = 100.0001220703125%float /\
    exact_sum (Binary64.Risk_Contribution_pct tbl) == 100 + (1 # 8192) /\
    ~ sums_to_100 (Binary64.Risk_Contribution_pct tbl).
Proof.
  eexists _, _. split; [vm_compute; reflexivity|].
  split; [vm_compute; reflexivity|].
  split; [vm_compute; reflexivity|].
  split; [reflexivity|].
  split; [vm_compute; reflexivity|].
  split; [vm_compute; reflexivity|].
  intros [_ H]. vm_compute in H. apply H. reflexivity.
Qed.

(** ** Degenerate risk *)



Example prepared_flat :
  prepared ["A"] [Fin 1] 0 365 flat_prices =
  mkPortfolioAnalytics ["A"] [Fin 1] 0 365 (Some flat_prices) (Some flat_returns).
Proof.
  cbv [prepared init set_data set_returns tickers weights start_date end_date
       data returns calculate_returns flat_prices flat_returns dropna
       pct_change columns values ncols length repeat pct_rows pct map2 fdiv fsub
       fadd fneg filter forallb notna isnan negb andb].
  decide_R. cbv [filter forallb notna isnan negb andb].
  repeat f_equal; lra.
Qed.




(** ** What the page shows when there are no metrics *)

(** A return series without rows: the page shows one error message. *)
Lemma run_analysis_no_metrics
    (tickers : list string) (weights : list float64) (start_date end_date : Z)
    (d : DataFrame) :
  portfolio_returns (prepared tickers weights start_date end_date d)
    = Ok (Some []) ->
  run_analysis tickers weights start_date end_date (Some d) [] =
    (Ok tt, [st_error "Unable to calculate portfolio metrics."]).
Proof.
  intros Hp. unfold run_analysis. cbn [data set_data].
  fold (prepared tickers weights start_date end_date d).
  unfold prepared at 1. cbn [returns set_returns calculate_returns data set_data].
  fold (prepared tickers weights start_date end_date d).
  unfold sbind, lift, calculate_metrics. rewrite Hp. reflexivity.
Qed.

(** A weight vector of the wrong length: the [ValueError] of
    [portfolio_returns] ends the run before anything is shown. *)
Lemma run_analysis_length_mismatch
    (names : list string) (w : list float64) (start_date end_date : Z)
    (d : DataFrame) :
  ncols d <> length w ->
  run_analysis names w start_date end_date (Some d) [] =
    (Raise ValueError, []).
Proof.
  intros Hlen. unfold run_analysis. cbn [data set_data].
  cbn [returns set_returns calculate_returns data set_data init].
  unfold sbind, lift, calculate_metrics, portfolio_returns.
  cbn [returns set_returns weights init set_data].
  rewrite df_mul_array_mismatch by exact Hlen. reflexivity.
Qed.

(** ** Value at risk *)

Lemma insert_Fin (x : R) (l : list R) :
  insert (Fin x) (map Fin l) = map Fin (Rinsert x l).
Proof.
  induction l as [|y l IH]; simpl; [reflexivity|].
  destruct (Rleb x y); simpl; [reflexivity|now rewrite IH].
Qed.

Lemma sort_Fin (l : list R) : sort (map Fin l) = map Fin (Rsort l).
Proof.
  induction l as [|x l IH]; simpl; [reflexivity|].
  now rewrite IH, insert_Fin.
Qed.

Lemma Rinsert_perm (x : R) (l : list R) : Permutation (Rinsert x l) (x :: l).
Proof.
  induction l as [|y l IH]; simpl; [apply Permutation_refl|].
  destruct (Rleb x y); [apply Permutation_refl|].
  apply perm_trans with (y :: x :: l); [now apply perm_skip|apply perm_swap].
Qed.

Lemma Rsort_perm (l : list R) : Permutation (Rsort l) l.
Proof.
  induction l as [|x l IH]; simpl; [apply perm_nil|].
  apply perm_trans with (x :: Rsort l); [apply Rinsert_perm|].
  now apply perm_skip.
Qed.

Lemma Rinsert_sorted (x : R) (l : list R) :
  StronglySorted Rle l -> StronglySorted Rle (Rinsert x l).
Proof.
  induction 1 as [|y l Hs IH Hy]; simpl.
  - constructor; constructor.
  - unfold Rleb. destruct (Rle_dec x y) as [Hxy|Hxy].
    + constructor; [now constructor|].
      constructor; [exact Hxy|].
      apply Forall_impl with (P := Rle y); [intros; lra|exact Hy].
    + constructor; [exact IH|].
      apply Forall_forall. intros z Hz.
      apply (Permutation_in _ (Rinsert_perm x l)) in Hz as [<-|Hz]; [lra|].
      rewrite Forall_forall in Hy. now apply Hy.
Qed.

Lemma Rsort_sorted (l : list R) : StronglySorted Rle (Rsort l).
Proof.
  induction l as [|x l IH]; simpl; [constructor|now apply Rinsert_sorted].
Qed.

Lemma sorted_nth (s : list R) (i j : nat) :
  StronglySorted Rle s -> (i <= j < length s)%nat ->
  nth i s 0 <= nth j s 0.
Proof.
  intros Hs. revert i j. induction Hs as [|x s Hs IH Hx]; intros i j Hij;
    simpl in Hij; [lia|].
  destruct i as [|i], j as [|j]; simpl; try lia.
  - lra.
  - rewrite Forall_forall in Hx. apply Hx, nth_In. lia.
  - apply IH. lia.
Qed.

Lemma existsb_isnan_Fin (l : list R) : existsb isnan (map Fin l) = false.
Proof. induction l; simpl; auto. Qed.

Lemma percentile_index (n : nat) :
  (1 <= n)%nat -> (5 * (n - 1) / 100 < n)%nat.
Proof.
  intros Hn.
  assert (5 * (n - 1) / 100 <= n - 1)%nat; [|lia].
  apply Nat.Div0.div_le_upper_bound. lia.
Qed.

Lemma np_percentile_Fin (l : list R) :
  l <> [] -> np_percentile (map Fin l) 5 = Fin (Rpercentile l 5).
Proof.
  intros Hne. unfold np_percentile, Rpercentile.
  rewrite existsb_isnan_Fin, sort_Fin, length_map.
  assert (Hn : (1 <= length l)%nat) by (destruct l; [contradiction|simpl; lia]).
  pose proof (percentile_index (length l) Hn) as Hk.
  assert (Ls : length (Rsort l) = length l)
    by (apply Permutation_length, Rsort_perm).
  rewrite !nth_map_Fin by lia.
  reflexivity.
Qed.

Lemma Rpercentile_is_percentile (l : list R) (q : nat) :
  is_percentile l q (Rpercentile l q).
Proof.
  exists (Rsort l). split; [apply Rsort_perm|]. split; [apply Rsort_sorted|].
  reflexivity.
Qed.

(** The smallest value is not above the 5th percentile. *)
Lemma Rpercentile_ge_min (l : list R) :
  l <> [] ->
  exists x, In x l /\ x <= Rpercentile l 5.
Proof.
  intros Hne.
  assert (Hn : (1 <= length l)%nat) by (destruct l; [contradiction|simpl; lia]).
  pose proof (percentile_index (length l) Hn) as Hk.
  assert (Ls : length (Rsort l) = length l)
    by (apply Permutation_length, Rsort_perm).
  exists (nth 0 (Rsort l) 0). split.
  - apply (Permutation_in _ (Rsort_perm l)), nth_In. lia.
  - unfold Rpercentile.
    set (k := (5 * (length l - 1) / 100)%nat) in *.
    set (g := INR ((5 * (length l - 1)) mod 100) / 100).
    assert (0 <= g).
    { unfold g. apply Rmult_le_pos; [apply pos_INR|lra]. }
    pose proof (sorted_nth (Rsort l) 0 k (Rsort_sorted l)) as H0.
    pose proof (sorted_nth (Rsort l) k (Nat.min (k + 1) (length l - 1))
                  (Rsort_sorted l)) as H1.
    assert (nth 0 (Rsort l) 0 <= nth k (Rsort l) 0) by (apply H0; lia).
    assert (nth k (Rsort l) 0 <= nth (Nat.min (k + 1) (length l - 1)) (Rsort l) 0)
      by (apply H1; lia).
    nra.
Qed.

Lemma filter_fleb_Fin (v : R) (l : list R) :
  filter (fun x => fleb x (Fin v)) (map Fin l) =
  map Fin (filter (fun x => Rleb x v) l).
Proof.
  induction l as [|x l IH]; simpl; [reflexivity|].
  destruct (Rleb x v); simpl; now rewrite IH.
Qed.

Lemma cvar_95_cases (rets : Series) :
  (rets_below_var rets <> [] ->
   cvar_95 rets = series_mean (rets_below_var rets)) /\
  (rets_below_var rets = [] -> cvar_95 rets = var_95 rets).
Proof.
  unfold cvar_95. destruct (rets_below_var rets); split; intros H;
    try reflexivity; try contradiction; discriminate.
Qed.

(** C7: on a non-empty series the VaR (95%) of the bundle is
    [np.percentile] at 5 of the raw returns, and the CVaR (95%) is the
    mean of the returns that are [<=] the VaR when there are any, the VaR
    itself otherwise.  On finite returns the VaR is the linearly
    interpolated 5th percentile in the sense of [is_percentile], some
    return is [<=] it, and the CVaR is the mean of those returns. *)
Theorem var_cvar_spec (self : PortfolioAnalytics) (rets : Series) :
  portfolio_returns self = Ok (Some rets) ->
  rets <> [] ->
  exists d var cvar,
    calculate_metrics self = Ok d /\
    dict_get "VaR (95%)" d = Some (Scalar var) /\
    dict_get "CVaR (95%)" d = Some (Scalar cvar) /\
    var = np_percentile rets 5 /\
    (filter (fun x => fleb x var) rets <> [] ->
       cvar = series_mean (filter (fun x => fleb x var) rets)) /\
    (filter (fun x => fleb x var) rets = [] -> cvar = var) /\
    (all_finite rets = true ->
       exists v,
         var = Fin v /\
         is_percentile (map to_R rets) 5 v /\
         filter (fun x => Rleb x v) (map to_R rets) <> [] /\
         cvar = Fin (Rmean (filter (fun x => Rleb x v) (map to_R rets)))).
Proof.
  intros Hp Hne.
  eexists _, _, _.
  split; [apply (calculate_metrics_some self rets Hp Hne)|].
  do 2 (split; [reflexivity|]).
  split; [reflexivity|].
  destruct (cvar_95_cases rets) as [Hsome Hnone].
  split; [exact Hsome|]. split; [exact Hnone|].
  intros Hfin.
  pose proof (all_finite_map rets Hfin) as E.
  set (l := map to_R rets) in *. clearbody l. subst rets.
  assert (Hl : l <> []) by (intros E; apply Hne; now rewrite E).
  exists (Rpercentile l 5).
  assert (Ev : var_95 (map Fin l) = Fin (Rpercentile l 5))
    by (apply np_percentile_Fin, Hl).
  assert (Et : rets_below_var (map Fin l) =
               map Fin (filter (fun x => Rleb x (Rpercentile l 5)) l)).
  { unfold rets_below_var. rewrite Ev. apply filter_fleb_Fin. }
  assert (Hf : filter (fun x => Rleb x (Rpercentile l 5)) l <> []).
  { destruct (Rpercentile_ge_min l Hl) as (x & Hx & Hle).
    intros E. assert (Hin : In x (filter (fun x => Rleb x (Rpercentile l 5)) l)).
    { apply filter_In. split; [exact Hx|now apply Rleb_true]. }
    rewrite E in Hin. exact Hin. }
  split; [exact Ev|]. split; [apply Rpercentile_is_percentile|].
  split; [exact Hf|].
  rewrite Hsome, Et.
  - now apply series_mean_Fin.
  - rewrite Et. destruct (filter _ l); [contradiction|discriminate].
Qed.

Lemma var_cvar_spec_witness :
  exists d var cvar,
    calculate_metrics two_assets = Ok d /\
    dict_get "VaR (95%)" d = Some (Scalar var) /\
    dict_get "CVaR (95%)" d = Some (Scalar cvar) /\
    var = np_percentile [Fin 0.016; Fin (-0.006); Fin 0.010] 5 /\
    (filter (fun x => fleb x var) [Fin 0.016; Fin (-0.006); Fin 0.010] <> [] ->
       cvar = series_mean
                (filter (fun x => fleb x var)
                   [Fin 0.016; Fin (-0.006); Fin 0.010])) /\
    (filter (fun x => fleb x var) [Fin 0.016; Fin (-0.006); Fin 0.010] = [] ->
       cvar = var) /\
    (all_finite [Fin 0.016; Fin (-0.006); Fin 0.010] = true ->
       exists v,
         var = Fin v /\
         is_percentile (map to_R [Fin 0.016; Fin (-0.006); Fin 0.010]) 5 v /\
         filter (fun x => Rleb x v)
           (map to_R [Fin 0.016; Fin (-0.006); Fin 0.010]) <> [] /\
         cvar = Fin (Rmean (filter (fun x => Rleb x v)
                              (map to_R [Fin 0.016; Fin (-0.006); Fin 0.010])))).
Proof.
  apply (var_cvar_spec two_assets [Fin 0.016; Fin (-0.006); Fin 0.010]).
  - exact portfolio_returns_two_assets.
  - discriminate.
Defined.

(** The VaR and CVaR of the three-day example: the 5th percentile lies a
    tenth of the way from the smallest return to the next one. *)
Example var_95_two_assets :
  var_95 [Fin 0.016; Fin (-0.006); Fin 0.010] = Fin (-0.0044).
Proof.
  cbv [var_95 np_percentile existsb isnan orb sort insert fleb length
       Nat.mul Nat.add Nat.sub].
  decide_R. cbv [insert fleb]. decide_R. cbv [insert fleb]. decide_R.
  change ((10 / 100)%nat) with 0%nat. change ((10 mod 100)%nat) with 10%nat.
  cbv [Nat.min Nat.add nth fsub fneg fadd fmul INR]. f_equal. lra.
Qed.

Example cvar_95_two_assets :
  cvar_95 [Fin 0.016; Fin (-0.006); Fin 0.010] = Fin (-0.006).
Proof.
  unfold cvar_95, rets_below_var. rewrite var_95_two_assets.
  cbv [filter fleb]. decide_R.
  cbv [length Nat.ltb Nat.leb series_mean valid filter notna isnan negb
       np_sum fadd of_nat INR length fdiv].
  decide_R. f_equal. lra.
Qed.

(** * Further properties of the engine *)

(** ** Total return and the curves *)

(** X1: on a non-empty series of finite returns the total return is the
    last value of the cumulative return curve minus 1. *)
Theorem total_return_last_cumulative (rets : Series) :
  rets <> [] ->
  all_finite rets = true ->
  total_return rets = fsub (last (cumulative rets) NaN) (Fin 1).
Proof.
  intros Hne Hfin. rewrite (all_finite_map rets Hfin) in *.
  apply total_return_cumulative. intros E. apply Hne. now rewrite E.
Qed.

Lemma total_return_last_cumulative_witness :
  total_return [Fin 0.10; Fin (-0.10)] =
  fsub (last (cumulative [Fin 0.10; Fin (-0.10)]) NaN) (Fin 1).
Proof.
  apply (total_return_last_cumulative [Fin 0.10; Fin (-0.10)]).
  - discriminate.
  - reflexivity.
Defined.

Lemma above_minus_one_map (rets : Series) :
  Forall above_minus_one rets ->
  exists l, rets = map Fin l /\ forall x, In x l -> -1 < x.
Proof.
  intros H. destruct (Forall_lifted _ _ H) as [E P].
  exists (map to_R rets). split; assumption.
Qed.

(** X2: on a non-empty series of finite returns above -1 the three curves
    have one value per return; the cumulative curve is positive, the
    running maximum is never below it and never decreases, and the
    drawdown curve starts at 0. *)
Theorem curves_invariants (rets : Series) :
  rets <> [] ->
  Forall above_minus_one rets ->
  length (cumulative rets) = length rets /\
  length (running_max rets) = length rets /\
  length (drawdown rets) = length rets /\
  (forall i, (i < length rets)%nat ->
     fltb (Fin 0) (nth i (cumulative rets) NaN) = true /\
     fleb (nth i (cumulative rets) NaN) (nth i (running_max rets) NaN) = true) /\
  nondecreasing (running_max rets) /\
  nth 0 (drawdown rets) NaN = Fin 0.
Proof.
  intros Hne Habove.
  destruct (above_minus_one_map rets Habove) as (l & -> & Hl).
  assert (Hl' : l <> []) by (intros E; apply Hne; now rewrite E).
  destruct (curves_Fin l Hl' Hl) as (C & M & EC & EM & ED & LC & LM & HCM & HM).
  rewrite EC, EM, ED, !length_map, Rdrawdown_length by lia.
  repeat split; try assumption.
  - rewrite nth_map_Fin by lia. simpl. apply Rltb_true. now apply HCM.
  - rewrite !nth_map_Fin by lia. simpl. apply Rleb_true. now apply HCM.
  - intros i j Hij. rewrite length_map in Hij.
    rewrite !nth_map_Fin by lia. simpl. apply Rleb_true. apply HM. lia.
  - assert (H0 : (0 < length l)%nat) by (destruct l; [contradiction|simpl; lia]).
    rewrite nth_map_Fin by (rewrite Rdrawdown_length; lia).
    rewrite Rdrawdown_nth by lia. f_equal.
    (* the first running maximum is the first cumulative value *)
    assert (E0 : nth 0 M 0 = nth 0 C 0).
    { destruct (HCM 0%nat H0) as [_ Hle].
      assert (Hge : nth 0 M 0 <= nth 0 C 0); [|lra].
      clear - EM EC Hl' H0 LC.
      unfold running_max in EM. rewrite EC in EM.
      destruct C as [|c0 C]; [simpl in LC; lia|].
      rewrite expanding_max_Fin in EM.
      apply (f_equal (fun s => nth 0 s NaN)) in EM.
      simpl in EM. rewrite Rmax2_idem in EM.
      destruct M as [|m0 M]; simpl in EM; [discriminate|].
      injection EM as <-. simpl. lra. }
    rewrite E0. destruct (HCM 0%nat H0) as [Hpos _].
    unfold Rdiv. rewrite Rminus_diag. lra.
Qed.

Lemma curves_invariants_witness :
  length (cumulative [Fin 0.10; Fin (-0.10)]) = 2%nat /\
  length (running_max [Fin 0.10; Fin (-0.10)]) = 2%nat /\
  length (drawdown [Fin 0.10; Fin (-0.10)]) = 2%nat /\
  (forall i, (i < 2)%nat ->
     fltb (Fin 0) (nth i (cumulative [Fin 0.10; Fin (-0.10)]) NaN) = true /\
     fleb (nth i (cumulative [Fin 0.10; Fin (-0.10)]) NaN)
          (nth i (running_max [Fin 0.10; Fin (-0.10)]) NaN) = true) /\
  nondecreasing (running_max [Fin 0.10; Fin (-0.10)]) /\
  nth 0 (drawdown [Fin 0.10; Fin (-0.10)]) NaN = Fin 0.
Proof.
  apply (curves_invariants [Fin 0.10; Fin (-0.10)]).
  - discriminate.
  - repeat constructor; simpl; lra.
Defined.

(** ** The returns at or below the VaR *)

(** The returns at or below the VaR of a finite series, and their mean. *)
Lemma cvar_95_Fin (l : list R) :
  l <> [] ->
  filter (fun x => Rleb x (Rpercentile l 5)) l <> [] /\
  cvar_95 (map Fin l) =
    Fin (Rmean (filter (fun x => Rleb x (Rpercentile l 5)) l)).
Proof.
  intros Hl.
  assert (Ev : var_95 (map Fin l) = Fin (Rpercentile l 5))
    by (apply np_percentile_Fin, Hl).
  assert (Et : rets_below_var (map Fin l) =
               map Fin (filter (fun x => Rleb x (Rpercentile l 5)) l)).
  { unfold rets_below_var. rewrite Ev. apply filter_fleb_Fin. }
  assert (Hf : filter (fun x => Rleb x (Rpercentile l 5)) l <> []).
  { destruct (Rpercentile_ge_min l Hl) as (x & Hx & Hle).
    intros E. assert (Hin : In x (filter (fun x => Rleb x (Rpercentile l 5)) l)).
    { apply filter_In. split; [exact Hx|now apply Rleb_true]. }
    rewrite E in Hin. exact Hin. }
  split; [exact Hf|].
  destruct (cvar_95_cases (map Fin l)) as [Hsome _].
  rewrite Hsome, Et.
  - now apply series_mean_Fin.
  - rewrite Et. destruct (filter _ l); [contradiction|discriminate].
Qed.

(** ** No NaN and no infinity among the metrics *)

Lemma total_return_finite (l : list R) :
  isfinite (total_return (map Fin l)) = true.
Proof.
  unfold total_return, series_prod.
  rewrite map_map, <- (map_map (Rplus 1) Fin), valid_Fin, np_prod_Fin.
  reflexivity.
Qed.

Lemma sharpe_ratio_finite (l : list R) :
  (2 <= length l)%nat -> isfinite (sharpe_ratio (map Fin l)) = true.
Proof.
  intros Hn. unfold sharpe_ratio.
  assert (Hl : l <> []) by (intros ->; simpl in Hn; lia).
  rewrite annualized_vol_Fin, annualized_return_Fin by assumption.
  cbn [fltb]. unfold Rltb.
  destruct (Rlt_dec 0 (sqrt (Rvar l) * sqrt 252)); [|reflexivity].
  rewrite fdiv_Fin by lra. reflexivity.
Qed.

Lemma max_drawdown_finite (l : list R) :
  l <> [] -> (forall x, In x l -> -1 < x) ->
  isfinite (max_drawdown (map Fin l)) = true.
Proof.
  intros Hne Hl.
  destruct (curves_Fin l Hne Hl) as (C & M & _ & _ & ED & LC & LM & _ & _).
  unfold max_drawdown, series_min. rewrite ED, valid_Fin.
  assert (LD : length (Rdrawdown C M) = length l)
    by (rewrite Rdrawdown_length; lia).
  destruct (Rdrawdown C M) as [|d0 D].
  - destruct l; [contradiction|discriminate].
  - cbn [map]. now rewrite fold_left_fmin_Fin.
Qed.

(** X4: with at least two returns, all finite and above -1, none of the
    seven scalar metrics of the bundle is NaN or infinite. *)
Theorem metrics_all_finite (self : PortfolioAnalytics) (rets : Series) :
  portfolio_returns self = Ok (Some rets) ->
  (2 <= length rets)%nat ->
  Forall above_minus_one rets ->
  exists d,
    calculate_metrics self = Ok d /\
    forall k x, dict_get k d = Some (Scalar x) -> isfinite x = true.
Proof.
  intros Hp Hn Habove.
  assert (Hne : rets <> []) by (intros ->; simpl in Hn; lia).
  eexists. split; [apply (calculate_metrics_some self rets Hp Hne)|].
  destruct (above_minus_one_map rets Habove) as (l & -> & Hl).
  rewrite length_map in Hn.
  assert (Hl' : l <> []) by (intros ->; simpl in Hn; lia).
  intros k x Hk. cbn [dict_get] in Hk.
  repeat match type of Hk with
  | context [String.eqb k ?s] => destruct (String.eqb k s)
  end; try discriminate; injection Hk as <-.
  - apply total_return_finite.
  - now rewrite annualized_return_Fin.
  - now rewrite annualized_vol_Fin.
  - now apply sharpe_ratio_finite.
  - unfold var_95. now rewrite np_percentile_Fin.
  - destruct (cvar_95_Fin l Hl') as [_ ->]. reflexivity.
  - now apply max_drawdown_finite.
Qed.

Lemma metrics_all_finite_witness :
  exists d,
    calculate_metrics two_assets = Ok d /\
    forall k x, dict_get k d = Some (Scalar x) -> isfinite x = true.
Proof.
  apply (metrics_all_finite two_assets [Fin 0.016; Fin (-0.006); Fin 0.010]).
  - exact portfolio_returns_two_assets.
  - simpl. lia.
  - repeat constructor; simpl; lra.
Defined.

(** ** Risk attribution outside its guard *)

Lemma marginal_contrib_short (r : DataFrame) (w : list float64) :
  (nrows r <= 1)%nat -> ncols r = length w -> w <> [] ->
  exists m,
    marginal_contrib r w = Ok m /\
    length m = length w /\
    Forall (fun x => x = NaN) m.
Proof.
  intros Hn Hk Hw. unfold marginal_contrib, np_dot_mv.
  rewrite cov_matrix_ncols, (proj2 (Nat.eqb_eq _ _) Hk), cov_matrix_values.
  eexists. split; [reflexivity|]. split.
  - rewrite !length_map, length_seq. exact Hk.
  - apply Forall_forall. intros x Hx.
    apply in_map_iff in Hx as (row & <- & Hrow).
    apply in_map_iff in Hrow as (i & <- & Hi).
    apply dot_nan_l; [|exact Hw|].
    + rewrite Hk. destruct w; [contradiction|simpl; discriminate].
    + apply Forall_forall. intros y Hy.
      apply in_map_iff in Hy as (j & <- & Hj).
      rewrite cov_pair_short; [reflexivity|].
      now rewrite column_length.
Qed.

Lemma fdiv_nan_r (x : float64) : fdiv x NaN = NaN.
Proof. destruct x; reflexivity. Qed.

Lemma fmul_nan_r (x : float64) : fmul x NaN = NaN.
Proof. destruct x; reflexivity. Qed.

(** X5: with at most one row of returns (a price table of two rows) and
    at least one column every covariance is NaN, the portfolio variance is
    NaN, the guard [portfolio_variance <= 0] does not hold, and
    [risk_attribution] returns a table in which every risk contribution
    and every percentage is NaN. *)
Theorem risk_attribution_single_row (self : PortfolioAnalytics) (r : DataFrame) :
  returns self = Some r ->
  (nrows r <= 1)%nat ->
  (1 <= ncols r)%nat ->
  ncols r = length (weights self) ->
  length (tickers self) = length (weights self) ->
  portfolio_variance r (weights self) = Ok NaN /\
  exists tbl,
    risk_attribution self = Ok (Some tbl) /\
    Asset tbl = tickers self /\
    Weight tbl = weights self /\
    length (Risk_Contribution_pct tbl) = length (tickers self) /\
    Forall (fun x => x = NaN) (Risk_Contribution tbl) /\
    Forall (fun x => x = NaN) (Risk_Contribution_pct tbl).
Proof.
  intros Hr Hn Hk1 Hk Htick.
  assert (Hw : weights self <> []).
  { intros E. rewrite E in Hk. simpl in Hk. lia. }
  destruct (marginal_contrib_short r (weights self) Hn Hk Hw) as (m & Em & Lm & Nm).
  assert (Hm : m <> []) by (intros ->; destruct (weights self); [contradiction|discriminate]).
  assert (Ev : portfolio_variance r (weights self) = Ok NaN).
  { unfold portfolio_variance. fold (marginal_contrib r (weights self)).
    rewrite Em. cbn [bind]. unfold np_dot_vv.
    rewrite Lm, Nat.eqb_refl. f_equal. now apply dot_nan_r. }
  split; [exact Ev|].
  unfold risk_attribution. rewrite Hr, Ev. cbn [bind fleb]. rewrite Em. cbn [bind].
  set (rc := risk_contrib (weights self) m NaN).
  assert (Lrc : length rc = length (weights self)).
  { subst rc. unfold risk_contrib. rewrite length_map, map2_length. lia. }
  assert (Nrc : Forall (fun x => x = NaN) rc).
  { subst rc. unfold risk_contrib. apply Forall_forall. intros x Hx.
    apply in_map_iff in Hx as (y & <- & _). apply fdiv_nan_r. }
  assert (Npct : Forall (fun x => x = NaN) (risk_contrib_pct rc)).
  { unfold risk_contrib_pct. apply Forall_forall. intros x Hx.
    apply in_map_iff in Hx as (y & <- & Hy).
    rewrite Forall_forall in Nrc. now rewrite (Nrc y Hy). }
  unfold new_risk_table.
  assert (Lp : length (risk_contrib_pct rc) = length rc)
    by (unfold risk_contrib_pct; apply length_map).
  rewrite Lp, Htick, Lrc, !Nat.eqb_refl. cbn [andb bind].
  eexists. split; [reflexivity|]. cbn [Asset Weight Risk_Contribution
                                       Risk_Contribution_pct].
  repeat split; try assumption. congruence.
Qed.

(** A price table of two rows: one row of returns. *)
Lemma risk_attribution_single_row_witness :
  portfolio_variance (mkDataFrame ["AAPL"] [[Fin (1/100)]]) [Fin 1] = Ok NaN /\
  exists tbl,
    risk_attribution one_row = Ok (Some tbl) /\
    Asset tbl = ["AAPL"] /\
    Weight tbl = [Fin 1] /\
    length (Risk_Contribution_pct tbl) = 1%nat /\
    Forall (fun x => x = NaN) (Risk_Contribution tbl) /\
    Forall (fun x => x = NaN) (Risk_Contribution_pct tbl).
Proof.
  apply (risk_attribution_single_row one_row
           (mkDataFrame ["AAPL"] [[Fin (1/100)]])).
  - reflexivity.
  - apply le_n.
  - apply le_n.
  - reflexivity.
  - reflexivity.
Defined.

(** X6: when the weights match the columns of the return table but the
    ticker list has another length, [risk_attribution] never returns a
    table: it returns [None] when the portfolio variance is [<= 0], and
    raises [ValueError] (from the construction of the table) otherwise. *)
Theorem risk_attribution_ticker_mismatch
    (self : PortfolioAnalytics) (r : DataFrame) :
  returns self = Some r ->
  ncols r = length (weights self) ->
  length (tickers self) <> length (weights self) ->
  exists variance,
    portfolio_variance r (weights self) = Ok variance /\
    risk_attribution self =
      if fleb variance (Fin 0) then Ok None else Raise ValueError.
Proof.
  intros Hr Hk Htick.
  assert (Em : exists m, marginal_contrib r (weights self) = Ok m /\
                         length m = length (weights self)).
  { unfold marginal_contrib, np_dot_mv.
    rewrite cov_matrix_ncols, (proj2 (Nat.eqb_eq _ _) Hk), cov_matrix_values.
    eexists. split; [reflexivity|].
    rewrite !length_map, length_seq. exact Hk. }
  destruct Em as (m & Em & Lm).
  exists (dot (weights self) m).
  assert (Ev : portfolio_variance r (weights self) = Ok (dot (weights self) m)).
  { unfold portfolio_variance. fold (marginal_contrib r (weights self)).
    rewrite Em. cbn [bind]. unfold np_dot_vv. now rewrite Lm, Nat.eqb_refl. }
  split; [exact Ev|].
  unfold risk_attribution. rewrite Hr, Ev. cbn [bind].
  destruct (fleb (dot (weights self) m) (Fin 0)); [reflexivity|].
  rewrite Em. cbn [bind]. unfold new_risk_table.
  rewrite (proj2 (Nat.eqb_neq _ _) Htick). reflexivity.
Qed.

Lemma risk_attribution_ticker_mismatch_witness :
  exists variance,
    portfolio_variance swing_returns [Fin 1] = Ok variance /\
    risk_attribution
      (mkPortfolioAnalytics ["A"; "B"] [Fin 1] 0 365 None (Some swing_returns)) =
      if fleb variance (Fin 0) then Ok None else Raise ValueError.
Proof.
  apply (risk_attribution_ticker_mismatch
           (mkPortfolioAnalytics ["A"; "B"] [Fin 1] 0 365 None (Some swing_returns))
           swing_returns).
  - reflexivity.
  - reflexivity.
  - cbv. discriminate.
Defined.

(** ** The analysis run as a whole *)

Lemma prepared_returns (tk : list string) (w : list float64)
    (start_date end_date : Z) (d : DataFrame) :
  returns (prepared tk w start_date end_date d) = Some (dropna (pct_change d)).
Proof. reflexivity. Qed.

Lemma prepared_weights (tk : list string) (w : list float64)
    (start_date end_date : Z) (d : DataFrame) :
  weights (prepared tk w start_date end_date d) = w.
Proof. reflexivity. Qed.

(** X8: a fetched price table with fewer than two rows (and one weight
    per column) has no returns; the analysis run shows the one message
    "Unable to calculate portfolio metrics." and nothing else. *)
Theorem run_analysis_insufficient_data
    (tk : list string) (w : list float64) (start_date end_date : Z)
    (d : DataFrame) :
  rectangular d ->
  (1 <= ncols d)%nat ->
  (nrows d < 2)%nat ->
  ncols d = length w ->
  calculate_returns (prepared tk w start_date end_date d)
    = Some (mkDataFrame (columns d) []) /\
  run_analysis tk w start_date end_date (Some d) [] =
    (Ok tt, [st_error "Unable to calculate portfolio metrics."]).
Proof.
  intros Hrect Hk Hn Hlen.
  assert (Ev : dropna (pct_change d) = mkDataFrame (columns d) []).
  { unfold dropna, pct_change, rectangular, nrows in *. cbn [columns values].
    f_equal. destruct (values d) as [|r0 [|r1 rows]]; [reflexivity| |simpl in Hn; lia].
    inversion Hrect as [|? ? Hr0 _]; subst.
    cbn [pct_rows filter]. now rewrite (pct_first_row_dropped (ncols d) r0 Hr0 Hk). }
  split.
  - unfold calculate_returns. cbn [data prepared set_returns set_data]. now rewrite Ev.
  - apply run_analysis_no_metrics.
    unfold portfolio_returns. rewrite prepared_returns, prepared_weights, Ev.
    unfold df_mul_array, ncols in *. cbn [columns].
    rewrite (proj2 (Nat.eqb_eq _ _) Hlen). reflexivity.
Qed.

Lemma run_analysis_insufficient_data_witness :
  calculate_returns
    (prepared ["A"] [Fin 1] 0 365 (mkDataFrame ["A"] [[Fin 100]]))
    = Some (mkDataFrame ["A"] []) /\
  run_analysis ["A"] [Fin 1] 0 365 (Some (mkDataFrame ["A"] [[Fin 100]])) [] =
    (Ok tt, [st_error "Unable to calculate portfolio metrics."]).
Proof.
  apply (run_analysis_insufficient_data ["A"] [Fin 1] 0 365
           (mkDataFrame ["A"] [[Fin 100]])).
  - repeat constructor.
  - apply le_n.
  - apply le_n.
  - reflexivity.
Defined.

(** X9: a weight vector whose length differs from the number of columns
    of the fetched table: the [ValueError] of [portfolio_returns] is not
    caught by the analysis run, which ends with it before anything is
    shown. *)
Theorem run_analysis_weight_mismatch
    (names : list string) (w : list float64) (start_date end_date : Z)
    (d : DataFrame) :
  ncols d <> length w ->
  run_analysis names w start_date end_date (Some d) [] =
    (Raise ValueError, []).
Proof. exact (run_analysis_length_mismatch names w start_date end_date d). Qed.

Lemma run_analysis_weight_mismatch_witness :
  run_analysis ["A"; "B"] [Fin 1] 0 365
    (Some (mkDataFrame ["A"; "B"] [[Fin 1; Fin 2]; [Fin 2; Fin 3]])) [] =
  (Raise ValueError, []).
Proof.
  apply (run_analysis_weight_mismatch ["A"; "B"] [Fin 1] 0 365
           (mkDataFrame ["A"; "B"] [[Fin 1; Fin 2]; [Fin 2; Fin 3]])).
  cbv. discriminate.
Defined.

(** With one weight per column and one ticker per weight
    [risk_attribution] does not raise. *)
Lemma risk_attribution_total (self : PortfolioAnalytics) (r : DataFrame) :
  returns self = Some r ->
  ncols r = length (weights self) ->
  length (tickers self) = length (weights self) ->
  exists o, risk_attribution self = Ok o.
Proof.
  intros Hr Hk Htick.
  assert (Em : exists m, marginal_contrib r (weights self) = Ok m /\
                         length m = length (weights self)).
  { unfold marginal_contrib, np_dot_mv.
    rewrite cov_matrix_ncols, (proj2 (Nat.eqb_eq _ _) Hk), cov_matrix_values.
    eexists. split; [reflexivity|].
    rewrite !length_map, length_seq. exact Hk. }
  destruct Em as (m & Em & Lm).
  assert (Ev : portfolio_variance r (weights self) = Ok (dot (weights self) m)).
  { unfold portfolio_variance. fold (marginal_contrib r (weights self)).
    rewrite Em. cbn [bind]. unfold np_dot_vv. now rewrite Lm, Nat.eqb_refl. }
  unfold risk_attribution. rewrite Hr, Ev. cbn [bind].
  destruct (fleb (dot (weights self) m) (Fin 0)); [eexists; reflexivity|].
  rewrite Em. cbn [bind]. unfold new_risk_table, risk_contrib_pct, risk_contrib.
  rewrite !length_map, map2_length, Lm, Nat.min_id, Htick, !Nat.eqb_refl.
  cbn [andb bind]. eexists. reflexivity.
Qed.

Lemma run_analysis_page
    (tk : list string) (w : list float64) (start_date end_date : Z)
    (d r : DataFrame) :
  returns (prepared tk w start_date end_date d) = Some r ->
  (1 <= nrows r)%nat ->
  ncols r = length w ->
  length tk = length w ->
  exists rets o,
    portfolio_returns (prepared tk w start_date end_date d) = Ok (Some rets) /\
    length rets = nrows r /\
    risk_attribution (prepared tk w start_date end_date d) = Ok o /\
    run_analysis tk w start_date end_date (Some d) [] =
      (Ok tt,
       metrics_page tk w rets (nrows r)
         ++ st_subheader "Risk Attribution Analysis"
         :: match o with
            | Some tbl => [bar_chart "Risk Contribution by Asset" tbl;
                           attribution_table tbl]
            | None => []
            end).
Proof.
  intros Hr Hn Hk Htick.
  assert (Hp : portfolio_returns (prepared tk w start_date end_date d)
               = Ok (Some (df_sum_axis1
                             (mkDataFrame (columns r)
                                (map (fun row => map2 fmul row w) (values r)))))).
  { unfold portfolio_returns. rewrite Hr, prepared_weights. unfold df_mul_array.
    now rewrite (proj2 (Nat.eqb_eq _ _) Hk). }
  set (rets := df_sum_axis1 _) in Hp.
  assert (Lr : length rets = nrows r).
  { subst rets. unfold df_sum_axis1, nrows. cbn [values]. now rewrite !length_map. }
  assert (Hne : rets <> []) by (intros E; rewrite E in Lr; simpl in Lr; lia).
  destruct (risk_attribution_total (prepared tk w start_date end_date d) r Hr)
    as (o & Ho); [now rewrite prepared_weights | exact Htick |].
  pose proof (calculate_metrics_some _ rets Hp Hne) as Hm.
  exists rets, o. repeat split; try assumption.
  unfold run_analysis. cbn [data set_data].
  fold (prepared tk w start_date end_date d).
  rewrite Hr.
  unfold sbind at 1. unfold lift at 1. rewrite Hm.
  cbn [dict_is_empty].
  unfold show_attribution. rewrite Ho.
  destruct o; reflexivity.
Qed.

(** X10: when the fetched table yields at least one row of returns, with
    one weight per column and one ticker per weight, the analysis run ends
    without exception; the page is the whole metrics page for the
    portfolio return series (one value per return row), then the
    attribution heading, then the chart and table of [risk_attribution]
    when it returns a table. *)
Theorem run_analysis_completes
    (tk : list string) (w : list float64) (start_date end_date : Z)
    (d r : DataFrame) :
  returns (prepared tk w start_date end_date d) = Some r ->
  (1 <= nrows r)%nat ->
  ncols r = length w ->
  length tk = length w ->
  exists rets o,
    portfolio_returns (prepared tk w start_date end_date d) = Ok (Some rets) /\
    length rets = nrows r /\
    risk_attribution (prepared tk w start_date end_date d) = Ok o /\
    run_analysis tk w start_date end_date (Some d) [] =
      (Ok tt,
       metrics_page tk w rets (nrows r)
         ++ st_subheader "Risk Attribution Analysis"
         :: match o with
            | Some tbl => [bar_chart "Risk Contribution by Asset" tbl;
                           attribution_table tbl]
            | None => []
            end).
Proof. exact (run_analysis_page tk w start_date end_date d r). Qed.

Lemma run_analysis_completes_witness :
  exists rets o,
    portfolio_returns (prepared ["A"] [Fin 1] 0 365 flat_prices)
      = Ok (Some rets) /\
    length rets = nrows flat_returns /\
    risk_attribution (prepared ["A"] [Fin 1] 0 365 flat_prices) = Ok o /\
    run_analysis ["A"] [Fin 1] 0 365 (Some flat_prices) [] =
      (Ok tt,
       metrics_page ["A"] [Fin 1] rets (nrows flat_returns)
         ++ st_subheader "Risk Attribution Analysis"
         :: match o with
            | Some tbl => [bar_chart "Risk Contribution by Asset" tbl;
                           attribution_table tbl]
            | None => []
            end).
Proof.
  apply (run_analysis_completes ["A"] [Fin 1] 0 365 flat_prices flat_returns).
  - rewrite prepared_flat. reflexivity.
  - cbv. lia.
  - reflexivity.
  - reflexivity.
Defined.

(** ** The error messages of the analysis run *)

Lemma quiet_ret {A : Type} (a : A) : quiet (ret a).
Proof. intros page. exists []. split; [simpl; now rewrite app_nil_r|reflexivity]. Qed.

Lemma quiet_lift {A : Type} (r : result A) : quiet (lift r).
Proof. intros page. exists []. split; [simpl; now rewrite app_nil_r|reflexivity]. Qed.

Lemma quiet_emit (e : element) : is_error e = false -> quiet (emit e).
Proof.
  intros He page. exists [e]. split; [reflexivity|]. simpl. now rewrite He.
Qed.

Lemma quiet_sbind {A B : Type} (c : script A) (k : A -> script B) :
  quiet c -> (forall a, quiet (k a)) -> quiet (sbind c k).
Proof.
  intros Hc Hk page. unfold sbind.
  destruct (Hc page) as (m1 & E1 & Q1).
  destruct (c page) as [[a|e] page1]; simpl in E1; subst page1.
  - destruct (Hk a (page ++ m1)) as (m2 & E2 & Q2).
    exists (m1 ++ m2). rewrite E2, app_assoc. split; [reflexivity|].
    now rewrite existsb_app, Q1, Q2.
  - exists m1. split; [reflexivity|exact Q1].
Qed.

Ltac quiet_script :=
  repeat first
    [ apply quiet_sbind; [|intros ?]
    | apply quiet_emit; reflexivity
    | apply quiet_lift
    | apply quiet_ret ].

Lemma quiet_show_composition (tk : list string) (w : list float64) :
  quiet (show_composition tk w).
Proof. unfold show_composition. quiet_script. Qed.

Lemma quiet_show_key_metrics (metrics : dict) (days : nat) :
  quiet (show_key_metrics metrics days).
Proof. unfold show_key_metrics, show_metric. quiet_script. Qed.

Lemma quiet_show_charts (metrics : dict) : quiet (show_charts metrics).
Proof. unfold show_charts. quiet_script. Qed.

Lemma quiet_show_attribution (portfolio : PortfolioAnalytics) :
  quiet (show_attribution portfolio).
Proof.
  unfold show_attribution. quiet_script.
  match goal with |- quiet (match ?o with _ => _ end) => destruct o end;
    quiet_script.
Qed.

Lemma quiet_no_error {A : Type} (c : script A) (msg : string) :
  quiet c -> ~ In (st_error msg) (snd (c [])).
Proof.
  intros Hc Hin. destruct (Hc []) as (more & E & Q).
  rewrite E in Hin. simpl in Hin.
  assert (existsb is_error more = true).
  { apply existsb_exists. exists (st_error msg). split; [exact Hin|reflexivity]. }
  congruence.
Qed.

(** X11: whatever the inputs, an error message on the page of the
    analysis run is "Unable to fetch data..." or "Unable to calculate
    portfolio metrics."; the message "Unable to calculate returns." is
    never shown, because [calculate_returns] returns a table whenever
    there is data. *)
Theorem run_analysis_error_messages
    (tk : list string) (w : list float64) (start_date end_date : Z)
    (fetched : option DataFrame) (msg : string) :
  In (st_error msg) (snd (run_analysis tk w start_date end_date fetched [])) ->
  msg = "Unable to fetch data. Please check your ticker symbols and try again."
  \/ msg = "Unable to calculate portfolio metrics.".
Proof.
  unfold run_analysis. cbn [data set_data].
  destruct fetched as [d|].
  - cbn [returns set_returns calculate_returns data set_data init].
    unfold sbind at 1. unfold lift at 1.
    destruct (calculate_metrics _) as [metrics|e]; [|intros []].
    destruct (dict_is_empty metrics).
    + intros [E|[]]. injection E as <-. now right.
    + intros Hin. exfalso. revert Hin. apply quiet_no_error.
      apply quiet_sbind; [apply quiet_show_composition|intros _].
      apply quiet_sbind; [apply quiet_show_key_metrics|intros _].
      apply quiet_sbind; [apply quiet_show_charts|intros _].
      apply quiet_show_attribution.
  - intros [E|[]]. injection E as <-. now left.
Qed.

Lemma run_analysis_error_messages_witness :
  "Unable to fetch data. Please check your ticker symbols and try again."
  = "Unable to fetch data. Please check your ticker symbols and try again."
  \/ "Unable to fetch data. Please check your ticker symbols and try again."
     = "Unable to calculate portfolio metrics.".
Proof.
  apply (run_analysis_error_messages ["A"] [Fin 1] 0 365 None
           "Unable to fetch data. Please check your ticker symbols and try again.").
  left. reflexivity.
Defined.

(** * Properties of the sidebar *)

(** ** Characters *)

Ltac all_chars c :=
  destruct c as [[] [] [] [] [] [] [] []]; reflexivity.

Lemma isspace_upper (c : ascii) : isspace (upper_char c) = isspace c.
Proof. all_chars c. Qed.

Lemma upper_char_idem (c : ascii) : upper_char (upper_char c) = upper_char c.
Proof. all_chars c. Qed.

Lemma not_comma_upper (c : ascii) : not_comma (upper_char c) = not_comma c.
Proof. all_chars c. Qed.

Lemma space_not_comma (c : ascii) : isspace c = true -> not_comma c = true.
Proof. destruct c as [[] [] [] [] [] [] [] []]; intros H; try reflexivity; discriminate. Qed.

(** ** [strip] and [upper] *)

Lemma str_upper_idem (s : string) : str_upper (str_upper s) = str_upper s.
Proof. induction s as [|c s IH]; simpl; [reflexivity|]. now rewrite upper_char_idem, IH. Qed.

Lemma str_upper_nonempty (s : string) :
  s <> EmptyString -> str_upper s <> EmptyString.
Proof. destruct s; [contradiction|discriminate]. Qed.

Lemma lstrip_upper (s : string) : lstrip (str_upper s) = str_upper (lstrip s).
Proof.
  induction s as [|c s IH]; simpl; [reflexivity|].
  rewrite isspace_upper. destruct (isspace c); [exact IH|reflexivity].
Qed.

Lemma rstrip_upper (s : string) : rstrip (str_upper s) = str_upper (rstrip s).
Proof.
  induction s as [|c s IH]; simpl; [reflexivity|].
  rewrite IH, isspace_upper.
  destruct (rstrip s); simpl; [destruct (isspace c)|]; reflexivity.
Qed.

Lemma strip_upper (s : string) : strip (str_upper s) = str_upper (strip s).
Proof. unfold strip. now rewrite lstrip_upper, rstrip_upper. Qed.

Lemma lstrip_starts_clean (s : string) : starts_clean (lstrip s).
Proof.
  induction s as [|c s IH]; simpl; [exact I|].
  destruct (isspace c) eqn:E; [exact IH|exact E].
Qed.

Lemma starts_clean_lstrip (s : string) : starts_clean s -> lstrip s = s.
Proof. destruct s as [|c s]; simpl; [reflexivity|]. now intros ->. Qed.

Lemma rstrip_starts_clean (s : string) : starts_clean s -> starts_clean (rstrip s).
Proof.
  destruct s as [|c s]; simpl; [auto|]. intros E.
  destruct (rstrip s); simpl; [rewrite E|]; exact E.
Qed.

Lemma rstrip_idem (s : string) : rstrip (rstrip s) = rstrip s.
Proof.
  induction s as [|c s IH]; simpl; [reflexivity|].
  destruct (rstrip s) as [|d r] eqn:E.
  - destruct (isspace c) eqn:Ec; simpl; [reflexivity|now rewrite Ec].
  - change (rstrip (String c (String d r))) with
      (match rstrip (String d r) with
       | EmptyString => if isspace c then EmptyString else String c EmptyString
       | t' => String c t'
       end).
    now rewrite IH.
Qed.

Lemma strip_idem (s : string) : strip (strip s) = strip s.
Proof.
  unfold strip.
  rewrite (starts_clean_lstrip (rstrip (lstrip s)))
    by apply rstrip_starts_clean, lstrip_starts_clean.
  apply rstrip_idem.
Qed.

Lemma lstrip_forallb (P : ascii -> bool) (s : string) :
  str_forallb P s = true -> str_forallb P (lstrip s) = true.
Proof.
  induction s as [|c s IH]; simpl; [auto|]. intros H.
  apply andb_prop in H as [Hc Hs].
  destruct (isspace c); [auto|]. simpl. now rewrite Hc, Hs.
Qed.

Lemma rstrip_forallb (P : ascii -> bool) (s : string) :
  str_forallb P s = true -> str_forallb P (rstrip s) = true.
Proof.
  induction s as [|c s IH]; simpl; [auto|]. intros H.
  apply andb_prop in H as [Hc Hs]. specialize (IH Hs).
  destruct (rstrip s); [destruct (isspace c)|]; simpl in *; rewrite ?Hc; auto.
Qed.

Lemma strip_forallb (P : ascii -> bool) (s : string) :
  str_forallb P s = true -> str_forallb P (strip s) = true.
Proof. intros H. unfold strip. now apply rstrip_forallb, lstrip_forallb. Qed.

Lemma str_upper_not_comma (s : string) :
  str_forallb not_comma (str_upper s) = str_forallb not_comma s.
Proof. induction s as [|c s IH]; simpl; [reflexivity|]. now rewrite not_comma_upper, IH. Qed.

(** ** [split] *)

Lemma str_split_nonempty (sep : ascii) (s : string) : str_split sep s <> [].
Proof.
  induction s as [|c s IH]; simpl; [discriminate|].
  destruct (Ascii.eqb c sep); [discriminate|].
  destruct (str_split sep s); discriminate.
Qed.

Lemma str_split_not_comma (s : string) :
  Forall (fun t => str_forallb not_comma t = true) (str_split "," s).
Proof.
  induction s as [|c s IH]; simpl; [repeat constructor|].
  destruct (Ascii.eqb c ",") eqn:E; [constructor; [reflexivity|exact IH]|].
  destruct (str_split "," s) as [|h r]; [repeat constructor; simpl; unfold not_comma; now rewrite E|].
  inversion IH; subst. constructor; [|assumption].
  simpl. unfold not_comma at 1. now rewrite E.
Qed.

(** X12: every ticker that [main] reads from the text field is not
    empty, has no white space at either end, no lower-case letter and no
    comma. *)
Theorem parse_tickers_clean (tickers_input : string) :
  ascii_text tickers_input = true ->
  Forall clean_ticker (parse_tickers tickers_input).
Proof.
  intros _. apply Forall_forall. intros t' Ht'.
  unfold parse_tickers in Ht'.
  apply in_map_iff in Ht' as (t & <- & Ht).
  apply filter_In in Ht as [Ht Hb].
  pose proof (str_split_not_comma tickers_input) as Hc.
  rewrite Forall_forall in Hc. specialize (Hc t Ht).
  repeat split.
  - apply str_upper_nonempty. destruct (strip t); [discriminate|discriminate].
  - now rewrite strip_upper, strip_idem.
  - apply str_upper_idem.
  - rewrite str_upper_not_comma. now apply strip_forallb.
Qed.

Lemma parse_tickers_clean_witness :
  Forall clean_ticker (parse_tickers " aapl , ,msft,,  ").
Proof.
  apply (parse_tickers_clean " aapl , ,msft,,  "). reflexivity.
Defined.

Lemma lstrip_empty_iff (s : string) :
  lstrip s = EmptyString <-> str_forallb isspace s = true.
Proof.
  induction s as [|c s IH]; simpl; [tauto|].
  destruct (isspace c); simpl; [exact IH|]. split; discriminate.
Qed.

Lemma rstrip_empty_iff (s : string) :
  rstrip s = EmptyString <-> str_forallb isspace s = true.
Proof.
  induction s as [|c s IH]; simpl; [tauto|].
  destruct (rstrip s) as [|d r].
  - destruct (isspace c); simpl.
    + split; [intros _; now apply IH|reflexivity].
    + split; discriminate.
  - split; [discriminate|]. intros H. apply andb_prop in H as [_ H].
    apply IH in H. discriminate.
Qed.

Lemma lstrip_all_space (s : string) :
  str_forallb isspace (lstrip s) = str_forallb isspace s.
Proof.
  induction s as [|c s IH]; simpl; [reflexivity|].
  destruct (isspace c) eqn:E; simpl; [exact IH|now rewrite E].
Qed.

Lemma strip_empty_iff (s : string) :
  str_bool (strip s) = false <-> str_forallb isspace s = true.
Proof.
  unfold strip. rewrite <- lstrip_all_space, <- rstrip_empty_iff.
  destruct (rstrip (lstrip s)); simpl; split; intros; try reflexivity;
    discriminate.
Qed.

Lemma str_split_all_space (s : string) :
  Forall (fun t => str_forallb isspace t = true) (str_split "," s) <->
  str_forallb space_or_comma s = true.
Proof.
  induction s as [|c s IH]; simpl.
  - split; [reflexivity|repeat constructor].
  - unfold space_or_comma at 1.
    destruct (Ascii.eqb c ",") eqn:E.
    + rewrite orb_true_r. simpl. rewrite <- IH. split.
      * intros H. now inversion H.
      * intros H. constructor; [reflexivity|exact H].
    + rewrite orb_false_r.
      pose proof (str_split_nonempty "," s) as Hne.
      destruct (str_split "," s) as [|h r]; [contradiction|].
      split.
      * intros H. inversion H as [|? ? Hh Hr]; subst. simpl in Hh.
        apply andb_prop in Hh as [Hc Hh]. rewrite Hc. simpl.
        apply IH. now constructor.
      * intros H. apply andb_prop in H as [Hc H].
        apply IH in H. inversion H; subst. constructor; [|assumption].
        simpl. now rewrite Hc.
Qed.

(** X13: the ticker list is empty, and [main] stops with "Please enter at
    least one ticker symbol", exactly when the text field holds nothing
    but commas and white space. *)
Theorem parse_tickers_nil_iff
    (fetch : PortfolioAnalytics -> script (option DataFrame))
    (tickers_input : string) (start_date end_date : Z)
    (number_input : string -> float64 -> float64) (button : bool) :
  ascii_text tickers_input = true ->
  (parse_tickers tickers_input = [] <->
   str_forallb space_or_comma tickers_input = true) /\
  (str_forallb space_or_comma tickers_input = true ->
   main fetch tickers_input start_date end_date number_input button [] =
     (Ok tt, [st_error "Please enter at least one ticker symbol"])).
Proof.
  intros _.
  assert (Hiff : parse_tickers tickers_input = [] <->
                 str_forallb space_or_comma tickers_input = true).
  { rewrite <- str_split_all_space. unfold parse_tickers. split.
    - intros E. apply map_eq_nil in E. apply Forall_forall. intros t Ht.
      apply strip_empty_iff.
      destruct (str_bool (strip t)) eqn:Eb; [|reflexivity].
      assert (Hin : In t (filter (fun ticker => str_bool (strip ticker))
                            (str_split "," tickers_input)))
        by (apply filter_In; auto).
      rewrite E in Hin. destruct Hin.
    - intros H. rewrite Forall_forall in H.
      replace (filter _ _) with (@nil string); [reflexivity|].
      symmetry.
      induction (str_split "," tickers_input) as [|t l IH]; [reflexivity|].
      simpl. rewrite (proj2 (strip_empty_iff t)) by (apply H; left; reflexivity).
      apply IH. intros x Hx. apply H. now right. }
  split; [exact Hiff|].
  intros H. apply Hiff in H. unfold main. rewrite H. reflexivity.
Qed.

Lemma parse_tickers_nil_iff_witness :
  (parse_tickers " , ,, " = [] <->
   str_forallb space_or_comma " , ,, " = true) /\
  (str_forallb space_or_comma " , ,, " = true ->
   main (fun _ => ret None) " , ,, " 0 365 (fun _ v => v) true [] =
     (Ok tt, [st_error "Please enter at least one ticker symbol"])).
Proof.
  apply (parse_tickers_nil_iff (fun _ => ret None) " , ,, " 0 365
           (fun _ v => v) true).
  reflexivity.
Defined.

Lemma str_split_piece (t rest : string) :
  str_forallb not_comma t = true ->
  str_split "," (t ++ String "," rest)%string = t :: str_split "," rest.
Proof.
  induction t as [|c t IH]; simpl; [reflexivity|]. intros H.
  apply andb_prop in H as [Hc Ht]. unfold not_comma in Hc.
  apply negb_true_iff in Hc. rewrite Hc, (IH Ht). reflexivity.
Qed.

Lemma str_split_single (t : string) :
  str_forallb not_comma t = true -> str_split "," t = [t].
Proof.
  induction t as [|c t IH]; simpl; [reflexivity|]. intros H.
  apply andb_prop in H as [Hc Ht]. unfold not_comma in Hc.
  apply negb_true_iff in Hc. rewrite Hc, (IH Ht). reflexivity.
Qed.

Lemma str_split_join (ts : list string) :
  ts <> [] ->
  Forall (fun t => str_forallb not_comma t = true) ts ->
  str_split "," (join_comma ts) = ts.
Proof.
  induction ts as [|t ts IH]; intros Hne H; [contradiction|].
  inversion H as [|? ? Ht Hts]; subst.
  destruct ts as [|u ts].
  - simpl. now apply str_split_single.
  - change (join_comma (t :: u :: ts))
      with (t ++ String "," (join_comma (u :: ts)))%string.
    rewrite str_split_piece by exact Ht.
    now rewrite IH by (discriminate || assumption).
Qed.

(** X14: reading back tickers joined by commas gives the same tickers,
    in the same order, for tickers that are not empty, stripped, without
    lower-case letter and without comma. *)
Theorem parse_tickers_join (ts : list string) :
  Forall (fun t => ascii_text t = true) ts ->
  Forall clean_ticker ts ->
  parse_tickers (join_comma ts) = ts.
Proof.
  intros _ Hclean. destruct ts as [|t0 ts0]; [reflexivity|].
  set (ts := t0 :: ts0) in *.
  unfold parse_tickers. rewrite str_split_join.
  - clearbody ts. induction Hclean as [|t ts (Hne & Hs & Hu & _) _ IH];
      [reflexivity|].
    simpl. rewrite Hs. destruct t as [|c t]; [contradiction|].
    cbn [str_bool map]. rewrite Hs, Hu. f_equal. exact IH.
  - discriminate.
  - apply Forall_impl with (P := clean_ticker); [|exact Hclean].
    intros t (_ & _ & _ & H). exact H.
Qed.

Lemma parse_tickers_join_witness :
  parse_tickers (join_comma ["AAPL"; "MSFT"; "BRK-B"]) = ["AAPL"; "MSFT"; "BRK-B"].
Proof.
  apply (parse_tickers_join ["AAPL"; "MSFT"; "BRK-B"]).
  - repeat constructor.
  - repeat constructor; discriminate.
Defined.

(** ** Normalization of the weights *)

Lemma fold_left_fadd_Fin (l : list R) (a : R) :
  fold_left fadd (map Fin l) (Fin a) = Fin (a + Rsum l).
Proof.
  revert a. induction l as [|x l IH]; intros a; simpl.
  - f_equal. lra.
  - rewrite IH. f_equal. lra.
Qed.

Lemma py_sum_Fin (l : list R) : py_sum (map Fin l) = Fin (Rsum l).
Proof. unfold py_sum. rewrite fold_left_fadd_Fin. f_equal. lra. Qed.

Lemma normalize_weights_Fin (l : list R) :
  0 < Rsum l ->
  normalize_weights (map Fin l) = Some (map Fin (map (fun x => x * / Rsum l) l)).
Proof.
  intros Hs. unfold normalize_weights. rewrite py_sum_Fin. cbn [fltb].
  rewrite (proj2 (Rltb_true _ _) Hs). f_equal.
  rewrite !map_map. apply map_ext. intros x. now rewrite fdiv_Fin by lra.
Qed.

Lemma Rsum_positive (l : list R) :
  (forall x, In x l -> 0 <= x) -> (exists x, In x l /\ 0 < x) -> 0 < Rsum l.
Proof.
  induction l as [|a l IH]; intros Hnn (x & Hx & Hpos); [destruct Hx|].
  assert (0 <= a) by (apply Hnn; left; reflexivity).
  assert (0 <= Rsum l) by (apply Rsum_nonneg; intros; apply Hnn; now right).
  destruct Hx as [->|Hx]; simpl; [lra|].
  assert (0 < Rsum l) by (apply IH; [intros; apply Hnn; now right|eauto]).
  lra.
Qed.

Lemma Rsum_le_total (l : list R) (x : R) :
  (forall y, In y l -> 0 <= y) -> In x l -> x <= Rsum l.
Proof.
  induction l as [|a l IH]; intros Hnn Hx; [destruct Hx|].
  assert (0 <= a) by (apply Hnn; left; reflexivity).
  assert (0 <= Rsum l) by (apply Rsum_nonneg; intros; apply Hnn; now right).
  destruct Hx as [->|Hx]; simpl; [lra|].
  assert (x <= Rsum l) by (apply IH; [intros; apply Hnn; now right|exact Hx]).
  lra.
Qed.

Lemma normalize_weights_valid (entered : list float64) :
  Forall nonnegative entered ->
  Exists positive entered ->
  exists ws,
    normalize_weights entered = Some ws /\
    ws = map (fun w => fdiv w (py_sum entered)) entered /\
    length ws = length entered /\
    normalized ws /\
    Forall (fun w => fleb w (Fin 1) = true) ws.
Proof.
  intros Hnn Hpos.
  destruct (Forall_lifted _ _ Hnn) as [E P].
  set (l := map to_R entered) in *. clearbody l. subst entered.
  assert (Hs : 0 < Rsum l).
  { apply Rsum_positive; [exact P|].
    apply Exists_exists in Hpos as (w & Hw & Hp).
    apply in_map_iff in Hw as (x & <- & Hx). exists x. split; assumption. }
  rewrite normalize_weights_Fin by exact Hs.
  eexists. split; [reflexivity|].
  split.
  { rewrite py_sum_Fin, !map_map. apply map_ext. intros x.
    now rewrite fdiv_Fin by lra. }
  split; [now rewrite !length_map|].
  assert (Hinv : 0 < / Rsum l) by now apply Rinv_0_lt_compat.
  split; [split|].
  - apply Forall_forall. intros w Hw.
    apply in_map_iff in Hw as (y & <- & Hy).
    apply in_map_iff in Hy as (x & <- & Hx).
    simpl. specialize (P x Hx). simpl in P. nra.
  - rewrite np_sum_Fin, Rsum_scale. f_equal. field. lra.
  - apply Forall_forall. intros w Hw.
    apply in_map_iff in Hw as (y & <- & Hy).
    apply in_map_iff in Hy as (x & <- & Hx).
    simpl. apply Rleb_true.
    pose proof (Rsum_le_total l x P Hx).
    apply Rmult_le_reg_r with (Rsum l); [exact Hs|].
    rewrite Rmult_assoc, Rinv_l by lra. lra.
Qed.

(** X15: weights that are finite and not negative, at least one of them
    positive, are accepted; the normalized weights keep their number and
    order, each is the entered weight divided by the total, none is
    negative or above 1, and they sum to 1. *)
Theorem normalize_weights_normalized (entered : list float64) :
  Forall nonnegative entered ->
  Exists positive entered ->
  exists ws,
    normalize_weights entered = Some ws /\
    ws = map (fun w => fdiv w (py_sum entered)) entered /\
    length ws = length entered /\
    normalized ws /\
    Forall (fun w => fleb w (Fin 1) = true) ws.
Proof. exact (normalize_weights_valid entered). Qed.

Lemma normalize_weights_normalized_witness :
  exists ws,
    normalize_weights [Fin 0.5; Fin 0.25; Fin 0] = Some ws /\
    ws = map (fun w => fdiv w (py_sum [Fin 0.5; Fin 0.25; Fin 0]))
             [Fin 0.5; Fin 0.25; Fin 0] /\
    length ws = 3%nat /\
    normalized ws /\
    Forall (fun w => fleb w (Fin 1) = true) ws.
Proof.
  apply (normalize_weights_normalized [Fin 0.5; Fin 0.25; Fin 0]).
  - repeat constructor; simpl; lra.
  - constructor. simpl. lra.
Defined.

Lemma normalize_weights_zero (l : list R) :
  Rsum l <= 0 -> normalize_weights (map Fin l) = None.
Proof.
  intros Hs. unfold normalize_weights. rewrite py_sum_Fin. cbn [fltb].
  now rewrite (proj2 (Rltb_false 0 (Rsum l))) by lra.
Qed.

(** X16: among weights that are finite and not negative, the
    normalization refuses exactly the vectors in which every weight
    is 0. *)
Theorem normalize_weights_rejects (entered : list float64) :
  Forall nonnegative entered ->
  (normalize_weights entered = None <-> Forall (fun w => w = Fin 0) entered).
Proof.
  intros Hnn.
  destruct (Forall_lifted _ _ Hnn) as [E P].
  set (l := map to_R entered) in *. clearbody l. subst entered.
  split.
  - intros Hnone. apply Forall_forall. intros w Hw.
    apply in_map_iff in Hw as (x & <- & Hx). f_equal.
    destruct (Rlt_dec 0 (Rsum l)) as [Hs|Hs].
    + rewrite normalize_weights_Fin in Hnone by exact Hs. discriminate.
    + pose proof (Rsum_le_total l x P Hx). specialize (P x Hx). simpl in P. lra.
  - intros Hz. apply normalize_weights_zero.
    rewrite (Rsum_constant l 0); [lra|].
    intros y Hy. rewrite Forall_forall in Hz.
    assert (E : Fin y = Fin 0) by (apply Hz; now apply in_map).
    now injection E.
Qed.

Lemma normalize_weights_rejects_witness :
  normalize_weights [Fin 0; Fin 0] = None <->
  Forall (fun w => w = Fin 0) [Fin 0; Fin 0].
Proof.
  apply (normalize_weights_rejects [Fin 0; Fin 0]).
  repeat constructor; simpl; lra.
Defined.

(** X18: when every weight widget returns 0, [main] shows "Total weights
    must be greater than 0" and stops: nothing is fetched and nothing is
    analysed, whether the button is pressed or not. *)
Theorem main_zero_weights
    (fetch : PortfolioAnalytics -> script (option DataFrame))
    (tickers_input : string) (start_date end_date : Z)
    (number_input : string -> float64 -> float64) (button : bool) :
  ascii_text tickers_input = true ->
  parse_tickers tickers_input <> [] ->
  NoDup (parse_tickers tickers_input) ->
  (forall label value, number_input label value = Fin 0) ->
  main fetch tickers_input start_date end_date number_input button [] =
    (Ok tt, [st_error "Total weights must be greater than 0"]).
Proof.
  intros _ Hne _ Hzero. unfold main.
  destruct (parse_tickers tickers_input) as [|t ts] eqn:E; [contradiction|].
  set (tk := t :: ts).
  replace (map _ tk) with (map Fin (map (fun _ => 0) tk)).
  - rewrite normalize_weights_zero; [reflexivity|].
    rewrite (Rsum_constant _ 0); [lra|].
    intros y Hy. apply in_map_iff in Hy as (? & <- & _). reflexivity.
  - rewrite map_map. apply map_ext. intros a. now rewrite Hzero.
Qed.

Lemma main_zero_weights_witness :
  main (fun _ => ret None) "AAPL,MSFT" 0 365 (fun _ _ => Fin 0) true [] =
    (Ok tt, [st_error "Total weights must be greater than 0"]).
Proof.
  apply (main_zero_weights (fun _ => ret None) "AAPL,MSFT" 0 365
           (fun _ _ => Fin 0) true).
  - reflexivity.
  - discriminate.
  - repeat constructor; simpl; intuition discriminate.
  - reflexivity.
Defined.

(** * Properties of [fetch_data] and of [main] *)

Lemma filter_forallb {A : Type} (P : A -> bool) (l : list A) :
  forallb P (filter P l) = true.
Proof.
  induction l as [|a l IH]; [reflexivity|]. simpl.
  destruct (P a) eqn:E; [simpl; now rewrite E|exact IH].
Qed.

(** The weights that [main] reads from the widgets. *)
Lemma main_pressed
    (fetch : PortfolioAnalytics -> script (option DataFrame))
    (tickers_input : string) (start_date end_date : Z)
    (number_input : string -> float64 -> float64) (ws : list float64) :
  parse_tickers tickers_input <> [] ->
  normalize_weights
    (map (fun ticker =>
            number_input (ticker ++ " Weight")%string
              (default_weight (parse_tickers tickers_input)))
         (parse_tickers tickers_input)) = Some ws ->
  main fetch tickers_input start_date end_date number_input true =
    (fetched <~ fetch (init (parse_tickers tickers_input) ws start_date end_date) ;;
     run_analysis (parse_tickers tickers_input) ws start_date end_date fetched).
Proof.
  intros Hne Hw. unfold main.
  destruct (parse_tickers tickers_input) as [|t ts]; [contradiction|].
  now rewrite Hw.
Qed.

(** X21: when the download raises, the page of [main] shows the message
    of [fetch_data] with the text of the exception and then "Unable to
    fetch data..."; the run ends without exception. *)
Theorem main_fetch_failure (download : PortfolioAnalytics -> attempt)
    (tickers_input : string) (start_date end_date : Z)
    (number_input : string -> float64 -> float64)
    (ws : list float64) (e : string) :
  ascii_text tickers_input = true ->
  parse_tickers tickers_input <> [] ->
  NoDup (parse_tickers tickers_input) ->
  normalize_weights
    (map (fun ticker =>
            number_input (ticker ++ " Weight")%string
              (default_weight (parse_tickers tickers_input)))
         (parse_tickers tickers_input)) = Some ws ->
  download (init (parse_tickers tickers_input) ws start_date end_date)
    = Exception e ->
  main (fetch_data download) tickers_input start_date end_date number_input
       true [] =
    (Ok tt,
     [st_error ("Error fetching data: " ++ e)%string;
      st_error
        "Unable to fetch data. Please check your ticker symbols and try again."]).
Proof.
  intros _ Hne _ Hw Hd.
  rewrite (main_pressed _ _ _ _ _ ws Hne Hw).
  unfold sbind, fetch_data. rewrite Hd. reflexivity.
Qed.

Lemma main_fetch_failure_witness :
  main (fetch_data (fun _ => Exception "no data")) "AAPL" 0 365
       (fun _ v => v) true [] =
    (Ok tt,
     [st_error ("Error fetching data: " ++ "no data")%string;
      st_error
        "Unable to fetch data. Please check your ticker symbols and try again."]).
Proof.
  apply (main_fetch_failure (fun _ => Exception "no data") "AAPL" 0 365
           (fun _ v => v) [Fin 1] "no data").
  - reflexivity.
  - discriminate.
  - repeat constructor; simpl; intuition discriminate.
  - change (parse_tickers "AAPL") with ["AAPL"].
    cbv [map default_weight length of_nat INR fdiv normalize_weights py_sum
         fold_left fadd fltb].
    decide_R. cbv [fadd fltb map fdiv]. decide_R. repeat f_equal; lra.
  - reflexivity.
Defined.

(** X22: a run of [main] on a well-formed sidebar.  With at least one
    ticker, weight widgets that return numbers that are not negative and
    not all 0, and the button pressed, the weights that reach the engine
    are normalized, one per ticker; and when the fetch gives a table with
    one column per ticker and at least one row of returns, the run ends
    without exception on the metrics page computed from these tickers and
    weights, followed by the risk attribution. *)
Theorem main_analysis_page
    (fetch : PortfolioAnalytics -> script (option DataFrame))
    (tickers_input : string) (start_date end_date : Z)
    (number_input : string -> float64 -> float64)
    (tickers : list string) (entered : list float64) :
  tickers = parse_tickers tickers_input ->
  entered =
    map (fun ticker =>
           number_input (ticker ++ " Weight")%string (default_weight tickers))
        tickers ->
  ascii_text tickers_input = true ->
  tickers <> [] ->
  NoDup tickers ->
  Forall nonnegative entered ->
  Exists positive entered ->
  exists ws,
    normalize_weights entered = Some ws /\
    normalized ws /\
    length ws = length tickers /\
    forall d r,
      (forall page,
         fetch (init tickers ws start_date end_date) page = (Ok (Some d), page)) ->
      returns (prepared tickers ws start_date end_date d) = Some r ->
      (1 <= nrows r)%nat ->
      ncols r = length tickers ->
      exists rets o,
        portfolio_returns (prepared tickers ws start_date end_date d)
          = Ok (Some rets) /\
        risk_attribution (prepared tickers ws start_date end_date d) = Ok o /\
        main fetch tickers_input start_date end_date number_input true [] =
          (Ok tt,
           metrics_page tickers ws rets (nrows r)
             ++ st_subheader "Risk Attribution Analysis"
             :: match o with
                | Some tbl => [bar_chart "Risk Contribution by Asset" tbl;
                               attribution_table tbl]
                | None => []
                end).
Proof.
  intros Et Ee _ Hne _ Hnn Hpos.
  destruct (normalize_weights_valid entered Hnn Hpos)
    as (ws & Hw & _ & Lw & Hnorm & _).
  assert (Lws : length ws = length tickers)
    by (rewrite Lw, Ee; apply length_map).
  exists ws. split; [exact Hw|]. split; [exact Hnorm|]. split; [exact Lws|].
  intros d r Hfetch Hr Hn Hk.
  destruct (run_analysis_page tickers ws start_date end_date d r Hr Hn)
    as (rets & o & Hp & _ & Ho & Hrun); [lia|lia|].
  exists rets, o. split; [exact Hp|]. split; [exact Ho|].
  subst tickers entered.
  rewrite (main_pressed _ _ _ _ _ ws Hne Hw).
  unfold sbind. rewrite Hfetch. exact Hrun.
Qed.

Lemma main_analysis_page_witness :
  exists ws,
    normalize_weights [Fin 1] = Some ws /\
    normalized ws /\
    length ws = length ["A"] /\
    forall d r,
      (forall page,
         (fun _ => ret (Some flat_prices)) (init ["A"] ws 0 365) page
           = (Ok (Some d), page)) ->
      returns (prepared ["A"] ws 0 365 d) = Some r ->
      (1 <= nrows r)%nat ->
      ncols r = length ["A"] ->
      exists rets o,
        portfolio_returns (prepared ["A"] ws 0 365 d) = Ok (Some rets) /\
        risk_attribution (prepared ["A"] ws 0 365 d) = Ok o /\
        main (fun _ => ret (Some flat_prices)) "a" 0 365 (fun _ v => v) true [] =
          (Ok tt,
           metrics_page ["A"] ws rets (nrows r)
             ++ st_subheader "Risk Attribution Analysis"
             :: match o with
                | Some tbl => [bar_chart "Risk Contribution by Asset" tbl;
                               attribution_table tbl]
                | None => []
                end).
Proof.
  apply (main_analysis_page (fun _ => ret (Some flat_prices)) "a" 0 365
           (fun _ v => v) ["A"] [Fin 1]).
  - reflexivity.
  - cbv [map default_weight length of_nat INR fdiv]. decide_R.
    repeat f_equal. lra.
  - reflexivity.
  - discriminate.
  - repeat constructor; simpl; intuition discriminate.
  - repeat constructor. simpl. lra.
  - constructor. simpl. lra.
Defined.

(** ** The cache of [fetch_data] *)

(** X23: the cache of [fetch_data] does not tell portfolios apart.  After
    a first call that fetched a table for one portfolio, a run of [main]
    for tickers whose number differs from the columns of that table ends
    in the [ValueError] of [portfolio_returns], whatever the provider
    would answer now: the cached table is analysed, not a table for the
    tickers typed in. *)
Theorem main_stale_cache (download download' : PortfolioAnalytics -> attempt)
    (first : PortfolioAnalytics) (data : DataFrame)
    (tickers_input : string) (start_date end_date : Z)
    (number_input : string -> float64 -> float64) (ws : list float64) :
  download first = Table data ->
  ascii_text tickers_input = true ->
  parse_tickers tickers_input <> [] ->
  NoDup (parse_tickers tickers_input) ->
  normalize_weights
    (map (fun ticker =>
            number_input (ticker ++ " Weight")%string
              (default_weight (parse_tickers tickers_input)))
         (parse_tickers tickers_input)) = Some ws ->
  ncols data <> length (parse_tickers tickers_input) ->
  fst (fetch_data_cached download None first) = Some (Some (dropna data), []) /\
  main (fun portfolio =>
          snd (fetch_data_cached download'
                 (fst (fetch_data_cached download None first)) portfolio))
       tickers_input start_date end_date number_input true [] =
    (Raise ValueError, []).
Proof.
  intros Hd _ Hne _ Hw Hk.
  assert (Ec : fst (fetch_data_cached download None first)
               = Some (Some (dropna data), [])).
  { unfold fetch_data_cached, fetch_data. now rewrite Hd. }
  split; [exact Ec|]. rewrite Ec.
  assert (Lw : length ws = length (parse_tickers tickers_input)).
  { unfold normalize_weights in Hw.
    destruct (fltb _ _); [|discriminate]. injection Hw as <-.
    now rewrite !length_map. }
  rewrite (main_pressed _ _ _ _ _ ws Hne Hw).
  unfold sbind. cbn [fetch_data_cached snd app].
  apply run_analysis_length_mismatch. now rewrite Lw.
Qed.

Lemma main_stale_cache_witness :
  fst (fetch_data_cached (fun _ => Table flat_prices) None one_asset)
    = Some (Some (dropna flat_prices), []) /\
  main (fun portfolio =>
          snd (fetch_data_cached (fun _ => Exception "not asked")
                 (fst (fetch_data_cached (fun _ => Table flat_prices) None
                         one_asset))
                 portfolio))
       "AAPL,MSFT" 0 365 (fun _ v => v) true [] =
    (Raise ValueError, []).
Proof.
  apply (main_stale_cache (fun _ => Table flat_prices)
           (fun _ => Exception "not asked") one_asset flat_prices
           "AAPL,MSFT" 0 365 (fun _ v => v) [Fin 0.5; Fin 0.5]).
  - reflexivity.
  - reflexivity.
  - discriminate.
  - repeat constructor; simpl; intuition discriminate.
  - change (parse_tickers "AAPL,MSFT") with ["AAPL"; "MSFT"].
    cbv [map default_weight length of_nat INR fdiv normalize_weights py_sum
         fold_left fadd fltb].
    decide_R. cbv [fadd fltb map fdiv]. decide_R. cbv [fadd fltb map fdiv].
    decide_R. repeat f_equal; lra.
  - cbv. discriminate.
Defined.

(** * Further properties of the methods *)

Lemma pct_rows_bound (prev : list float64) (rows : list (list float64)) :
  (length (filter (forallb notna) (pct_rows prev rows)) <= length rows)%nat.
Proof.
  etransitivity; [apply filter_length_le|]. now rewrite pct_rows_length.
Qed.

(** X24: whatever the prices, the table of [calculate_returns] has the
    columns of the price table and no missing value, and, when the price
    table has a column, at least one row fewer than the price table (none
    when the price table is empty). *)
Theorem calculate_returns_bounds (self : PortfolioAnalytics) (d : DataFrame) :
  data self = Some d ->
  rectangular d ->
  (1 <= ncols d)%nat ->
  exists out,
    calculate_returns self = Some out /\
    columns out = columns d /\
    forallb (forallb notna) (values out) = true /\
    (nrows out <= nrows d - 1)%nat.
Proof.
  intros Hd Hrect Hk. unfold calculate_returns. rewrite Hd.
  eexists. split; [reflexivity|]. split; [reflexivity|].
  split; [apply filter_forallb|].
  unfold nrows, rectangular in *. cbn [values dropna pct_change columns].
  destruct (values d) as [|r0 rows]; [simpl; lia|].
  inversion Hrect as [|? ? Hr0 _]; subst.
  cbn [pct_rows filter].
  rewrite (pct_first_row_dropped (ncols d) r0 Hr0 Hk).
  pose proof (pct_rows_bound r0 rows). simpl. lia.
Qed.

Lemma calculate_returns_bounds_witness :
  exists out,
    calculate_returns
      (mkPortfolioAnalytics ["A"] [Fin 1] 0 365
         (Some (mkDataFrame ["A"] [[Fin 0]; [Fin 0]; [Fin 5]])) None)
      = Some out /\
    columns out = ["A"] /\
    forallb (forallb notna) (values out) = true /\
    (nrows out <= 3 - 1)%nat.
Proof.
  apply (calculate_returns_bounds
           (mkPortfolioAnalytics ["A"] [Fin 1] 0 365
              (Some (mkDataFrame ["A"] [[Fin 0]; [Fin 0]; [Fin 5]])) None)
           (mkDataFrame ["A"] [[Fin 0]; [Fin 0]; [Fin 5]])).
  - reflexivity.
  - repeat constructor.
  - apply le_n.
Defined.
